(** * SCTL-GFA: share ledger and fermage engine

    A shallow embedding of the core of [backend/app/crud.py] and of the
    route [calculate_fermage] of [backend/app/api/routes/parcelles.py],
    over the tables declared in [backend/app/models.py].

    - Python's [decimal.Decimal] under the default context
      (prec=28, ROUND_HALF_EVEN, Emin=-999999, Emax=999999, Overflow,
      DivisionByZero and InvalidOperation trapped) is modelled as a
      coefficient and an exponent together with the rounding step every
      arithmetic operation ends with.
    - A SQL table is the list of its rows; the SQLModel [Session] is the
      record of the tables.  Queries are written with [filter], [flat_map]
      (joins) and an insertion sort (ORDER BY).
    - An exception is a value of [error]; fallible code lives in the
      [result] monad. *)

From Stdlib Require Import String ZArith QArith Qpower Qfield Bool List Lia Permutation Sorted ListSet.
Import ListNotations.

Local Open Scope Z_scope.

(** ** Exceptions *)

Inductive error : Type :=
| DecimalOverflow      (* decimal.Overflow *)
| DivisionByZero       (* decimal.DivisionByZero *)
| InvalidOperation     (* decimal.InvalidOperation *)
| IntegrityError.      (* sqlalchemy.exc.IntegrityError *)

Inductive result (A : Type) : Type :=
| Ok (a : A)
| Raise (e : error).

Arguments Ok {A} a.
Arguments Raise {A} e.

Definition bind {A B : Type} (m : result A) (k : A -> result B) : result B :=
  match m with
  | Ok a => k a
  | Raise e => Raise e
  end.

Notation "x <- m ;; k" := (bind m (fun x => k))
  (at level 61, m at next level, right associativity).

(** ** Decimal arithmetic (Python's [decimal] module, default context) *)

(** A finite decimal number [coeff * 10 ^ expo].  The sign lives in the
    coefficient, so [Decimal("-0")] and [Decimal("0")] are one value (Python
    compares them equal).  NaN and the infinities are not values of this
    type: the request validation rejects them and no operation below
    produces them while Overflow is trapped. *)
Record Decimal : Type := mkDecimal { coeff : Z; expo : Z }.

Definition prec : Z := 28.
Definition Emax : Z := 999999.
Definition Emin : Z := -999999.
Definition Etiny : Z := Emin - prec + 1.
Definition Etop : Z := Emax - prec + 1.



(** [Decimal.__bool__]: zero is falsy. *)
Definition dec_truthy (d : Decimal) : bool := negb (coeff d =? 0).

(** [len(self._int)]: the number of decimal digits of a natural number. *)
Fixpoint ndigits_aux (fuel : nat) (n : Z) : Z :=
  match fuel with
  | O => 1
  | S f => if n <? 10 then 1 else 1 + ndigits_aux f (n / 10)
  end.

Definition ndigits (n : Z) : Z := ndigits_aux (Z.to_nat (Z.log2 n)) n.

(** ROUND_HALF_EVEN of [n / 10 ^ k] for [0 <= n]. *)
Definition round_half_even (n k : Z) : Z :=
  let q := n / 10 ^ k in
  let r := n mod 10 ^ k in
  if (10 ^ k <? 2 * r) || ((2 * r =? 10 ^ k) && Z.odd q) then q + 1 else q.

(** [Decimal._fix]: round to the context's precision and exponent range. *)
Definition dec_fix (d : Decimal) : result Decimal :=
  if coeff d =? 0 then
    Ok (mkDecimal 0 (Z.min (Z.max (expo d) Etiny) Emax))
  else
    let n := Z.abs (coeff d) in
    let exp_min := ndigits n + expo d - prec in
    if Etop <? exp_min then Raise DecimalOverflow
    else
      let exp_min := Z.max exp_min Etiny in
      if expo d <? exp_min then
        let q := round_half_even n (exp_min - expo d) in
        let q' := if prec <? ndigits q then q / 10 else q in
        let exp_min' := if prec <? ndigits q then exp_min + 1 else exp_min in
        if Etop <? exp_min' then Raise DecimalOverflow
        else Ok (mkDecimal (Z.sgn (coeff d) * q') exp_min')
      else Ok d.

(** [Decimal.__mul__] *)
Definition dec_mul (a b : Decimal) : result Decimal :=
  dec_fix (mkDecimal (coeff a * coeff b) (expo a + expo b)).

(** [Decimal.__add__]: the exact sum at the smaller exponent, then rounded. *)
Definition dec_add (a b : Decimal) : result Decimal :=
  let e := Z.min (expo a) (expo b) in
  dec_fix (mkDecimal (coeff a * 10 ^ (expo a - e) + coeff b * 10 ^ (expo b - e)) e).

(** The loop of [Decimal.__truediv__] that brings an exact quotient as close
    to the ideal exponent as its trailing zeros allow. *)
Fixpoint strip_zeros (fuel : nat) (q e : Z) : Z * Z :=
  match fuel with
  | O => (q, e)
  | S f => if q mod 10 =? 0 then strip_zeros f (q / 10) (e + 1) else (q, e)
  end.

(** [Decimal.__truediv__] *)
Definition dec_div (a b : Decimal) : result Decimal :=
  if coeff b =? 0 then
    Raise (if coeff a =? 0 then InvalidOperation else DivisionByZero)
  else if coeff a =? 0 then
    dec_fix (mkDecimal 0 (expo a - expo b))
  else
    let na := Z.abs (coeff a) in
    let nb := Z.abs (coeff b) in
    let shift := ndigits nb - ndigits na + prec + 1 in
    let e := expo a - expo b - shift in
    let '(q, r) :=
      if 0 <=? shift then Z.div_eucl (na * 10 ^ shift) nb
      else Z.div_eucl na (nb * 10 ^ (- shift)) in
    let '(q', e') :=
      if r =? 0 then strip_zeros (Z.to_nat shift) q e
      else ((if q mod 5 =? 0 then q + 1 else q), e) in
    dec_fix (mkDecimal (Z.sgn (coeff a) * Z.sgn (coeff b) * q') e').

(** Decimal literals of the source. *)
Definition dec_0 : Decimal := mkDecimal 0 0.           (* Decimal("0") *)
Definition dec_0_0 : Decimal := mkDecimal 0 (-1).      (* Decimal("0.0") *)
Definition dec_1_0 : Decimal := mkDecimal 10 (-1).     (* Decimal("1.0") *)
Definition dec_100 : Decimal := mkDecimal 100 0.       (* Decimal("100") *)
Definition dec_10000 : Decimal := mkDecimal 10000 0.   (* Decimal("10000") *)

(** ** The tables of [models.py]

    One module per table class; a row is a record with the columns the
    operations below read or write.  Relationship attributes are resolved
    through the tables ([session_get]).  Columns declared [T | None] are
    [option]s. *)

(** [datetime.date], compared as Python and SQL compare dates. *)
Record date : Type := mkDate { year : Z; month : Z; day : Z }.

Definition date_leb (a b : date) : bool :=
  (year a <? year b)
  || ((year a =? year b)
      && ((month a <? month b) || ((month a =? month b) && (day a <=? day b)))).

(** [class TypeStructure(IntEnum)] *)
Module TypeStructure.
Definition ALL_TYPES : Z := 0.
Definition GFA : Z := 2.
Definition ASSOC : Z := 5.
Definition TSL : Z := 6.
End TypeStructure.

Module Structure.
Record t : Type := mk {
  id : Z;
  nom_structure : string;
  type_structure : Z;
  gfa : option string
}.
End Structure.

Module Acte.
Record t : Type := mk {
  id : Z;
  code_acte : string;
  date_acte : option date;
  libelle_acte : option string;
  provisoire : bool;
  id_structure : option Z
}.
End Acte.

Module Personne.
(** The identity, address and flag columns the filters read; the other
    contact and note columns play no part in any query below. *)
Record t : Type := mk {
  id : Z;
  nom : string;
  prenom : option string;
  code_postal : option string;
  ville : option string;
  npai : bool;
  decede : bool;
  termine : bool;
  fondateur : bool;
  de_droit : bool;
  adherent : bool;
  est_personne_morale : bool;
  id_structure : option Z;
  id_personne_morale : option Z
}.
End Personne.

Module Mouvement.
Record t : Type := mk {
  id : Z;
  date_operation : option date;
  sens : bool;
  nb_parts : Z;
  id_personne : Z;
  id_acte : option Z;
  id_type_apport : option Z;
  id_type_remboursement : option Z
}.
End Mouvement.

Module NumeroPart.
Record t : Type := mk {
  id : Z;
  num_part : Z;
  termine : bool;
  distribue : bool;
  etat : Z;
  id_personne : Z;
  id_mouvement : option Z;
  id_structure : option Z
}.
End NumeroPart.

Module ValeurPoint.
Record t : Type := mk {
  id : Z;
  annee : Z;
  valeur_point_gfa : Decimal;
  valeur_point_sctl : Decimal;
  valeur_supp_gfa : Decimal;
  valeur_supp_sctl : Decimal
}.
End ValeurPoint.

(** [ValeurPointCreate]: the columns of [ValeurPointBase], no [id]. *)
Module ValeurPointCreate.
Record t : Type := mk {
  annee : Z;
  valeur_point_gfa : Decimal;
  valeur_point_sctl : Decimal;
  valeur_supp_gfa : Decimal;
  valeur_supp_sctl : Decimal
}.
End ValeurPointCreate.

Module Parcelle.
Record t : Type := mk {
  id : Z;
  parcelle : string;
  sctl : bool;
  id_commune : Z;
  id_lieu_dit : option Z;
  id_gfa : option Z
}.
End Parcelle.

Module Subdivision.
Record t : Type := mk {
  id : Z;
  division : Z;
  subdivision : Z;
  surface : Decimal;
  revenu : Decimal;
  duree_fermage : Z;
  point_fermage : Decimal;
  id_parcelle : Z;
  id_exploitant : option Z
}.
End Subdivision.

(** The database behind a [Session]: every table as the list of its rows. *)
Record Session : Type := mkSession {
  structures : list Structure.t;
  actes : list Acte.t;
  personnes : list Personne.t;
  mouvements : list Mouvement.t;
  numeros_parts : list NumeroPart.t;
  valeurs_points : list ValeurPoint.t;
  parcelles : list Parcelle.t;
  subdivisions : list Subdivision.t
}.

(** The columns declared [int] are INTEGER columns of PostgreSQL: they hold
    the integers of 32 bits.  A request model accepts any Python [int]; a
    write of a larger one is refused by the database, so what is stated
    below of a write that goes through is stated of requests that fit. *)
Definition int4 (z : Z) : Prop := -2147483648 <= z <= 2147483647.

Definition int4_opt (o : option Z) : Prop :=
  match o with
  | Some z => int4 z
  | None => True
  end.

(** ** Query building blocks *)

(** [session.get(Table, pk)]: the row with that primary key. *)
Definition session_get {A : Type} (pk : A -> Z) (table : list A) (k : Z) : option A :=
  find (fun row => pk row =? k) table.

(** [column == value] on a nullable column: NULL matches nothing. *)
Definition col_eqb (col : option Z) (v : Z) : bool :=
  match col with
  | Some c => c =? v
  | None => false
  end.

(** [if x is not None: statement = statement.where(test x)] *)
Definition where_opt {A : Type} (o : option A) (test : A -> bool) : bool :=
  match o with
  | Some a => test a
  | None => true
  end.

(** [if x: statement = statement.where(test x)] for a string [x]:
    the empty string is falsy. *)
Definition where_str (o : option string) (test : string -> bool) : bool :=
  match o with
  | Some EmptyString => true
  | Some x => test x
  | None => true
  end.

(** [.join(B, on)] *)
Definition join {A B : Type} (l : list A) (r : list B) (on : A -> B -> bool)
  : list (A * B) :=
  flat_map (fun a => map (pair a) (filter (on a) r)) l.

(** [.outerjoin(B, on)]: a left row without partner is kept with NULLs. *)
Definition outerjoin {A B : Type} (l : list A) (r : list B) (on : A -> B -> bool)
  : list (A * option B) :=
  flat_map (fun a =>
              match filter (on a) r with
              | [] => [(a, None)]
              | bs => map (fun b => (a, Some b)) bs
              end) l.

(** [func.coalesce(a, b)] *)
Definition coalesce {A : Type} (a b : option A) : option A :=
  match a with
  | Some _ => a
  | None => b
  end.

(** [.order_by(...)]: a stable insertion sort; [le x y] says that [x] may
    come before [y].  Among rows that compare equal the database fixes no
    order; the sort keeps them in table order, and nothing below is stated
    of the order of such rows. *)
Fixpoint insert_by {A : Type} (le : A -> A -> bool) (x : A) (l : list A) : list A :=
  match l with
  | [] => [x]
  | y :: l' => if le x y then x :: l else y :: insert_by le x l'
  end.

Definition order_by {A : Type} (le : A -> A -> bool) (l : list A) : list A :=
  fold_right (insert_by le) [] l.

(** [.offset(skip).limit(limit)] *)
Definition page {A : Type} (skip limit : nat) (l : list A) : list A :=
  firstn limit (skipn skip l).

(** [select(key, func.count()) ... .group_by(key)] *)
Definition group_count (keys : list Z) : list (Z * Z) :=
  map (fun k => (k, Z.of_nat (count_occ Z.eq_dec keys k))) (nodup Z.eq_dec keys).

Definition count {A : Type} (l : list A) : Z := Z.of_nat (length l).


(** ** Share ledger ([crud.py], PERSONNE / MOUVEMENT / NUMERO PART) *)

(** [class PersonneWithParts(PersonnePublic)]: the columns of the personne
    ([**personne.model_dump()]) and the three counts. *)
Record PersonneWithParts : Type := mkPersonneWithParts {
  personne : Personne.t;
  nb_parts_gfa : Z;
  nb_parts_sctl : Z;
  nb_parts_total : Z
}.

(** [select(...).select_from(NumeroPart)
      .join(Structure, NumeroPart.id_structure == Structure.id)] *)
Definition parts_join_structure (s : Session) : list (NumeroPart.t * Structure.t) :=
  join (numeros_parts s) (structures s)
       (fun p st => col_eqb (NumeroPart.id_structure p) (Structure.id st)).

(** [.where(NumeroPart.termine == False)
     .where(Structure.type_structure == kind)] *)
Definition open_part_of_kind (kind : Z) (row : NumeroPart.t * Structure.t) : bool :=
  negb (NumeroPart.termine (fst row)) && (Structure.type_structure (snd row) =? kind).

(** The two counting queries of [get_personne_with_parts]. *)
Definition count_parts_of_personne (s : Session) (personne_id kind : Z) : Z :=
  count (filter (fun row => (NumeroPart.id_personne (fst row) =? personne_id)
                            && open_part_of_kind kind row)
                (parts_join_structure s)).

Definition get_personne_with_parts (s : Session) (personne_id : Z)
  : option PersonneWithParts :=
  match session_get Personne.id (personnes s) personne_id with
  | None => None
  | Some personne =>
      let gfa_count := count_parts_of_personne s personne_id TypeStructure.GFA in
      let sctl_count := count_parts_of_personne s personne_id TypeStructure.TSL in
      Some (mkPersonneWithParts personne gfa_count sctl_count (gfa_count + sctl_count))
  end.

(** The keyword filters of [get_personnes] and [get_personnes_with_parts]. *)
Record PersonneFilters : Type := mkPersonneFilters {
  f_nom : option string;
  f_ville : option string;
  f_code_postal : option string;
  f_id_structure : option Z;
  f_npai : option bool;
  f_decede : option bool;
  f_termine : option bool;
  f_fondateur : option bool;
  f_de_droit : option bool;
  f_adherent : option bool;
  f_est_personne_morale : option bool
}.

Section Personnes.

(** What the database engine decides: [ilike pattern value] is PostgreSQL's
    [value ILIKE pattern], and [personne_le p q] says that [p] may precede
    [q] under [ORDER BY personnes.nom, personnes.prenom] in the collation
    of the database. *)
Variable ilike : string -> string -> bool.
Variable personne_le : Personne.t -> Personne.t -> bool.

Definition ilike_col (col : option string) (pattern : string) : bool :=
  match col with
  | Some v => ilike pattern v
  | None => false
  end.

Definition str_col_eqb (col : option string) (v : string) : bool :=
  match col with
  | Some c => String.eqb c v
  | None => false
  end.

(** The chain of [if ...: statement = statement.where(...)]. *)
Definition personne_matches (f : PersonneFilters) (p : Personne.t) : bool :=
  where_str (f_nom f) (fun nom => ilike ("%" ++ nom ++ "%") (Personne.nom p))
  && where_str (f_ville f) (fun ville => ilike_col (Personne.ville p) ("%" ++ ville ++ "%"))
  && where_str (f_code_postal f) (fun cp => str_col_eqb (Personne.code_postal p) cp)
  && where_opt (f_id_structure f) (fun i => col_eqb (Personne.id_structure p) i)
  && where_opt (f_npai f) (fun b => Bool.eqb (Personne.npai p) b)
  && where_opt (f_decede f) (fun b => Bool.eqb (Personne.decede p) b)
  && where_opt (f_termine f) (fun b => Bool.eqb (Personne.termine p) b)
  && where_opt (f_fondateur f) (fun b => Bool.eqb (Personne.fondateur p) b)
  && where_opt (f_de_droit f) (fun b => Bool.eqb (Personne.de_droit p) b)
  && where_opt (f_adherent f) (fun b => Bool.eqb (Personne.adherent p) b)
  && where_opt (f_est_personne_morale f)
               (fun b => Bool.eqb (Personne.est_personne_morale p) b).

(** [gfa_subquery] and [sctl_subquery]: per owner, the number of open parts
    under a structure of the given kind. *)
Definition parts_subquery (s : Session) (kind : Z) : list (Z * Z) :=
  group_count
    (map (fun row => NumeroPart.id_personne (fst row))
         (filter (open_part_of_kind kind) (parts_join_structure s))).

(** [func.coalesce(subquery.c.count, 0)] *)
Definition coalesce_count (c : option (Z * Z)) : Z :=
  match c with
  | Some kc => snd kc
  | None => 0
  end.

Definition get_personnes_with_parts
    (s : Session) (skip limit : nat) (f : PersonneFilters)
  : list PersonneWithParts * Z :=
  let gfa_subquery := parts_subquery s TypeStructure.GFA in
  let sctl_subquery := parts_subquery s TypeStructure.TSL in
  let statement :=
    outerjoin
      (outerjoin (personnes s) gfa_subquery
                 (fun p sub => Personne.id p =? fst sub))
      sctl_subquery
      (fun row sub => Personne.id (fst row) =? fst sub) in
  let statement := filter (fun row => personne_matches f (fst (fst row))) statement in
  let count_statement := filter (personne_matches f) (personnes s) in
  let results :=
    page skip limit
         (order_by (fun r1 r2 => personne_le (fst (fst r1)) (fst (fst r2))) statement) in
  (map (fun row =>
          let personne := fst (fst row) in
          let gfa_count := coalesce_count (snd (fst row)) in
          let sctl_count := coalesce_count (snd row) in
          mkPersonneWithParts personne gfa_count sctl_count (gfa_count + sctl_count))
       results,
   count count_statement).

End Personnes.

(** [class PartsTotaux] / the dict of [get_parts_totals]. *)
Record PartsTotaux : Type := mkPartsTotaux {
  gfa : Z;
  sctl : Z;
  total : Z;
  actionnaires : Z
}.

Definition get_parts_totals (s : Session) : PartsTotaux :=
  let gfa_total :=
    count (filter (open_part_of_kind TypeStructure.GFA) (parts_join_structure s)) in
  let sctl_total :=
    count (filter (open_part_of_kind TypeStructure.TSL) (parts_join_structure s)) in
  let actionnaires_count :=
    count (nodup Z.eq_dec
                 (map NumeroPart.id_personne
                      (filter (fun p => negb (NumeroPart.termine p)) (numeros_parts s)))) in
  mkPartsTotaux gfa_total sctl_total (gfa_total + sctl_total) actionnaires_count.

(** The filters of [get_mouvements]. *)
Record MouvementFilters : Type := mkMouvementFilters {
  f_id_personne : option Z;
  f_id_acte : option Z;
  f_sens : option bool
}.


(** [ORDER BY d DESC] in PostgreSQL: NULL counts as larger than every
    value, so it comes first; then later dates before earlier ones. *)
Definition desc_le (a b : option date) : bool :=
  match a, b with
  | None, _ => true
  | Some _, None => false
  | Some x, Some y => date_leb y x
  end.

Definition mouvement_matches (f : MouvementFilters) (m : Mouvement.t) : bool :=
  where_opt (f_id_personne f) (fun i => Mouvement.id_personne m =? i)
  && where_opt (f_id_acte f) (fun i => col_eqb (Mouvement.id_acte m) i)
  && where_opt (f_sens f) (fun b => Bool.eqb (Mouvement.sens m) b).



(** [part.id_personne = new_owner_id; part.id_mouvement = mouvement_id] *)
Definition reassign (new_owner_id mouvement_id : Z) (part : NumeroPart.t) : NumeroPart.t :=
  NumeroPart.mk (NumeroPart.id part) (NumeroPart.num_part part)
                (NumeroPart.termine part) (NumeroPart.distribue part)
                (NumeroPart.etat part)
                new_owner_id (Some mouvement_id) (NumeroPart.id_structure part).

(** [UPDATE numeros_parts SET ... WHERE id = k] *)
Definition update_part (k : Z) (upd : NumeroPart.t -> NumeroPart.t)
    (table : list NumeroPart.t) : list NumeroPart.t :=
  map (fun row => if NumeroPart.id row =? k then upd row else row) table.

(** The loop of [transfer_parts].  [table] is the table as the session sees
    it (pending changes included); [transferred] holds references, kept
    here as primary keys. *)
Fixpoint transfer_loop (new_owner_id mouvement_id : Z) (part_ids : list Z)
    (table : list NumeroPart.t) (transferred : list Z)
  : list NumeroPart.t * list Z :=
  match part_ids with
  | [] => (table, transferred)
  | part_id :: rest =>
      match session_get NumeroPart.id table part_id with
      | Some _ =>
          transfer_loop new_owner_id mouvement_id rest
                        (update_part part_id (reassign new_owner_id mouvement_id) table)
                        (transferred ++ [part_id])
      | None => transfer_loop new_owner_id mouvement_id rest table transferred
      end
  end.

Definition has_row {A : Type} (pk : A -> Z) (table : list A) (k : Z) : bool :=
  existsb (fun row => pk row =? k) table.

Definition with_numeros_parts (s : Session) (table : list NumeroPart.t) : Session :=
  mkSession (structures s) (actes s) (personnes s) (mouvements s) table
            (valeurs_points s) (parcelles s) (subdivisions s).

(** [transfer_parts]: the database after the call and the outcome.
    [session.commit()] writes the changed rows; the foreign keys
    numeros_parts.id_personne -> personnes.id and
    numeros_parts.id_mouvement -> mouvements.id of [models.py] are checked
    on them, and a violation leaves the database as it was.  After the
    commit every transferred object is refreshed from its row. *)
Definition transfer_parts (s : Session) (part_ids : list Z)
    (new_owner_id mouvement_id : Z)
  : Session * result (list NumeroPart.t) :=
  let '(table, transferred) :=
    transfer_loop new_owner_id mouvement_id part_ids (numeros_parts s) [] in
  match transferred with
  | [] => (s, Ok [])
  | _ :: _ =>
      if has_row Personne.id (personnes s) new_owner_id
         && has_row Mouvement.id (mouvements s) mouvement_id
      then
        (with_numeros_parts s table,
         Ok (flat_map (fun k => match session_get NumeroPart.id table k with
                                | Some part => [part]
                                | None => []
                                end) transferred))
      else (s, Raise IntegrityError)
  end.

(** ** Anomaly detection *)

Definition find_parts_sans_mouvements (s : Session) (id_structure : option Z)
  : list NumeroPart.t :=
  filter (fun p =>
            match NumeroPart.id_mouvement p with None => true | Some _ => false end
            && where_opt id_structure (fun i => col_eqb (NumeroPart.id_structure p) i))
         (numeros_parts s).

(** ** Point values ([crud.py], VALEUR POINTS CRUD) *)

(** [select(ValeurPoint).where(ValeurPoint.annee == annee)] then [.first()].
    The statement has no ORDER BY: when a year has several rows the code
    does not fix which one is returned; [find] takes the first in table
    order, and what is stated below of the result holds of any of them. *)
Definition get_valeur_point_by_annee (s : Session) (annee : Z) : option ValeurPoint.t :=
  find (fun v => ValeurPoint.annee v =? annee) (valeurs_points s).

(** The value the sequence behind the primary key hands out next. *)
Definition next_id (ids : list Z) : Z := 1 + fold_right Z.max 0 ids.

Definition with_valeurs_points (s : Session) (table : list ValeurPoint.t) : Session :=
  mkSession (structures s) (actes s) (personnes s) (mouvements s) (numeros_parts s)
            table (parcelles s) (subdivisions s).

(** [create_valeur_point].  The table [valeurs_points] has a primary key
    and an index on [annee] ([Field(index=True)]) and no unique constraint,
    so the INSERT is not refused on account of the rows the table holds. *)
Definition create_valeur_point (s : Session) (valeur_in : ValeurPointCreate.t)
  : Session * result ValeurPoint.t :=
  let db_obj :=
    ValeurPoint.mk (next_id (map ValeurPoint.id (valeurs_points s)))
                   (ValeurPointCreate.annee valeur_in)
                   (ValeurPointCreate.valeur_point_gfa valeur_in)
                   (ValeurPointCreate.valeur_point_sctl valeur_in)
                   (ValeurPointCreate.valeur_supp_gfa valeur_in)
                   (ValeurPointCreate.valeur_supp_sctl valeur_in) in
  (with_valeurs_points s (valeurs_points s ++ [db_obj]), Ok db_obj).

(** ** Fermage ([crud.py], FERMAGE CALCULATION) *)

Definition calculer_montant_fermage
    (point_fermage surface : Decimal) (est_sctl : bool)
    (valeur_point_gfa valeur_point_sctl : Decimal)
    (supp_gfa supp_sctl : bool)
    (valeur_supp_gfa valeur_supp_sctl : Decimal)
  : result Decimal :=
  ps <- dec_mul point_fermage surface ;;
  result <- dec_div ps dec_10000 ;;
  if est_sctl then
    result <- dec_mul result valeur_point_sctl ;;
    if supp_sctl then
      t <- dec_mul result valeur_supp_sctl ;;
      u <- dec_div t dec_100 ;;
      dec_add result u
    else Ok result
  else
    result <- dec_mul result valeur_point_gfa ;;
    if supp_gfa then
      t <- dec_mul result valeur_supp_gfa ;;
      u <- dec_div t dec_100 ;;
      dec_add result u
    else Ok result.

(** [x or default] on a Decimal. *)
Definition dec_or (x default : Decimal) : Decimal :=
  if dec_truthy x then x else default.

(** The dict returned by the route [calculate_fermage], before each Decimal
    goes through [float(...)]; the conversion to binary floating point is
    not part of the embedding. *)
Record FermageCalcul : Type := mkFermageCalcul {
  c_point_fermage : Decimal;
  c_surface : Decimal;
  c_sctl : bool;
  c_annee : option Z;
  c_valeur_point : Decimal;
  montant_fermage : Decimal
}.

(** [if annee: valeur_point = crud.get_valeur_point_by_annee(...)]:
    [None] and [0] are falsy. *)
Definition valeur_point_for (s : Session) (annee : option Z) : option ValeurPoint.t :=
  match annee with
  | Some y => if y =? 0 then None else get_valeur_point_by_annee s y
  | None => None
  end.

Definition calculate_fermage (s : Session) (point_fermage surface : Decimal)
    (sctl : bool) (annee : option Z) : result FermageCalcul :=
  let valeur_point := valeur_point_for s annee in
  let valeur_point_gfa :=
    match valeur_point with
    | Some vp => dec_or (ValeurPoint.valeur_point_gfa vp) dec_1_0
    | None => dec_1_0
    end in
  let valeur_point_sctl :=
    match valeur_point with
    | Some vp => dec_or (ValeurPoint.valeur_point_sctl vp) dec_1_0
    | None => dec_1_0
    end in
  let valeur_supp_gfa :=
    match valeur_point with
    | Some vp => dec_or (ValeurPoint.valeur_supp_gfa vp) dec_0_0
    | None => dec_0_0
    end in
  let valeur_supp_sctl :=
    match valeur_point with
    | Some vp => dec_or (ValeurPoint.valeur_supp_sctl vp) dec_0_0
    | None => dec_0_0
    end in
  montant <- calculer_montant_fermage point_fermage surface sctl
               valeur_point_gfa valeur_point_sctl false false
               valeur_supp_gfa valeur_supp_sctl ;;
  Ok (mkFermageCalcul point_fermage surface sctl annee
                      (if sctl then valeur_point_sctl else valeur_point_gfa)
                      montant).

(** [class FermageTotaux] *)
Record FermageTotaux : Type := mkFermageTotaux {
  total_surface : Decimal;
  total_revenu : Decimal;
  total_montant : Decimal;
  nb_parcelles : Z
}.

Record FermageFilters : Type := mkFermageFilters {
  f_id_exploitant : option Z;
  f_id_commune : option Z;
  f_sctl : option bool
}.

(** The WHERE clauses of [get_fermage_totaux] on a row of the join. *)
Definition fermage_row_matches (f : FermageFilters)
    (sub : Subdivision.t) (p : Parcelle.t) : bool :=
  where_opt (f_id_exploitant f) (fun i => col_eqb (Subdivision.id_exploitant sub) i)
  && where_opt (f_id_commune f) (fun i => Parcelle.id_commune p =? i)
  && where_opt (f_sctl f) (fun b => Bool.eqb (Parcelle.sctl p) b).

(** [select(Subdivision).join(Parcelle, Subdivision.id_parcelle == Parcelle.id)]
    with the filters; the statement selects the subdivision of each row. *)
Definition fermage_statement (s : Session) (f : FermageFilters) : list Subdivision.t :=
  map fst
      (filter (fun row => fermage_row_matches f (fst row) (snd row))
              (join (subdivisions s) (parcelles s)
                    (fun sub p => Subdivision.id_parcelle sub =? Parcelle.id p))).

(** [sub.parcelle.sctl if sub.parcelle else False] *)
Definition est_sctl_of (s : Session) (sub : Subdivision.t) : bool :=
  match session_get Parcelle.id (parcelles s) (Subdivision.id_parcelle sub) with
  | Some p => Parcelle.sctl p
  | None => false
  end.

(** The rent of one subdivision as the loop computes it: the supplement
    flags keep their default [False]. *)
Definition montant_subdivision (s : Session) (vp : ValeurPoint.t) (sub : Subdivision.t)
  : result Decimal :=
  calculer_montant_fermage
    (Subdivision.point_fermage sub) (Subdivision.surface sub) (est_sctl_of s sub)
    (ValeurPoint.valeur_point_gfa vp) (ValeurPoint.valeur_point_sctl vp)
    false false
    (ValeurPoint.valeur_supp_gfa vp) (ValeurPoint.valeur_supp_sctl vp).

(** The accumulators of the loop of [get_fermage_totaux]. *)
Record Totaux : Type := mkTotaux {
  acc_surface : Decimal;
  acc_revenu : Decimal;
  acc_montant : Decimal;
  parcelle_ids : set Z
}.

Definition fermage_step (s : Session) (valeur_point : option ValeurPoint.t)
    (acc : Totaux) (sub : Subdivision.t) : result Totaux :=
  total_surface <- dec_add (acc_surface acc) (Subdivision.surface sub) ;;
  total_revenu <- dec_add (acc_revenu acc) (Subdivision.revenu sub) ;;
  let ids := set_add Z.eq_dec (Subdivision.id_parcelle sub) (parcelle_ids acc) in
  match valeur_point with
  | Some vp =>
      m <- montant_subdivision s vp sub ;;
      total_montant <- dec_add (acc_montant acc) m ;;
      Ok (mkTotaux total_surface total_revenu total_montant ids)
  | None => Ok (mkTotaux total_surface total_revenu (acc_montant acc) ids)
  end.

Fixpoint fermage_loop (s : Session) (valeur_point : option ValeurPoint.t)
    (subs : list Subdivision.t) (acc : Totaux) : result Totaux :=
  match subs with
  | [] => Ok acc
  | sub :: rest =>
      acc' <- fermage_step s valeur_point acc sub ;;
      fermage_loop s valeur_point rest acc'
  end.

Definition get_fermage_totaux (s : Session) (f : FermageFilters)
    (valeur_point : option ValeurPoint.t) : result FermageTotaux :=
  acc <- fermage_loop s valeur_point (fermage_statement s f)
                      (mkTotaux dec_0 dec_0 dec_0 (empty_set Z)) ;;
  Ok (mkFermageTotaux (acc_surface acc) (acc_revenu acc) (acc_montant acc)
                      (count (parcelle_ids acc))).

(** The route [get_fermages_totaux] of [parcelles.py]: resolve the year's
    row, then aggregate. *)
Definition get_fermages_totaux (s : Session) (annee : option Z) (f : FermageFilters)
  : result FermageTotaux :=
  get_fermage_totaux s f (valeur_point_for s annee).

(** ** The properties in the words of the specification *)

(** Python's [sum] over Decimals, starting from [Decimal("0")]. *)
Fixpoint dec_sum_from (acc : Decimal) (l : list Decimal) : result Decimal :=
  match l with
  | [] => Ok acc
  | x :: rest => acc' <- dec_add acc x ;; dec_sum_from acc' rest
  end.

Definition dec_sum (l : list Decimal) : result Decimal := dec_sum_from dec_0 l.

(** Evaluate a fallible function on every element, left to right. *)
Fixpoint map_result {A B : Type} (g : A -> result B) (l : list A) : result (list B) :=
  match l with
  | [] => Ok []
  | x :: rest => y <- g x ;; ys <- map_result g rest ;; Ok (y :: ys)
  end.


(** A part that is not terminated and whose structure is of the given kind. *)
Definition open_part_under (s : Session) (kind : Z) (p : NumeroPart.t) : bool :=
  negb (NumeroPart.termine p)
  && match NumeroPart.id_structure p with
     | Some sid =>
         match session_get Structure.id (structures s) sid with
         | Some st => Structure.type_structure st =? kind
         | None => false
         end
     | None => false
     end.


(** The rows [transfer_parts] writes: the parts whose id is in the list. *)
Definition is_listed (part_ids : list Z) (p : NumeroPart.t) : bool :=
  existsb (Z.eqb (NumeroPart.id p)) part_ids.

(** What [transfer_parts] writes into a row: the new owner and the
    mouvement when the part is listed, nothing otherwise. *)
Definition transfer_row (new_owner_id mouvement_id : Z) (part_ids : list Z)
    (p : NumeroPart.t) : NumeroPart.t :=
  if is_listed part_ids p then reassign new_owner_id mouvement_id p else p.

(** The row a grouped subquery holds for an owner, if any. *)
Definition subquery_row (keys : list Z) (k : Z) : option (Z * Z) :=
  if existsb (Z.eqb k) keys
  then Some (k, Z.of_nat (count_occ Z.eq_dec keys k))
  else None.

(** The number of open parts of a personne under structures of a kind. *)
Definition open_parts_of (s : Session) (personne_id kind : Z) : Z :=
  count (filter (fun p => (NumeroPart.id_personne p =? personne_id)
                          && open_part_under s kind p)
                (numeros_parts s)).


(** The set of parcel ids after a run of the loop over [subs]. *)
Definition add_parcelle_ids (subs : list Subdivision.t) (ids : set Z) : set Z :=
  fold_left (fun ids sub => set_add Z.eq_dec (Subdivision.id_parcelle sub) ids) subs ids.



(** ** Example data *)

Definition empty_session : Session := mkSession [] [] [] [] [] [] [] [].

(** Point values of 2024: 1.6900 (GFA), 1.5000 (SCTL), supplements 5.00 %
    and 0.00 %. *)
Definition demo_valeur_point : ValeurPoint.t :=
  ValeurPoint.mk 1 2024 (mkDecimal 16900 (-4)) (mkDecimal 15000 (-4))
                 (mkDecimal 500 (-2)) (mkDecimal 0 (-2)).

(** Two parcels of commune 7, the first one cooperative, and three
    subdivisions. *)
Definition fermage_demo : Session :=
  mkSession [] [] [] [] []
    [demo_valeur_point]
    [Parcelle.mk 1 "A 12" true 7 None None;
     Parcelle.mk 2 "B 3" false 7 None None]
    [Subdivision.mk 1 0 0 (mkDecimal 25000 (-4)) (mkDecimal 120000 (-4)) 9
                    (mkDecimal 100000 (-4)) 1 (Some 5);
     Subdivision.mk 2 0 1 (mkDecimal 10000 (-4)) (mkDecimal 30000 (-4)) 9
                    (mkDecimal 60000 (-4)) 1 (Some 5);
     Subdivision.mk 3 0 0 (mkDecimal 40000 (-4)) (mkDecimal 55000 (-4)) 9
                    (mkDecimal 20000 (-4)) 2 None].

Definition no_fermage_filter : FermageFilters := mkFermageFilters None None None.


Definition demo_personne (id : Z) (nom : string) : Personne.t :=
  Personne.mk id nom None None None false false false false false false false None None.

(** Two open parts, one under a GFA held by personne 40 and one under the
    TSL held by personne 41; personne 42 holds nothing yet; mouvement 7 is
    the cession about to be recorded.  No part has the id 2. *)
Definition ledger_demo : Session :=
  mkSession
    [Structure.mk 1 "GFA Larzac" TypeStructure.GFA None;
     Structure.mk 2 "Terres Solidaires" TypeStructure.TSL None]
    []
    [demo_personne 40 "Durand"; demo_personne 41 "Martin"; demo_personne 42 "Bernard"]
    [Mouvement.mk 7 None true 2 42 None None None]
    [NumeroPart.mk 1 101 false false 0 40 None (Some 1);
     NumeroPart.mk 3 103 false false 0 41 None (Some 2)]
    [] [] [].

(** Mouvement A (id 1) is dated by its acte, B (id 2) by its operation date,
    C (id 3) has neither date nor acte. *)
Definition mouvement_A : Mouvement.t := Mouvement.mk 1 None true 1 40 (Some 10) None None.
Definition mouvement_B : Mouvement.t :=
  Mouvement.mk 2 (Some (mkDate 2021 6 1)) true 1 40 None None None.


Definition no_mouvement_filter : MouvementFilters := mkMouvementFilters None None None.

Definition no_personne_filter : PersonneFilters :=
  mkPersonneFilters None None None None None None None None None None None.

(** Mouvements A and B of personne 40, and mouvement 4 whose personne 99
    is not in the table. *)
Definition details_demo : Session :=
  mkSession []
    [Acte.mk 10 "AGE2020" (Some (mkDate 2020 1 1)) None false None]
    [demo_personne 40 "Durand"]
    [mouvement_A; mouvement_B; Mouvement.mk 4 None true 1 99 None None None]
    [NumeroPart.mk 1 105 false false 0 40 (Some 1) None;
     NumeroPart.mk 2 101 false false 0 40 (Some 1) None;
     NumeroPart.mk 3 103 false false 0 40 (Some 1) None;
     NumeroPart.mk 4 102 false false 0 40 (Some 2) None]
    [] [] [].

(** ** Further operations of [crud.py] and of the routes *)

(** *** NUMERO PART CRUD *)

Record NumeroPartFilters : Type := mkNumeroPartFilters {
  np_id_personne : option Z;
  np_id_structure : option Z;
  np_termine : option bool;
  np_distribue : option bool;
  np_num_part_min : option Z;
  np_num_part_max : option Z;
  np_num_part : option Z
}.

Definition numero_part_matches (f : NumeroPartFilters) (p : NumeroPart.t) : bool :=
  where_opt (np_id_personne f) (fun i => NumeroPart.id_personne p =? i)
  && where_opt (np_id_structure f) (fun i => col_eqb (NumeroPart.id_structure p) i)
  && where_opt (np_termine f) (fun b => Bool.eqb (NumeroPart.termine p) b)
  && where_opt (np_distribue f) (fun b => Bool.eqb (NumeroPart.distribue p) b)
  && where_opt (np_num_part_min f) (fun n => n <=? NumeroPart.num_part p)
  && where_opt (np_num_part_max f) (fun n => NumeroPart.num_part p <=? n)
  && where_opt (np_num_part f) (fun n => NumeroPart.num_part p =? n).

(** [.order_by(NumeroPart.num_part)] *)
Definition num_part_le (a b : NumeroPart.t) : bool :=
  NumeroPart.num_part a <=? NumeroPart.num_part b.

Definition get_numeros_parts (s : Session) (skip limit : nat) (f : NumeroPartFilters)
  : list NumeroPart.t * Z :=
  let statement := filter (numero_part_matches f) (numeros_parts s) in
  (page skip limit (order_by num_part_le statement), count statement).

Definition get_numero_part (s : Session) (part_id : Z) : option NumeroPart.t :=
  session_get NumeroPart.id (numeros_parts s) part_id.

Definition get_numero_part_by_num (s : Session) (num_part : Z) (id_structure : option Z)
  : option NumeroPart.t :=
  find (fun p => (NumeroPart.num_part p =? num_part)
                 && where_opt id_structure (fun i => col_eqb (NumeroPart.id_structure p) i))
       (numeros_parts s).

(** [NumeroPartCreate]: the columns of a part, no [id]. *)
Module NumeroPartCreate.
Record t : Type := mk {
  num_part : Z;
  termine : bool;
  distribue : bool;
  etat : Z;
  id_personne : Z;
  id_mouvement : option Z;
  id_structure : option Z
}.
End NumeroPartCreate.

(** A nullable foreign key: NULL refers to nothing and is always accepted. *)
Definition fk_opt {A : Type} (pk : A -> Z) (table : list A) (key : option Z) : bool :=
  match key with
  | Some k => has_row pk table k
  | None => true
  end.

(** The three foreign keys of [numeros_parts] declared in [models.py]. *)
Definition numero_part_fk_ok (s : Session) (p : NumeroPart.t) : bool :=
  has_row Personne.id (personnes s) (NumeroPart.id_personne p)
  && fk_opt Mouvement.id (mouvements s) (NumeroPart.id_mouvement p)
  && fk_opt Structure.id (structures s) (NumeroPart.id_structure p).

(** [create_numero_part]: the INSERT under a fresh id; refused, with the
    database left as it was, when a foreign key points nowhere. *)
Definition create_numero_part (s : Session) (part_in : NumeroPartCreate.t)
  : Session * result NumeroPart.t :=
  let db_obj :=
    NumeroPart.mk (next_id (map NumeroPart.id (numeros_parts s)))
                  (NumeroPartCreate.num_part part_in)
                  (NumeroPartCreate.termine part_in)
                  (NumeroPartCreate.distribue part_in)
                  (NumeroPartCreate.etat part_in)
                  (NumeroPartCreate.id_personne part_in)
                  (NumeroPartCreate.id_mouvement part_in)
                  (NumeroPartCreate.id_structure part_in) in
  if numero_part_fk_ok s db_obj
  then (with_numeros_parts s (numeros_parts s ++ [db_obj]), Ok db_obj)
  else (s, Raise IntegrityError).

(** [delete_numero_part]: no table refers to [numeros_parts], so the DELETE
    is never refused. *)
Definition delete_numero_part (s : Session) (part_id : Z) : Session * bool :=
  match session_get NumeroPart.id (numeros_parts s) part_id with
  | Some _ =>
      (with_numeros_parts s
         (filter (fun p => negb (NumeroPart.id p =? part_id)) (numeros_parts s)),
       true)
  | None => (s, false)
  end.

(** [NumeroPartUpdate]: every field is optional.  The outer [None] is a
    field the request did not set ([model_dump(exclude_unset=True)] leaves it
    out); [Some None] is a field set to null. *)
Module NumeroPartUpdate.
Record t : Type := mk {
  num_part : option (option Z);
  termine : option (option bool);
  distribue : option (option bool);
  etat : option (option Z);
  id_personne : option (option Z);
  id_mouvement : option (option Z);
  id_structure : option (option Z)
}.
End NumeroPartUpdate.

(** The integer a request sets, if any, fits an INTEGER column. *)
Definition int4_set (field : option (option Z)) : Prop :=
  forall v, field = Some (Some v) -> int4 v.

(** [sqlmodel_update] on a column that is NOT NULL: the value the object
    holds afterwards, [None] when the request nulled it. *)
Definition set_required {A : Type} (field : option (option A)) (old : A) : option A :=
  match field with
  | None => Some old
  | Some v => v
  end.

(** [sqlmodel_update] on a nullable column. *)
Definition set_nullable {A : Type} (field : option (option A)) (old : option A) : option A :=
  match field with
  | None => old
  | Some v => v
  end.

Definition opt_Z_eqb (a b : option Z) : bool :=
  match a, b with
  | Some x, Some y => x =? y
  | None, None => true
  | _, _ => false
  end.

(** The foreign keys the UPDATE checks: those of the columns whose value
    changed. *)
Definition update_fk_ok (s : Session) (old new : NumeroPart.t) : bool :=
  ((NumeroPart.id_personne old =? NumeroPart.id_personne new)
   || has_row Personne.id (personnes s) (NumeroPart.id_personne new))
  && (opt_Z_eqb (NumeroPart.id_mouvement old) (NumeroPart.id_mouvement new)
      || fk_opt Mouvement.id (mouvements s) (NumeroPart.id_mouvement new))
  && (opt_Z_eqb (NumeroPart.id_structure old) (NumeroPart.id_structure new)
      || fk_opt Structure.id (structures s) (NumeroPart.id_structure new)).

(** [update_numero_part] on [db_part], the row the caller has just read from
    the session: the fields of the request overwrite the attributes, the
    commit writes the row and is refused when a NOT NULL column was nulled
    or a changed foreign key points nowhere. *)
Definition update_numero_part (s : Session) (db_part : NumeroPart.t)
    (part_in : NumeroPartUpdate.t) : Session * result NumeroPart.t :=
  match set_required (NumeroPartUpdate.num_part part_in) (NumeroPart.num_part db_part),
        set_required (NumeroPartUpdate.termine part_in) (NumeroPart.termine db_part),
        set_required (NumeroPartUpdate.distribue part_in) (NumeroPart.distribue db_part),
        set_required (NumeroPartUpdate.etat part_in) (NumeroPart.etat db_part),
        set_required (NumeroPartUpdate.id_personne part_in) (NumeroPart.id_personne db_part)
  with
  | Some num_part, Some termine, Some distribue, Some etat, Some id_personne =>
      let updated :=
        NumeroPart.mk (NumeroPart.id db_part) num_part termine distribue etat id_personne
          (set_nullable (NumeroPartUpdate.id_mouvement part_in)
                        (NumeroPart.id_mouvement db_part))
          (set_nullable (NumeroPartUpdate.id_structure part_in)
                        (NumeroPart.id_structure db_part)) in
      if update_fk_ok s db_part updated
      then (with_numeros_parts s
              (update_part (NumeroPart.id db_part) (fun _ => updated) (numeros_parts s)),
            Ok updated)
      else (s, Raise IntegrityError)
  | _, _, _, _, _ => (s, Raise IntegrityError)
  end.

(** The route [PUT /numeros-parts/{part_id}]: [None] is the 404 answer. *)
Definition put_numero_part (s : Session) (part_id : Z) (part_in : NumeroPartUpdate.t)
  : Session * option (result NumeroPart.t) :=
  match get_numero_part s part_id with
  | Some db_part =>
      (fst (update_numero_part s db_part part_in),
       Some (snd (update_numero_part s db_part part_in)))
  | None => (s, None)
  end.

(** *** Anomaly detection, continued *)

Definition is_null {A : Type} (o : option A) : bool :=
  match o with
  | Some _ => false
  | None => true
  end.

Definition find_mouvements_sans_actes (s : Session) (id_structure : option Z)
  : list Mouvement.t :=
  let statement := filter (fun m => is_null (Mouvement.id_acte m)) (mouvements s) in
  match id_structure with
  | Some i =>
      map fst
          (filter (fun row => col_eqb (Personne.id_structure (snd row)) i)
                  (join statement (personnes s)
                        (fun m p => Mouvement.id_personne m =? Personne.id p)))
  | None => statement
  end.



(** The dict of the route [get_anomalies_summary]. *)
Record AnomaliesSummary : Type := mkAnomaliesSummary {
  parts_sans_mouvements_count : Z;
  mouvements_sans_actes_count : Z;
  total_anomalies : Z
}.

Definition get_anomalies_summary (s : Session) (id_structure : option Z)
  : AnomaliesSummary :=
  let parts_sans_mvt := find_parts_sans_mouvements s id_structure in
  let mvt_sans_actes := find_mouvements_sans_actes s id_structure in
  mkAnomaliesSummary (count parts_sans_mvt) (count mvt_sans_actes)
                     (count parts_sans_mvt + count mvt_sans_actes).

(** *** PERSONNE and ACTE listings *)

Section Listings.

Variable ilike : string -> string -> bool.
Variable personne_le : Personne.t -> Personne.t -> bool.


End Listings.




(** *** VALEUR POINTS CRUD, continued *)



Definition get_valeur_point (s : Session) (valeur_id : Z) : option ValeurPoint.t :=
  session_get ValeurPoint.id (valeurs_points s) valeur_id.

Definition delete_valeur_point (s : Session) (valeur_id : Z) : Session * bool :=
  match session_get ValeurPoint.id (valeurs_points s) valeur_id with
  | Some _ =>
      (with_valeurs_points s
         (filter (fun v => negb (ValeurPoint.id v =? valeur_id)) (valeurs_points s)),
       true)
  | None => (s, false)
  end.

(** *** Subdivisions and parcel details *)

(** [.order_by(Subdivision.division, Subdivision.subdivision)] *)
Definition division_le (a b : Subdivision.t) : bool :=
  (Subdivision.division a <? Subdivision.division b)
  || ((Subdivision.division a =? Subdivision.division b)
      && (Subdivision.subdivision a <=? Subdivision.subdivision b)).

Definition get_subdivisions_by_parcelle (s : Session) (parcelle_id : Z)
  : list Subdivision.t :=
  order_by division_le
           (filter (fun sub => Subdivision.id_parcelle sub =? parcelle_id) (subdivisions s)).

Module Commune.
Record t : Type := mk {
  id : Z;
  num_com : string;
  nom_com : string
}.
End Commune.

Module LieuDit.
Record t : Type := mk {
  id : Z;
  nom : string;
  id_commune : Z
}.
End LieuDit.

Module Exploitant.
Record t : Type := mk {
  id : Z;
  nom : string;
  prenom : option string
}.
End Exploitant.

(** The reference tables the detail view reads besides those of [Session]. *)
Record Referentiel : Type := mkReferentiel {
  communes : list Commune.t;
  lieux_dits : list LieuDit.t;
  exploitants : list Exploitant.t
}.

(** [class ParcelleWithDetails(ParcellePublic)] *)
Module ParcelleWithDetails.
Record t : Type := mk {
  parcelle : Parcelle.t;
  nom_commune : option string;
  nom_lieu_dit : option string;
  nom_exploitant : option string;
  montant_fermage : Decimal
}.
End ParcelleWithDetails.

(** [x or ''] on an optional string. *)
Definition str_or_empty (o : option string) : string :=
  match o with
  | Some x => x
  | None => EmptyString
  end.

Section Details.

(** Python's [str.strip()]. *)
Variable strip : string -> string.

(** The first subdivision of a parcel: [.order_by(division, subdivision)
    .limit(1)] then [.first()]. *)
Definition first_subdivision (s : Session) (parcelle_id : Z) : option Subdivision.t :=
  hd_error (page 0 1 (get_subdivisions_by_parcelle s parcelle_id)).

Definition get_parcelle_with_details (s : Session) (r : Referentiel)
    (parcelle_id : Z) (valeur_point : option ValeurPoint.t)
  : result (option ParcelleWithDetails.t) :=
  match session_get Parcelle.id (parcelles s) parcelle_id with
  | None => Ok None
  | Some parcelle =>
      let nom_commune :=
        match session_get Commune.id (communes r) (Parcelle.id_commune parcelle) with
        | Some c => Some (Commune.nom_com c)
        | None => None
        end in
      let nom_lieu_dit :=
        match Parcelle.id_lieu_dit parcelle with
        | Some l =>
            match session_get LieuDit.id (lieux_dits r) l with
            | Some ld => Some (LieuDit.nom ld)
            | None => None
            end
        | None => None
        end in
      match first_subdivision s parcelle_id with
      | Some sub =>
          let nom_exploitant :=
            match Subdivision.id_exploitant sub with
            | Some e =>
                match session_get Exploitant.id (exploitants r) e with
                | Some ex =>
                    Some (strip (Exploitant.nom ex ++ " "
                                 ++ str_or_empty (Exploitant.prenom ex)))
                | None => None
                end
            | None => None
            end in
          match valeur_point with
          | Some vp =>
              montant_fermage <-
                calculer_montant_fermage
                  (Subdivision.point_fermage sub) (Subdivision.surface sub)
                  (Parcelle.sctl parcelle)
                  (ValeurPoint.valeur_point_gfa vp) (ValeurPoint.valeur_point_sctl vp)
                  false false
                  (ValeurPoint.valeur_supp_gfa vp) (ValeurPoint.valeur_supp_sctl vp) ;;
              Ok (Some (ParcelleWithDetails.mk parcelle nom_commune nom_lieu_dit
                                               nom_exploitant montant_fermage))
          | None =>
              Ok (Some (ParcelleWithDetails.mk parcelle nom_commune nom_lieu_dit
                                               nom_exploitant dec_0))
          end
      | None =>
          Ok (Some (ParcelleWithDetails.mk parcelle nom_commune nom_lieu_dit None dec_0))
      end
  end.

End Details.

(** *** Mouvements with their details *)

(** [class MouvementWithDetails(MouvementPublic)]: the columns of the
    mouvement ([**mouvement.model_dump()]) and the details. *)
Module MouvementWithDetails.
Record t : Type := mk {
  mouvement : Mouvement.t;
  personne_nom : option string;
  personne_prenom : option string;
  code_acte : option string;
  date_acte : option date;
  numeros_parts : list Z;
  numeros_parts_count : Z
}.
End MouvementWithDetails.

(** A Python [dict] with integer keys: the items in insertion order. *)
Definition dict (V : Type) : Type := list (Z * V).

(** [d.get(k)] *)
Definition dict_get {V : Type} (d : dict V) (k : Z) : option V :=
  match find (fun kv => fst kv =? k) d with
  | Some kv => Some (snd kv)
  | None => None
  end.

(** [d[k] = v]: a known key keeps its place, a new one goes last. *)
Fixpoint dict_set {V : Type} (d : dict V) (k : Z) (v : V) : dict V :=
  match d with
  | [] => [(k, v)]
  | kv :: d' => if fst kv =? k then (k, v) :: d' else kv :: dict_set d' k v
  end.

(** [d.get(k, default)] *)
Definition dict_get_or {V : Type} (d : dict V) (k : Z) (default : V) : V :=
  match dict_get d k with
  | Some v => v
  | None => default
  end.

(** The main statement of [get_mouvements_with_details]: the inner join
    with [Personne], the outer join with [Acte], the filters. *)
Definition mouvements_details_statement (s : Session) (f : MouvementFilters)
  : list (Mouvement.t * Personne.t * option Acte.t) :=
  filter (fun row => mouvement_matches f (fst (fst row)))
         (outerjoin
            (join (mouvements s) (personnes s)
                  (fun m p => Mouvement.id_personne m =? Personne.id p))
            (actes s)
            (fun row a => col_eqb (Mouvement.id_acte (fst row)) (Acte.id a))).

(** [func.coalesce(Mouvement.date_operation, Acte.date_acte)] on a row of
    that statement. *)
Definition details_effective_date (row : Mouvement.t * Personne.t * option Acte.t)
  : option date :=
  coalesce (Mouvement.date_operation (fst (fst row)))
           (match snd row with
            | Some a => Acte.date_acte a
            | None => None
            end).

(** [select(NumeroPart.id_mouvement, NumeroPart.num_part)
      .where(NumeroPart.id_mouvement.in_(mouvement_ids))]: a NULL
    [id_mouvement] is in no list. *)
Definition parts_of_mouvements (mouvement_ids : list Z) (table : list NumeroPart.t)
  : list (Z * Z) :=
  flat_map (fun p =>
              match NumeroPart.id_mouvement p with
              | Some m =>
                  if existsb (Z.eqb m) mouvement_ids
                  then [(m, NumeroPart.num_part p)]
                  else []
              | None => []
              end) table.

(** [.order_by(NumeroPart.id_mouvement, NumeroPart.num_part)] *)
Definition mvt_num_le (a b : Z * Z) : bool :=
  (fst a <? fst b) || ((fst a =? fst b) && (snd a <=? snd b)).

(** [for id_mvt, cnt in count_results: parts_count_by_mouvement[id_mvt] = cnt] *)
Definition count_loop (count_results : list (Z * Z)) : dict Z :=
  fold_left (fun d row => dict_set d (fst row) (snd row)) count_results [].

(** One turn of the loop over [parts_results]: the list of the mouvement is
    created when missing, and takes the number while it holds fewer than
    [max_parts_display]. *)
Definition parts_step (max_parts_display : Z) (d : dict (list Z)) (row : Z * Z)
  : dict (list Z) :=
  let d :=
    match dict_get d (fst row) with
    | None => dict_set d (fst row) []
    | Some _ => d
    end in
  let l := dict_get_or d (fst row) [] in
  if Z.of_nat (length l) <? max_parts_display
  then dict_set d (fst row) (l ++ [snd row])
  else d.

Definition get_mouvements_with_details (s : Session) (skip limit : nat)
    (f : MouvementFilters) (max_parts_display : Z)
  : list MouvementWithDetails.t * Z :=
  let statement := mouvements_details_statement s f in
  let count := count (filter (mouvement_matches f) (mouvements s)) in
  let results :=
    page skip limit
         (order_by (fun r1 r2 => desc_le (details_effective_date r1)
                                         (details_effective_date r2))
                   statement) in
  let mouvement_ids := map (fun row => Mouvement.id (fst (fst row))) results in
  let parts_count_by_mouvement :=
    match mouvement_ids with
    | [] => []
    | _ :: _ =>
        count_loop
          (group_count (map fst (parts_of_mouvements mouvement_ids (numeros_parts s))))
    end in
  let parts_by_mouvement :=
    match mouvement_ids with
    | [] => []
    | _ :: _ =>
        fold_left (parts_step max_parts_display)
                  (order_by mvt_num_le
                            (parts_of_mouvements mouvement_ids (numeros_parts s)))
                  []
    end in
  (map (fun row =>
          let mouvement := fst (fst row) in
          MouvementWithDetails.mk
            mouvement
            (Some (Personne.nom (snd (fst row))))
            (Personne.prenom (snd (fst row)))
            (match snd row with Some a => Some (Acte.code_acte a) | None => None end)
            (match snd row with Some a => Acte.date_acte a | None => None end)
            (dict_get_or parts_by_mouvement (Mouvement.id mouvement) [])
            (dict_get_or parts_count_by_mouvement (Mouvement.id mouvement) 0))
       results,
   count).

(** *** Adding up counts *)

Definition sum_Z (l : list Z) : Z := fold_right Z.add 0 l.

(** * Theory *)

(** ** The [result] monad *)


(** ** Digits and rounding *)




(** ** Rounding to the context: [dec_fix] *)


Lemma dec_fix_error (d : Decimal) (e : error) : dec_fix d = Raise e -> e = DecimalOverflow.
Proof.
  unfold dec_fix.
  repeat match goal with
         | |- context [if ?b then _ else _] => destruct b
         end; intros H; inversion H; reflexivity.
Qed.

Lemma dec_mul_error (a b : Decimal) (e : error) :
  dec_mul a b = Raise e -> e = DecimalOverflow.
Proof. apply dec_fix_error. Qed.

Lemma dec_add_error (a b : Decimal) (e : error) :
  dec_add a b = Raise e -> e = DecimalOverflow.
Proof. apply dec_fix_error. Qed.

Lemma dec_div_error (a b : Decimal) (e : error) :
  coeff b <> 0 -> dec_div a b = Raise e -> e = DecimalOverflow.
Proof.
  intros Hb. unfold dec_div.
  destruct (Z.eqb_spec (coeff b) 0) as [H0 | _]; [contradiction |].
  destruct (coeff a =? 0); [apply dec_fix_error |].
  destruct (if 0 <=? _ then _ else _) as [q r].
  destruct (if r =? 0 then _ else _) as [q' e'].
  apply dec_fix_error.
Qed.

(** ** Exact quotients by a power of ten *)






(** ** The value of a decimal *)






(** ** [calculer_montant_fermage] without rounding *)







(** ** Only [decimal.Overflow] escapes the fermage computations *)

Lemma calculer_montant_fermage_error
    (p su : Decimal) (est : bool) (vg vs : Decimal) (sg ss : bool) (vsg vss : Decimal)
    (e : error) :
  calculer_montant_fermage p su est vg vs sg ss vsg vss = Raise e -> e = DecimalOverflow.
Proof.
  unfold calculer_montant_fermage.
  assert (H100 : coeff dec_100 <> 0) by discriminate.
  assert (H10000 : coeff dec_10000 <> 0) by discriminate.
  destruct (dec_mul p su) as [ps | e0] eqn:E0; cbn [bind];
    [| intros H; inversion H; subst; eapply dec_mul_error; eassumption].
  destruct (dec_div ps dec_10000) as [base | e1] eqn:E1; cbn [bind];
    [| intros H; inversion H; subst; eapply dec_div_error; [| eassumption]; assumption].
  assert (Hbranch : forall v (supp : bool) vsupp,
             (result <- dec_mul base v ;;
              if supp then
                t <- dec_mul result vsupp ;; u <- dec_div t dec_100 ;; dec_add result u
              else Ok result) = Raise e -> e = DecimalOverflow).
  { intros v supp vsupp.
    destruct (dec_mul base v) as [r | e2] eqn:E2; cbn [bind];
      [| intros H; inversion H; subst; eapply dec_mul_error; eassumption].
    destruct supp; [| discriminate].
    destruct (dec_mul r vsupp) as [t | e3] eqn:E3; cbn [bind];
      [| intros H; inversion H; subst; eapply dec_mul_error; eassumption].
    destruct (dec_div t dec_100) as [u | e4] eqn:E4; cbn [bind];
      [| intros H; inversion H; subst; eapply dec_div_error; [| eassumption]; assumption].
    apply dec_add_error. }
  destruct est; apply Hbranch.
Qed.

Lemma dec_sum_from_error (l : list Decimal) :
  forall acc e, dec_sum_from acc l = Raise e -> e = DecimalOverflow.
Proof.
  induction l as [| x l IH]; intros acc e; cbn [dec_sum_from].
  - discriminate.
  - destruct (dec_add acc x) as [a | e0] eqn:E; cbn [bind].
    + apply IH.
    + intros H; inversion H; subst. eapply dec_add_error; eassumption.
Qed.

Lemma map_result_error {A B : Type} (g : A -> result B) (l : list A) :
  (forall a e, g a = Raise e -> e = DecimalOverflow) ->
  forall e, map_result g l = Raise e -> e = DecimalOverflow.
Proof.
  intros Hg. induction l as [| x l IH]; intros e; cbn [map_result].
  - discriminate.
  - destruct (g x) as [y | e0] eqn:E; cbn [bind].
    + destruct (map_result g l) as [ys | e1]; cbn [bind].
      * discriminate.
      * intros H; inversion H; subst. apply IH. reflexivity.
    + intros H; inversion H; subst. eapply Hg; eassumption.
Qed.

Lemma montant_subdivision_error (s : Session) (vp : ValeurPoint.t) (sub : Subdivision.t)
    (e : error) :
  montant_subdivision s vp sub = Raise e -> e = DecimalOverflow.
Proof. apply calculer_montant_fermage_error. Qed.

Ltac overflow :=
  repeat match goal with
         | H : dec_add _ _ = Raise ?e |- _ =>
             is_var e; pose proof (dec_add_error _ _ _ H); subst e
         | H : dec_sum_from _ _ = Raise ?e |- _ =>
             is_var e; pose proof (dec_sum_from_error _ _ _ H); subst e
         | H : montant_subdivision _ _ _ = Raise ?e |- _ =>
             is_var e; pose proof (montant_subdivision_error _ _ _ _ H); subst e
         | H : map_result (montant_subdivision _ _) _ = Raise ?e |- _ =>
             is_var e;
             pose proof (map_result_error _ _ (montant_subdivision_error _ _) _ H);
             subst e
         end.

Ltac step_bind :=
  match goal with
  | |- context [bind ?m _] =>
      lazymatch m with
      | Ok _ => fail
      | Raise _ => fail
      | _ => destruct m eqn:?; cbn [bind]
      end
  end.

(** ** The loop of [get_fermage_totaux] computes four independent folds *)

Lemma fermage_loop_spec (s : Session) (valeur_point : option ValeurPoint.t)
    (subs : list Subdivision.t) :
  forall acc,
    fermage_loop s valeur_point subs acc =
    (ts <- dec_sum_from (acc_surface acc) (map Subdivision.surface subs) ;;
     tr <- dec_sum_from (acc_revenu acc) (map Subdivision.revenu subs) ;;
     tm <- match valeur_point with
           | Some vp =>
               ms <- map_result (montant_subdivision s vp) subs ;;
               dec_sum_from (acc_montant acc) ms
           | None => Ok (acc_montant acc)
           end ;;
     Ok (mkTotaux ts tr tm (add_parcelle_ids subs (parcelle_ids acc)))).
Proof.
  induction subs as [| sub rest IH]; intros acc.
  - destruct acc, valeur_point; reflexivity.
  - cbn [fermage_loop map dec_sum_from map_result add_parcelle_ids fold_left].
    unfold fermage_step.
    destruct (dec_add (acc_surface acc) (Subdivision.surface sub)) as [a1 | e1] eqn:E1;
      cbn [bind]; [| reflexivity].
    destruct (dec_add (acc_revenu acc) (Subdivision.revenu sub)) as [a2 | e2] eqn:E2;
      cbn [bind].
    2:{ overflow. repeat step_bind; overflow; reflexivity. }
    destruct valeur_point as [vp |].
    + destruct (montant_subdivision s vp sub) as [m | e3] eqn:E3; cbn [bind].
      2:{ overflow. repeat step_bind; overflow; reflexivity. }
      destruct (dec_add (acc_montant acc) m) as [a3 | e4] eqn:E4; cbn [bind].
      * rewrite IH. cbn [acc_surface acc_revenu acc_montant parcelle_ids].
        destruct (dec_sum_from a1 (map Subdivision.surface rest)); cbn [bind];
          [| reflexivity].
        destruct (dec_sum_from a2 (map Subdivision.revenu rest)); cbn [bind];
          [| reflexivity].
        destruct (map_result (montant_subdivision s vp) rest); cbn [bind dec_sum_from];
          [| reflexivity].
        rewrite E4. reflexivity.
      * overflow.
        destruct (dec_sum_from a1 (map Subdivision.surface rest)) eqn:?; cbn [bind];
          [| overflow; reflexivity].
        destruct (dec_sum_from a2 (map Subdivision.revenu rest)) eqn:?; cbn [bind];
          [| overflow; reflexivity].
        destruct (map_result (montant_subdivision s vp) rest) eqn:?;
          cbn [bind dec_sum_from]; [| overflow; reflexivity].
        rewrite E4. reflexivity.
    + cbn [bind]. rewrite IH.
      cbn [acc_surface acc_revenu acc_montant parcelle_ids]. reflexivity.
Qed.

(** ** Joins on a primary key *)

Lemma session_get_Some {A : Type} (pk : A -> Z) (table : list A) (k : Z) (row : A) :
  session_get pk table k = Some row -> In row table /\ pk row = k.
Proof.
  unfold session_get. intros H. apply find_some in H.
  destruct H as [Hin Heq]. split; [exact Hin | lia].
Qed.

Lemma session_get_None {A : Type} (pk : A -> Z) (table : list A) (k : Z) :
  session_get pk table k = None -> forall row, In row table -> pk row <> k.
Proof.
  unfold session_get. intros H row Hin Heq.
  pose proof (find_none _ _ H row Hin) as Hf. cbv beta in Hf. lia.
Qed.

Lemma pk_unique {A : Type} (pk : A -> Z) (table : list A) (a b : A) :
  NoDup (map pk table) -> In a table -> In b table -> pk a = pk b -> a = b.
Proof.
  induction table as [| x table IH]; intros Hnd Ha Hb Heq; [contradiction |].
  cbn [map] in Hnd. inversion Hnd as [| ? ? Hnotin Hnd']; subst.
  destruct Ha as [-> | Ha], Hb as [-> | Hb].
  - reflexivity.
  - exfalso. apply Hnotin. rewrite Heq. apply in_map. exact Hb.
  - exfalso. apply Hnotin. rewrite <- Heq. apply in_map. exact Ha.
  - apply IH; assumption.
Qed.

(** Under a primary key the rows that join with a key are the row
    [session.get] finds, if any. *)
Lemma filter_pk {A : Type} (pk : A -> Z) (table : list A) (k : Z) :
  NoDup (map pk table) ->
  filter (fun row => k =? pk row) table =
  match session_get pk table k with
  | Some row => [row]
  | None => []
  end.
Proof.
  unfold session_get.
  induction table as [| row table IH]; intros Hnd; [reflexivity |].
  cbn [map] in Hnd. inversion Hnd as [| x l Hnotin Hnd']; subst.
  cbn [filter find]. rewrite (Z.eqb_sym k (pk row)).
  destruct (Z.eqb_spec (pk row) k) as [Heq | Hneq].
  - f_equal. rewrite IH by exact Hnd'.
    destruct (find (fun r => pk r =? k) table) as [r |] eqn:E; [| reflexivity].
    exfalso. apply find_some in E. destruct E as [Hin Hk].
    apply Hnotin. rewrite Heq. replace k with (pk r) by lia.
    apply in_map; exact Hin.
  - apply IH; exact Hnd'.
Qed.



(** ** The set of parcel ids *)

Lemma add_parcelle_ids_spec (subs : list Subdivision.t) :
  forall ids,
    NoDup ids ->
    NoDup (add_parcelle_ids subs ids)
    /\ forall x, In x (add_parcelle_ids subs ids)
                 <-> In x ids \/ In x (map Subdivision.id_parcelle subs).
Proof.
  unfold add_parcelle_ids.
  induction subs as [| sub subs IH]; intros ids Hnd; cbn [fold_left map].
  - split; [exact Hnd |]. intros x; cbn [In]; tauto.
  - destruct (IH (set_add Z.eq_dec (Subdivision.id_parcelle sub) ids)) as [H1 H2].
    { apply set_add_nodup; exact Hnd. }
    split; [exact H1 |].
    intros x. rewrite H2, set_add_iff. cbn [In]. intuition congruence.
Qed.

Lemma count_parcelle_ids (subs : list Subdivision.t) :
  count (add_parcelle_ids subs (empty_set Z))
  = count (nodup Z.eq_dec (map Subdivision.id_parcelle subs)).
Proof.
  unfold count. f_equal. apply Permutation_length.
  destruct (add_parcelle_ids_spec subs (empty_set Z)) as [Hnd Hin]; [constructor |].
  apply NoDup_Permutation; [exact Hnd | apply NoDup_nodup |].
  intros x. rewrite Hin, nodup_In. unfold empty_set. cbn [In]. tauto.
Qed.

(** ** Aggregated fermage *)

Lemma get_fermage_totaux_spec (s : Session) (f : FermageFilters)
    (valeur_point : option ValeurPoint.t) :
  get_fermage_totaux s f valeur_point =
  (ts <- dec_sum (map Subdivision.surface (fermage_statement s f)) ;;
   tr <- dec_sum (map Subdivision.revenu (fermage_statement s f)) ;;
   tm <- match valeur_point with
         | Some vp =>
             ms <- map_result (montant_subdivision s vp) (fermage_statement s f) ;;
             dec_sum ms
         | None => Ok dec_0
         end ;;
   Ok (mkFermageTotaux ts tr tm
         (count (nodup Z.eq_dec (map Subdivision.id_parcelle (fermage_statement s f)))))).
Proof.
  unfold get_fermage_totaux, dec_sum. rewrite fermage_loop_spec.
  cbn [acc_surface acc_revenu acc_montant parcelle_ids].
  rewrite <- count_parcelle_ids.
  destruct (dec_sum_from dec_0 (map Subdivision.surface (fermage_statement s f)));
    cbn [bind]; [| reflexivity].
  destruct (dec_sum_from dec_0 (map Subdivision.revenu (fermage_statement s f)));
    cbn [bind]; [| reflexivity].
  destruct valeur_point as [vp |]; cbn [bind]; [| reflexivity].
  destruct (map_result (montant_subdivision s vp) (fermage_statement s f));
    cbn [bind]; [| reflexivity].
  destruct (dec_sum_from dec_0 a1); reflexivity.
Qed.



(** ** A year without point values *)





(** ** Transfer of parts *)

Lemma has_row_session_get {A : Type} (pk : A -> Z) (table : list A) (k : Z) :
  has_row pk table k =
  match session_get pk table k with Some _ => true | None => false end.
Proof.
  unfold has_row, session_get.
  induction table as [| row table IH]; [reflexivity |].
  cbn [existsb find]. destruct (pk row =? k); [reflexivity | exact IH].
Qed.

Lemma session_get_map (f : NumeroPart.t -> NumeroPart.t) (table : list NumeroPart.t) (k : Z) :
  (forall p, NumeroPart.id (f p) = NumeroPart.id p) ->
  session_get NumeroPart.id (map f table) k
  = option_map f (session_get NumeroPart.id table k).
Proof.
  intros Hid. unfold session_get.
  induction table as [| row table IH]; [reflexivity |].
  cbn [map find]. rewrite Hid.
  destruct (NumeroPart.id row =? k); [reflexivity | exact IH].
Qed.

Lemma transfer_row_id (o m : Z) (ids : list Z) (p : NumeroPart.t) :
  NumeroPart.id (transfer_row o m ids p) = NumeroPart.id p.
Proof. unfold transfer_row. destruct (is_listed ids p); reflexivity. Qed.

Lemma has_row_update_part (k j : Z) (upd : NumeroPart.t -> NumeroPart.t)
    (table : list NumeroPart.t) :
  (forall p, NumeroPart.id (upd p) = NumeroPart.id p) ->
  has_row NumeroPart.id (update_part k upd table) j = has_row NumeroPart.id table j.
Proof.
  intros Hid. unfold has_row, update_part.
  induction table as [| row table IH]; [reflexivity |].
  cbn [map existsb]. rewrite IH. f_equal.
  destruct (NumeroPart.id row =? k); [rewrite Hid |]; reflexivity.
Qed.

Lemma transfer_loop_spec (o m : Z) (part_ids : list Z) :
  forall table transferred,
    transfer_loop o m part_ids table transferred =
    (map (transfer_row o m part_ids) table,
     transferred ++ filter (has_row NumeroPart.id table) part_ids).
Proof.
  induction part_ids as [| k rest IH]; intros table transferred.
  - cbn [transfer_loop filter]. rewrite app_nil_r. f_equal.
    symmetry. rewrite <- (map_id table) at 2. apply map_ext. reflexivity.
  - cbn [transfer_loop filter]. rewrite (has_row_session_get NumeroPart.id table k).
    destruct (session_get NumeroPart.id table k) as [row |] eqn:Hget.
    + rewrite IH. f_equal.
      * unfold update_part. rewrite map_map. apply map_ext. intros p.
        unfold transfer_row, is_listed. cbn [existsb].
        destruct (Z.eqb_spec (NumeroPart.id p) k) as [Heq | Hneq].
        -- cbn [NumeroPart.id reassign orb].
           destruct (existsb (Z.eqb (NumeroPart.id p)) rest); reflexivity.
        -- cbn [orb]. reflexivity.
      * rewrite <- app_assoc. cbn [app]. do 2 f_equal.
        apply filter_ext. intros j. apply has_row_update_part. reflexivity.
    + rewrite IH. f_equal.
      apply map_ext_in. intros p Hin.
      unfold transfer_row, is_listed. cbn [existsb].
      pose proof (session_get_None _ _ _ Hget p Hin) as Hneq.
      destruct (Z.eqb_spec (NumeroPart.id p) k) as [Heq | _]; [contradiction |].
      reflexivity.
Qed.

Lemma transfer_row_nothing_listed (o m : Z) (part_ids : list Z) (table : list NumeroPart.t) :
  filter (has_row NumeroPart.id table) part_ids = [] ->
  map (transfer_row o m part_ids) table = table.
Proof.
  intros Hnone. rewrite <- (map_id table) at 2. apply map_ext_in. intros p Hin.
  unfold transfer_row, is_listed.
  destruct (existsb (Z.eqb (NumeroPart.id p)) part_ids) eqn:E; [| reflexivity].
  exfalso. apply existsb_exists in E. destruct E as [k [Hk Heq]].
  assert (Hf : In k (filter (has_row NumeroPart.id table) part_ids)).
  { apply filter_In. split; [exact Hk |].
    unfold has_row. apply existsb_exists. exists p. split; [exact Hin | lia]. }
  rewrite Hnone in Hf. exact Hf.
Qed.

Lemma with_numeros_parts_same (s : Session) : with_numeros_parts s (numeros_parts s) = s.
Proof. destruct s; reflexivity. Qed.

(** The parts handed back: one per listed id that exists, in the order of
    the list, read after the write. *)
Lemma transferred_parts (o m : Z) (part_ids all_ids : list Z) (table : list NumeroPart.t) :
  incl part_ids all_ids ->
  flat_map (fun k => match session_get NumeroPart.id
                                       (map (transfer_row o m all_ids) table) k with
                     | Some part => [part]
                     | None => []
                     end)
           (filter (has_row NumeroPart.id table) part_ids)
  = flat_map (fun k => match session_get NumeroPart.id table k with
                       | Some part => [reassign o m part]
                       | None => []
                       end)
             part_ids.
Proof.
  induction part_ids as [| k rest IH]; intros Hincl; [reflexivity |].
  assert (Hk : In k all_ids) by (apply Hincl; left; reflexivity).
  assert (Hrest : incl rest all_ids) by (intros x Hx; apply Hincl; right; exact Hx).
  cbn [filter flat_map]. rewrite (has_row_session_get NumeroPart.id table k).
  destruct (session_get NumeroPart.id table k) as [row |] eqn:Hget.
  - cbn [flat_map]. rewrite IH by exact Hrest. f_equal.
    rewrite session_get_map by apply transfer_row_id. rewrite Hget. cbn [option_map].
    f_equal. unfold transfer_row, is_listed.
    apply session_get_Some in Hget. destruct Hget as [_ Hid].
    replace (existsb (Z.eqb (NumeroPart.id row)) all_ids) with true; [reflexivity |].
    symmetry. apply existsb_exists. exists k. split; [exact Hk | lia].
  - cbn [app]. apply IH; exact Hrest.
Qed.

(** [transfer_parts] in one equation. *)
Lemma transfer_parts_spec (s : Session) (part_ids : list Z) (o m : Z) :
  transfer_parts s part_ids o m =
  if forallb (fun k => negb (has_row NumeroPart.id (numeros_parts s) k)) part_ids
     || (has_row Personne.id (personnes s) o && has_row Mouvement.id (mouvements s) m)
  then
    (with_numeros_parts s (map (transfer_row o m part_ids) (numeros_parts s)),
     Ok (flat_map (fun k => match session_get NumeroPart.id (numeros_parts s) k with
                            | Some part => [reassign o m part]
                            | None => []
                            end) part_ids))
  else (s, Raise IntegrityError).
Proof.
  unfold transfer_parts. rewrite transfer_loop_spec. cbn [app].
  pose proof (transferred_parts o m part_ids part_ids (numeros_parts s)
                                (fun x Hx => Hx)) as Hres.
  pose proof (transfer_row_nothing_listed o m part_ids (numeros_parts s)) as Hsame.
  assert (Hall : forallb (fun k => negb (has_row NumeroPart.id (numeros_parts s) k)) part_ids
                 = match filter (has_row NumeroPart.id (numeros_parts s)) part_ids with
                   | [] => true
                   | _ :: _ => false
                   end).
  { clear. induction part_ids as [| k rest IH]; [reflexivity |].
    cbn [forallb filter].
    destruct (has_row NumeroPart.id (numeros_parts s) k); [reflexivity | exact IH]. }
  rewrite Hall.
  destruct (filter (has_row NumeroPart.id (numeros_parts s)) part_ids) as [| k found].
  - cbn [orb]. rewrite Hsame by reflexivity. rewrite with_numeros_parts_same.
    rewrite <- Hres. reflexivity.
  - cbn [orb].
    destruct (has_row Personne.id (personnes s) o && has_row Mouvement.id (mouvements s) m);
      [| reflexivity].
    rewrite Hres. reflexivity.
Qed.

Lemma is_listed_In (part_ids : list Z) (p : NumeroPart.t) :
  is_listed part_ids p = true <-> In (NumeroPart.id p) part_ids.
Proof.
  unfold is_listed. rewrite existsb_exists. split.
  - intros [k [Hk Heq]]. replace (NumeroPart.id p) with k by lia. exact Hk.
  - intros Hin. exists (NumeroPart.id p). split; [exact Hin | apply Z.eqb_refl].
Qed.

Lemma transferred_ids (o m : Z) (table : list NumeroPart.t) (part_ids : list Z) :
  map NumeroPart.id
      (flat_map (fun k => match session_get NumeroPart.id table k with
                          | Some part => [reassign o m part]
                          | None => []
                          end) part_ids)
  = filter (has_row NumeroPart.id table) part_ids.
Proof.
  induction part_ids as [| k rest IH]; [reflexivity |].
  cbn [flat_map filter]. rewrite map_app, IH, (has_row_session_get NumeroPart.id table k).
  destruct (session_get NumeroPart.id table k) as [row |] eqn:Hget; [| reflexivity].
  apply session_get_Some in Hget. destruct Hget as [_ Hid].
  cbn [map app reassign NumeroPart.id]. rewrite Hid. reflexivity.
Qed.

Lemma transferred_reassigned (o m : Z) (table : list NumeroPart.t) (part_ids : list Z) :
  Forall (fun p => NumeroPart.id_personne p = o /\ NumeroPart.id_mouvement p = Some m)
         (flat_map (fun k => match session_get NumeroPart.id table k with
                             | Some part => [reassign o m part]
                             | None => []
                             end) part_ids).
Proof.
  induction part_ids as [| k rest IH]; [constructor |].
  cbn [flat_map]. apply Forall_app. split; [| exact IH].
  destruct (session_get NumeroPart.id table k); repeat constructor.
Qed.

(** C4 (amended).  When [new_owner_id] names an existing personne and
    [mouvement_id] an existing mouvement, [transfer_parts] writes
    [id_personne] and [id_mouvement] on exactly the rows whose id is in the
    list and returns exactly the listed parts that exist, in the order of
    the list, each with the new owner and the mouvement; an id without row
    is skipped, absent from the result, and creates no row. *)
Theorem transfer_parts_reassigns (s : Session) (part_ids : list Z)
    (new_owner_id mouvement_id : Z) :
  has_row Personne.id (personnes s) new_owner_id = true ->
  has_row Mouvement.id (mouvements s) mouvement_id = true ->
  exists transferred,
    transfer_parts s part_ids new_owner_id mouvement_id
    = (with_numeros_parts s
         (map (fun p => if is_listed part_ids p
                        then reassign new_owner_id mouvement_id p
                        else p)
              (numeros_parts s)),
       Ok transferred)
    /\ map NumeroPart.id transferred
       = filter (has_row NumeroPart.id (numeros_parts s)) part_ids
    /\ Forall (fun p => NumeroPart.id_personne p = new_owner_id
                        /\ NumeroPart.id_mouvement p = Some mouvement_id)
              transferred.
Proof.
  intros Ho Hm. rewrite transfer_parts_spec, Ho, Hm. cbn [andb]. rewrite orb_true_r.
  eexists. split; [reflexivity |]. split.
  - apply transferred_ids.
  - apply transferred_reassigned.
Qed.

(** The scenario of the specification: ids [1; 2; 3] with no part 2, new
    owner 42, mouvement 7. *)
Lemma transfer_parts_reassigns_witness :
  has_row Personne.id (personnes ledger_demo) 42 = true
  /\ has_row Mouvement.id (mouvements ledger_demo) 7 = true
  /\ exists transferred,
       snd (transfer_parts ledger_demo [1; 2; 3] 42 7) = Ok transferred
       /\ map NumeroPart.id transferred = [1; 3]
       /\ Forall (fun p => NumeroPart.id_personne p = 42
                           /\ NumeroPart.id_mouvement p = Some 7) transferred.
Proof.
  split; [reflexivity | split; [reflexivity |]].
  destruct (transfer_parts_reassigns ledger_demo [1; 2; 3] 42 7 eq_refl eq_refl)
    as [transferred [Hcall [Hids Hall]]].
  exists transferred. rewrite Hcall. split; [reflexivity |].
  split; [exact Hids | exact Hall].
Defined.

(** C4 as stated fails: personne 99 does not exist, part 1 does, and the
    commit is refused. *)
Lemma transfer_parts_unknown_owner :
  transfer_parts ledger_demo [1; 2; 3] 99 7 = (ledger_demo, Raise IntegrityError).
Proof. reflexivity. Qed.

(** C10.  Whatever the outcome, [transfer_parts] leaves [num_part],
    [termine], [distribue], [etat] and [id_structure] of every part as they
    were, leaves every part whose id is not listed entirely as it was, and
    touches no other table. *)
Theorem transfer_parts_frame (s : Session) (part_ids : list Z)
    (new_owner_id mouvement_id : Z) :
  let s' := fst (transfer_parts s part_ids new_owner_id mouvement_id) in
  Forall2 (fun p p' =>
             NumeroPart.id p' = NumeroPart.id p
             /\ NumeroPart.num_part p' = NumeroPart.num_part p
             /\ NumeroPart.termine p' = NumeroPart.termine p
             /\ NumeroPart.distribue p' = NumeroPart.distribue p
             /\ NumeroPart.etat p' = NumeroPart.etat p
             /\ NumeroPart.id_structure p' = NumeroPart.id_structure p
             /\ (~ In (NumeroPart.id p) part_ids -> p' = p))
          (numeros_parts s) (numeros_parts s')
  /\ structures s' = structures s
  /\ actes s' = actes s
  /\ personnes s' = personnes s
  /\ mouvements s' = mouvements s
  /\ valeurs_points s' = valeurs_points s
  /\ parcelles s' = parcelles s
  /\ subdivisions s' = subdivisions s.
Proof.
  intros s'. subst s'. rewrite transfer_parts_spec.
  assert (Hsame : forall l : list NumeroPart.t,
             Forall2 (fun p p' =>
                        NumeroPart.id p' = NumeroPart.id p
                        /\ NumeroPart.num_part p' = NumeroPart.num_part p
                        /\ NumeroPart.termine p' = NumeroPart.termine p
                        /\ NumeroPart.distribue p' = NumeroPart.distribue p
                        /\ NumeroPart.etat p' = NumeroPart.etat p
                        /\ NumeroPart.id_structure p' = NumeroPart.id_structure p
                        /\ (~ In (NumeroPart.id p) part_ids -> p' = p)) l l).
  { induction l; constructor; [repeat split; reflexivity | assumption]. }
  destruct (_ || _); cbn [fst].
  - split; [| destruct s; repeat split; reflexivity].
    cbn [with_numeros_parts numeros_parts].
    induction (numeros_parts s) as [| p l IH]; [constructor |].
    cbn [map]. constructor; [| exact IH].
    unfold transfer_row. destruct (is_listed part_ids p) eqn:E.
    + repeat split; try reflexivity.
      intros Hnot. exfalso. apply Hnot. apply is_listed_In. exact E.
    + repeat split; reflexivity.
  - split; [apply Hsame | repeat split; reflexivity].
Qed.

(** C9.  [find_parts_sans_mouvements] returns exactly the parts whose
    [id_mouvement] is null, within the structure when one is given; after a
    transfer that went through, no part it listed is in that result any
    more. *)
Theorem find_parts_sans_mouvements_exact :
  (forall s id_structure p,
      In p (find_parts_sans_mouvements s id_structure)
      <-> In p (numeros_parts s)
          /\ NumeroPart.id_mouvement p = None
          /\ match id_structure with
             | Some i => NumeroPart.id_structure p = Some i
             | None => True
             end)
  /\ (forall s part_ids new_owner_id mouvement_id transferred id_structure p,
         snd (transfer_parts s part_ids new_owner_id mouvement_id) = Ok transferred ->
         In (NumeroPart.id p) part_ids ->
         ~ In p (find_parts_sans_mouvements
                   (fst (transfer_parts s part_ids new_owner_id mouvement_id))
                   id_structure)).
Proof.
  assert (Hexact : forall s id_structure p,
             In p (find_parts_sans_mouvements s id_structure)
             <-> In p (numeros_parts s)
                 /\ NumeroPart.id_mouvement p = None
                 /\ match id_structure with
                    | Some i => NumeroPart.id_structure p = Some i
                    | None => True
                    end).
  { intros s sid p. unfold find_parts_sans_mouvements.
    rewrite filter_In, andb_true_iff.
    destruct (NumeroPart.id_mouvement p) as [mv |];
      destruct sid as [i |]; cbn [where_opt]; unfold col_eqb;
        try destruct (NumeroPart.id_structure p) as [j |];
        rewrite ?Z.eqb_eq; intuition (try discriminate; try congruence). }
  split; [exact Hexact |].
  intros s ids o m transferred sid p Hok Hlisted Hin.
  apply Hexact in Hin. destruct Hin as [Hin [Hnull _]].
  rewrite transfer_parts_spec in Hok, Hin.
  destruct (_ || _); [| discriminate Hok].
  cbn [fst with_numeros_parts numeros_parts] in Hin.
  apply in_map_iff in Hin. destruct Hin as [p0 [Hp0 _]].
  unfold transfer_row in Hp0.
  destruct (is_listed ids p0) eqn:E.
  - subst p. discriminate Hnull.
  - subst p. apply is_listed_In in Hlisted. congruence.
Qed.

(** Part 1 of the example has no mouvement and is reported; once
    transferred under mouvement 7 it is reported no more. *)
Lemma find_parts_sans_mouvements_exact_witness :
  In (NumeroPart.mk 1 101 false false 0 40 None (Some 1))
     (find_parts_sans_mouvements ledger_demo None)
  /\ snd (transfer_parts ledger_demo [1] 42 7)
     = Ok [NumeroPart.mk 1 101 false false 0 42 (Some 7) (Some 1)]
  /\ ~ In (NumeroPart.mk 1 101 false false 0 42 (Some 7) (Some 1))
          (find_parts_sans_mouvements (fst (transfer_parts ledger_demo [1] 42 7)) None).
Proof.
  split; [left; reflexivity |].
  split; [reflexivity |].
  apply (proj2 find_parts_sans_mouvements_exact ledger_demo [1] 42 7
               [NumeroPart.mk 1 101 false false 0 42 (Some 7) (Some 1)] None
               (NumeroPart.mk 1 101 false false 0 42 (Some 7) (Some 1))).
  - reflexivity.
  - left; reflexivity.
Defined.

(** ** Point values per year *)

Lemma next_id_fresh (ids : list Z) (k : Z) : In k ids -> k < next_id ids.
Proof.
  unfold next_id. induction ids as [| x ids IH]; intros Hin; [contradiction |].
  cbn [fold_right]. destruct Hin as [-> | Hin]; [lia |].
  specialize (IH Hin). lia.
Qed.

Lemma find_app {A : Type} (g : A -> bool) (l l' : list A) :
  find g (l ++ l') = match find g l with Some x => Some x | None => find g l' end.
Proof.
  induction l as [| x l IH]; [reflexivity |].
  cbn [app find]. destruct (g x); [reflexivity | exact IH].
Qed.

(** C8 (amended).  [create_valeur_point] does not refuse a second row for a
    year: [annee] is indexed, not unique.  A request whose year fits the
    INTEGER column is accepted whatever rows the table holds, also rows of
    that year: the new row has the year of the request and an id no row
    had, the table holds it besides all the rows it held, and the rows of
    that year number one more.  So a year may have several rows, and
    [get_valeur_point_by_annee] several candidates. *)
Theorem create_valeur_point_keeps_duplicates (s : Session) (valeur_in : ValeurPointCreate.t) :
  int4 (ValeurPointCreate.annee valeur_in) ->
  let y := ValeurPointCreate.annee valeur_in in
  let s' := fst (create_valeur_point s valeur_in) in
  exists row,
    snd (create_valeur_point s valeur_in) = Ok row
    /\ ~ In (ValeurPoint.id row) (map ValeurPoint.id (valeurs_points s))
    /\ ValeurPoint.annee row = y
    /\ Permutation (valeurs_points s') (row :: valeurs_points s)
    /\ count (filter (fun v => ValeurPoint.annee v =? y) (valeurs_points s'))
       = 1 + count (filter (fun v => ValeurPoint.annee v =? y) (valeurs_points s)).
Proof.
  intros _ y s'. subst y s'. unfold create_valeur_point. cbn [fst snd].
  eexists. split; [reflexivity |].
  cbn [ValeurPoint.id ValeurPoint.annee].
  split.
  { intros Hin. apply in_map_iff in Hin. destruct Hin as [v [Hid Hv]].
    pose proof (next_id_fresh (map ValeurPoint.id (valeurs_points s)) (ValeurPoint.id v)
                  (in_map ValeurPoint.id _ _ Hv)).
    lia. }
  repeat (split; [reflexivity |]).
  cbn [with_valeurs_points valeurs_points]. split.
  - apply Permutation_sym, Permutation_cons_append.
  - unfold count. rewrite filter_app, length_app. cbn [filter ValeurPoint.annee].
    rewrite Z.eqb_refl. cbn [length]. lia.
Qed.

(** The example holds one row for 2024; a second one is accepted under the
    id 2 and the year then has two rows. *)
Lemma create_valeur_point_keeps_duplicates_witness :
  int4 2024
  /\ exists row,
       snd (create_valeur_point fermage_demo
              (ValeurPointCreate.mk 2024 dec_1_0 dec_1_0 dec_0 dec_0)) = Ok row
       /\ ValeurPoint.id row = 2
       /\ count (filter (fun v => ValeurPoint.annee v =? 2024)
                        (valeurs_points
                           (fst (create_valeur_point fermage_demo
                                   (ValeurPointCreate.mk 2024 dec_1_0 dec_1_0 dec_0 dec_0)))))
          = 1 + count (filter (fun v => ValeurPoint.annee v =? 2024)
                              (valeurs_points fermage_demo)).
Proof.
  assert (H : int4 2024) by (unfold int4; lia).
  split; [exact H |].
  destruct (create_valeur_point_keeps_duplicates fermage_demo
              (ValeurPointCreate.mk 2024 dec_1_0 dec_1_0 dec_0 dec_0) H)
    as [row [Hrow [_ [_ [_ Hcount]]]]].
  exists row. split; [exact Hrow |]. split; [| exact Hcount].
  vm_compute in Hrow. inversion Hrow. reflexivity.
Defined.

(** C8 as stated fails: the example already holds a row for 2024; a second
    one is accepted and the table then holds two rows for that year. *)
Lemma create_valeur_point_second_row_for_year :
  exists old,
    get_valeur_point_by_annee fermage_demo 2024 = Some old
    /\ exists row,
         snd (create_valeur_point fermage_demo
                (ValeurPointCreate.mk 2024 dec_1_0 dec_1_0 dec_0 dec_0)) = Ok row
         /\ count (filter (fun v => ValeurPoint.annee v =? 2024)
                          (valeurs_points
                             (fst (create_valeur_point fermage_demo
                                     (ValeurPointCreate.mk 2024 dec_1_0 dec_1_0 dec_0 dec_0)))))
            = 2.
Proof.
  eexists. split; [reflexivity |].
  eexists. split; reflexivity.
Qed.

(** ** Global totals *)

Lemma filter_none {A : Type} (l : list A) : filter (fun _ => false) l = [].
Proof. induction l; [reflexivity | exact IHl]. Qed.

(** The partners of a nullable foreign key under the primary key of the
    referenced table. *)
Lemma filter_fk {A : Type} (pk : A -> Z) (table : list A) (key : option Z) :
  NoDup (map pk table) ->
  filter (fun row => col_eqb key (pk row)) table =
  match key with
  | Some k => match session_get pk table k with Some row => [row] | None => [] end
  | None => []
  end.
Proof.
  intros Hpk. destruct key as [k |]; cbn [col_eqb].
  - apply filter_pk; exact Hpk.
  - apply filter_none.
Qed.

Lemma parts_join_filter (s : Session) (kind : Z) (g : NumeroPart.t -> bool) :
  NoDup (map Structure.id (structures s)) ->
  map fst (filter (fun row => g (fst row) && open_part_of_kind kind row)
                  (parts_join_structure s))
  = filter (fun p => g p && open_part_under s kind p) (numeros_parts s).
Proof.
  intros Hpk. unfold parts_join_structure, join.
  induction (numeros_parts s) as [| p parts IH]; [reflexivity |].
  cbn [flat_map filter]. rewrite filter_app, map_app, IH.
  rewrite (filter_fk Structure.id (structures s) (NumeroPart.id_structure p) Hpk).
  unfold open_part_under, open_part_of_kind.
  destruct (NumeroPart.id_structure p) as [sid |].
  - destruct (session_get Structure.id (structures s) sid) as [st |].
    + cbn [map filter fst snd].
      destruct (g p && (negb (NumeroPart.termine p) && (Structure.type_structure st =? kind)));
        reflexivity.
    + cbn [map filter app]. rewrite andb_false_r, andb_false_r. reflexivity.
  - cbn [map filter app]. rewrite andb_false_r, andb_false_r. reflexivity.
Qed.

Lemma count_parts_join (s : Session) (kind : Z) (g : NumeroPart.t -> bool) :
  NoDup (map Structure.id (structures s)) ->
  count (filter (fun row => g (fst row) && open_part_of_kind kind row)
                (parts_join_structure s))
  = count (filter (fun p => g p && open_part_under s kind p) (numeros_parts s)).
Proof.
  intros Hpk. unfold count. rewrite <- (parts_join_filter s kind g Hpk).
  rewrite length_map. reflexivity.
Qed.

(** C6.  [get_parts_totals] reports the number of non-terminated parts
    under a GFA-kind structure, the number under a TSL-kind structure,
    their sum, and the number of distinct owners of non-terminated parts:
    the length of any duplicate-free list of exactly those owners. *)
Theorem get_parts_totals_counts (s : Session) :
  NoDup (map Structure.id (structures s)) ->
  gfa (get_parts_totals s)
  = count (filter (open_part_under s TypeStructure.GFA) (numeros_parts s))
  /\ sctl (get_parts_totals s)
     = count (filter (open_part_under s TypeStructure.TSL) (numeros_parts s))
  /\ total (get_parts_totals s) = gfa (get_parts_totals s) + sctl (get_parts_totals s)
  /\ forall owners,
       NoDup owners ->
       (forall k, In k owners
                  <-> exists p, In p (numeros_parts s)
                                /\ NumeroPart.termine p = false
                                /\ NumeroPart.id_personne p = k) ->
       actionnaires (get_parts_totals s) = count owners.
Proof.
  intros Hpk. unfold get_parts_totals. cbn [gfa sctl total actionnaires].
  pose proof (count_parts_join s TypeStructure.GFA (fun _ => true) Hpk) as Hg.
  pose proof (count_parts_join s TypeStructure.TSL (fun _ => true) Hpk) as Ht.
  cbn [andb] in Hg, Ht.
  split; [exact Hg | split; [exact Ht | split; [reflexivity |]]].
  intros owners Hnd Howners. unfold count. f_equal.
  apply Permutation_length. apply NoDup_Permutation; [apply NoDup_nodup | exact Hnd |].
  intros k. rewrite nodup_In, in_map_iff, Howners.
  split.
  - intros [p [Hk Hin]]. apply filter_In in Hin. destruct Hin as [Hin Hopen].
    exists p. split; [exact Hin | split; [| exact Hk]].
    destruct (NumeroPart.termine p); [discriminate | reflexivity].
  - intros [p [Hin [Hopen Hk]]]. exists p. split; [exact Hk |].
    apply filter_In. split; [exact Hin |]. rewrite Hopen. reflexivity.
Qed.

(** The scenario of the specification: two open parts, two owners, one GFA
    and one TSL structure. *)
Lemma get_parts_totals_counts_witness :
  NoDup (map Structure.id (structures ledger_demo))
  /\ get_parts_totals ledger_demo = mkPartsTotaux 1 1 2 2
  /\ gfa (get_parts_totals ledger_demo)
     = count (filter (open_part_under ledger_demo TypeStructure.GFA)
                     (numeros_parts ledger_demo)).
Proof.
  assert (H : NoDup (map Structure.id (structures ledger_demo))).
  { simpl. repeat constructor; simpl; lia. }
  split; [exact H |]. split; [reflexivity |].
  exact (proj1 (get_parts_totals_counts ledger_demo H)).
Defined.

(** ** ORDER BY *)

Section OrderBy.

Context {A : Type} (le : A -> A -> bool).

Lemma insert_by_perm (x : A) (l : list A) : Permutation (insert_by le x l) (x :: l).
Proof.
  induction l as [| y l IH]; [reflexivity |].
  cbn [insert_by]. destruct (le x y); [reflexivity |].
  rewrite IH. apply perm_swap.
Qed.

Lemma order_by_perm (l : list A) : Permutation (order_by le l) l.
Proof.
  induction l as [| x l IH]; [reflexivity |].
  cbn [order_by fold_right]. fold (order_by le l).
  rewrite insert_by_perm. constructor. exact IH.
Qed.

Hypothesis le_total : forall x y, le x y = false -> le y x = true.
Hypothesis le_trans : forall x y z, le x y = true -> le y z = true -> le x z = true.

Lemma insert_by_sorted (x : A) (l : list A) :
  Sorted (fun a b => le a b = true) l ->
  Sorted (fun a b => le a b = true) (insert_by le x l).
Proof.
  induction l as [| y l IH]; intros Hs.
  - repeat constructor.
  - cbn [insert_by]. destruct (le x y) eqn:E.
    + constructor; [exact Hs | constructor; exact E].
    + inversion Hs as [| ? ? Hs' Hhd]; subst.
      constructor; [apply IH; exact Hs' |].
      destruct l as [| z l]; cbn [insert_by].
      * constructor. apply le_total; exact E.
      * destruct (le x z); constructor.
        -- apply le_total; exact E.
        -- inversion Hhd; assumption.
Qed.

Lemma order_by_sorted (l : list A) :
  StronglySorted (fun a b => le a b = true) (order_by le l).
Proof.
  apply Sorted_StronglySorted.
  - intros x y z. apply le_trans.
  - induction l as [| x l IH]; [constructor |].
    cbn [order_by fold_right]. apply insert_by_sorted. exact IH.
Qed.

End OrderBy.

Ltac bool_to_Z :=
  repeat (progress rewrite ?orb_true_iff, ?andb_true_iff, ?orb_false_iff, ?andb_false_iff,
            ?Z.ltb_lt, ?Z.ltb_ge, ?Z.eqb_eq, ?Z.eqb_neq, ?Z.leb_le, ?Z.leb_gt).






(** ** Listing the mouvements *)



Lemma StronglySorted_map_in {A B : Type} (R : A -> A -> Prop) (R' : B -> B -> Prop)
    (g : A -> B) (l : list A) :
  (forall x y, In x l -> In y l -> R x y -> R' (g x) (g y)) ->
  StronglySorted R l -> StronglySorted R' (map g l).
Proof.
  intros Hg Hs. induction Hs as [| x l Hs IH Hall]; [constructor |].
  cbn [map]. constructor.
  - apply IH. intros a b Ha Hb. apply Hg; right; assumption.
  - apply Forall_forall. intros b Hb. apply in_map_iff in Hb.
    destruct Hb as [y [<- Hy]].
    apply Hg; [left; reflexivity | right; exact Hy |].
    rewrite Forall_forall in Hall. apply Hall; exact Hy.
Qed.




(** ** Share counts: one personne and the batch *)

Lemma filter_map_comm {A B : Type} (g : B -> bool) (h : A -> B) (l : list A) :
  filter g (map h l) = map h (filter (fun x => g (h x)) l).
Proof.
  induction l as [| x l IH]; [reflexivity |].
  cbn [map filter]. destruct (g (h x)); cbn [map]; rewrite IH; reflexivity.
Qed.

Lemma existsb_eqb_In (k : Z) (l : list Z) : existsb (Z.eqb k) l = true <-> In k l.
Proof.
  rewrite existsb_exists. split.
  - intros [x [Hx Heq]]. replace k with x by lia. exact Hx.
  - intros Hin. exists k. split; [exact Hin | apply Z.eqb_refl].
Qed.

Lemma filter_eqb_NoDup (k : Z) (l : list Z) :
  NoDup l ->
  filter (fun x => k =? x) l = if existsb (Z.eqb k) l then [k] else [].
Proof.
  induction l as [| x l IH]; intros Hnd; [reflexivity |].
  inversion Hnd as [| ? ? Hnotin Hnd']; subst.
  cbn [filter existsb]. rewrite (IH Hnd').
  destruct (Z.eqb_spec k x) as [-> | Hneq]; cbn [orb]; [| reflexivity].
  destruct (existsb (Z.eqb x) l) eqn:E; [| reflexivity].
  exfalso. apply Hnotin. apply existsb_eqb_In. exact E.
Qed.

Lemma group_count_lookup (keys : list Z) (k : Z) :
  filter (fun sub => k =? fst sub) (group_count keys)
  = match subquery_row keys k with Some row => [row] | None => [] end.
Proof.
  unfold group_count, subquery_row. rewrite filter_map_comm. cbn [fst].
  rewrite (filter_eqb_NoDup k _ (NoDup_nodup Z.eq_dec keys)).
  assert (Hex : existsb (Z.eqb k) (nodup Z.eq_dec keys) = existsb (Z.eqb k) keys).
  { destruct (existsb (Z.eqb k) keys) eqn:E.
    - apply existsb_eqb_In. apply nodup_In. apply existsb_eqb_In. exact E.
    - destruct (existsb (Z.eqb k) (nodup Z.eq_dec keys)) eqn:E'; [| reflexivity].
      apply existsb_eqb_In in E'. apply nodup_In in E'.
      apply existsb_eqb_In in E'. congruence. }
  rewrite Hex. destruct (existsb (Z.eqb k) keys); reflexivity.
Qed.

Lemma outerjoin_group_count {A : Type} (key : A -> Z) (keys : list Z) (l : list A) :
  outerjoin l (group_count keys) (fun a sub => key a =? fst sub)
  = map (fun a => (a, subquery_row keys (key a))) l.
Proof.
  unfold outerjoin. induction l as [| a l IH]; [reflexivity |].
  cbn [flat_map]. rewrite IH, group_count_lookup.
  destruct (subquery_row keys (key a)) eqn:E; cbn [map app]; rewrite E; reflexivity.
Qed.

Lemma coalesce_subquery_row (keys : list Z) (k : Z) :
  coalesce_count (subquery_row keys k) = Z.of_nat (count_occ Z.eq_dec keys k).
Proof.
  unfold subquery_row. destruct (existsb (Z.eqb k) keys) eqn:E; [reflexivity |].
  cbn [coalesce_count]. symmetry. change 0 with (Z.of_nat 0). f_equal.
  apply count_occ_not_In. intros Hin. apply existsb_eqb_In in Hin. congruence.
Qed.

Lemma count_occ_keys {A : Type} (h : A -> Z) (g : A -> bool) (l : list A) (k : Z) :
  Z.of_nat (count_occ Z.eq_dec (map h (filter g l)) k)
  = count (filter (fun row => (h row =? k) && g row) l).
Proof.
  unfold count. f_equal.
  induction l as [| x l IH]; [reflexivity |].
  cbn [filter]. destruct (g x); cbn [map count_occ].
  - destruct (Z.eq_dec (h x) k) as [Heq | Hneq].
    + rewrite (proj2 (Z.eqb_eq _ _) Heq). cbn [andb length]. rewrite IH. reflexivity.
    + rewrite (proj2 (Z.eqb_neq _ _) Hneq). cbn [andb]. exact IH.
  - rewrite andb_false_r. exact IH.
Qed.

Lemma subquery_count (s : Session) (kind k : Z) :
  coalesce_count
    (subquery_row
       (map (fun row => NumeroPart.id_personne (fst row))
            (filter (open_part_of_kind kind) (parts_join_structure s)))
       k)
  = count_parts_of_personne s k kind.
Proof. rewrite coalesce_subquery_row. apply count_occ_keys. Qed.

Lemma In_page {A : Type} (skip limit : nat) (l : list A) (x : A) :
  In x (page skip limit l) -> In x l.
Proof.
  unfold page. intros H.
  rewrite <- (firstn_skipn skip l). apply in_or_app. right.
  rewrite <- (firstn_skipn limit (skipn skip l)). apply in_or_app. left. exact H.
Qed.

Section Batch.

Variable ilike : string -> string -> bool.
Variable personne_le : Personne.t -> Personne.t -> bool.

(** The rows of the batch query before ordering and paging: one per
    matching personne, with the rows of the two subqueries for its id. *)
Lemma batch_statement (s : Session) (skip limit : nat) (f : PersonneFilters) :
  exists rows,
    Permutation rows
      (map (fun p =>
              (p,
               subquery_row
                 (map (fun row => NumeroPart.id_personne (fst row))
                      (filter (open_part_of_kind TypeStructure.GFA) (parts_join_structure s)))
                 (Personne.id p),
               subquery_row
                 (map (fun row => NumeroPart.id_personne (fst row))
                      (filter (open_part_of_kind TypeStructure.TSL) (parts_join_structure s)))
                 (Personne.id p)))
           (filter (personne_matches ilike f) (personnes s)))
    /\ fst (get_personnes_with_parts ilike personne_le s skip limit f)
       = map (fun row =>
                mkPersonneWithParts
                  (fst (fst row))
                  (coalesce_count (snd (fst row)))
                  (coalesce_count (snd row))
                  (coalesce_count (snd (fst row)) + coalesce_count (snd row)))
             (page skip limit rows).
Proof.
  unfold get_personnes_with_parts, parts_subquery. cbn [fst].
  rewrite (outerjoin_group_count Personne.id).
  rewrite (outerjoin_group_count (fun row : Personne.t * option (Z * Z) =>
                                    Personne.id (fst row))).
  rewrite map_map. cbn [fst]. rewrite filter_map_comm. cbn [fst].
  eexists. split; [| reflexivity].
  apply order_by_perm.
Qed.

(** C3.  Every row of the batch [get_personnes_with_parts], whatever the
    filters and the page, carries the three counts that the single-row
    [get_personne_with_parts] returns for the same personne, the total being
    the sum of the two others; a personne that passes the filters is in the
    batch when the page is large enough; and each count is the number of the
    personne's non-terminated parts whose structure is of the kind. *)
Theorem single_and_batch_share_counts (s : Session) (f : PersonneFilters) :
  (forall skip limit r,
      In r (fst (get_personnes_with_parts ilike personne_le s skip limit f)) ->
      exists single,
        get_personne_with_parts s (Personne.id (personne r)) = Some single
        /\ nb_parts_gfa r = nb_parts_gfa single
        /\ nb_parts_sctl r = nb_parts_sctl single
        /\ nb_parts_total r = nb_parts_total single
        /\ nb_parts_total r = nb_parts_gfa r + nb_parts_sctl r)
  /\ (forall limit p,
         In p (personnes s) ->
         personne_matches ilike f p = true ->
         (length (personnes s) <= limit)%nat ->
         exists r,
           In r (fst (get_personnes_with_parts ilike personne_le s 0 limit f))
           /\ personne r = p)
  /\ (NoDup (map Structure.id (structures s)) ->
      forall personne_id single,
        get_personne_with_parts s personne_id = Some single ->
        nb_parts_gfa single = open_parts_of s personne_id TypeStructure.GFA
        /\ nb_parts_sctl single = open_parts_of s personne_id TypeStructure.TSL).
Proof.
  split; [| split].
  - intros skip limit r Hr.
    destruct (batch_statement s skip limit f) as [rows [Hperm Hbatch]].
    rewrite Hbatch in Hr. apply in_map_iff in Hr. destruct Hr as [row [<- Hrow]].
    apply In_page in Hrow. apply (Permutation_in _ Hperm) in Hrow.
    apply in_map_iff in Hrow. destruct Hrow as [p [<- Hp]].
    apply filter_In in Hp. destruct Hp as [Hp _].
    cbn [fst snd personne nb_parts_gfa nb_parts_sctl nb_parts_total].
    rewrite !subquery_count.
    unfold get_personne_with_parts.
    destruct (session_get Personne.id (personnes s) (Personne.id p)) as [p' |] eqn:Hget.
    + eexists. split; [reflexivity |].
      cbn [nb_parts_gfa nb_parts_sctl nb_parts_total]. repeat split; reflexivity.
    + exfalso. exact (session_get_None _ _ _ Hget p Hp eq_refl).
  - intros limit p Hp Hmatch Hlimit.
    destruct (batch_statement s 0 limit f) as [rows [Hperm Hbatch]].
    rewrite Hbatch.
    assert (Hall : page 0 limit rows = rows).
    { unfold page. cbn [skipn]. apply firstn_all2.
      rewrite (Permutation_length Hperm), length_map.
      pose proof (filter_length_le (personne_matches ilike f) (personnes s)). lia. }
    rewrite Hall. eexists. split.
    + apply in_map. apply (Permutation_in _ (Permutation_sym Hperm)).
      apply in_map. apply filter_In. split; [exact Hp | exact Hmatch].
    + reflexivity.
  - intros Hpk pid single Hsingle. unfold get_personne_with_parts in Hsingle.
    destruct (session_get Personne.id (personnes s) pid); [| discriminate Hsingle].
    inversion Hsingle; subst single. cbn [nb_parts_gfa nb_parts_sctl].
    unfold count_parts_of_personne, open_parts_of.
    split; apply (count_parts_join s _ (fun p => NumeroPart.id_personne p =? pid) Hpk).
Qed.

End Batch.

(** Personne 40 of the example in the batch and alone: one GFA part, no
    TSL part. *)
Lemma single_and_batch_share_counts_witness :
  In (mkPersonneWithParts (demo_personne 40 "Durand") 1 0 1)
     (fst (get_personnes_with_parts (fun _ _ => true)
             (fun p q => Personne.id p <=? Personne.id q)
             ledger_demo 0 100 no_personne_filter))
  /\ exists single,
       get_personne_with_parts ledger_demo 40 = Some single
       /\ 1 = nb_parts_gfa single
       /\ 0 = nb_parts_sctl single
       /\ 1 = nb_parts_total single
       /\ 1 = 1 + 0.
Proof.
  assert (H : In (mkPersonneWithParts (demo_personne 40 "Durand") 1 0 1)
                 (fst (get_personnes_with_parts (fun _ _ => true)
                         (fun p q => Personne.id p <=? Personne.id q)
                         ledger_demo 0 100 no_personne_filter))).
  { left; reflexivity. }
  split; [exact H |].
  exact (proj1 (single_and_batch_share_counts (fun _ _ => true)
                  (fun p q => Personne.id p <=? Personne.id q)
                  ledger_demo no_personne_filter)
               0%nat 100%nat _ H).
Defined.

(** * Further properties *)

(** ** Pages *)

Lemma page_length {A : Type} (skip limit : nat) (l : list A) :
  length (page skip limit l) = Nat.min limit (length l - skip).
Proof. unfold page. rewrite length_firstn, length_skipn. reflexivity. Qed.

Lemma firstn_plus {A : Type} (a b : nat) (l : list A) :
  firstn (a + b) l = firstn a l ++ firstn b (skipn a l).
Proof.
  revert l. induction a as [| a IH]; intros l; [reflexivity |].
  destruct l as [| x l]; cbn [Nat.add firstn skipn app].
  - rewrite firstn_nil. reflexivity.
  - rewrite IH. reflexivity.
Qed.

Lemma page_app {A : Type} (skip a b : nat) (l : list A) :
  page skip a l ++ page (skip + a) b l = page skip (a + b) l.
Proof.
  unfold page. rewrite firstn_plus. f_equal.
  rewrite skipn_skipn. rewrite (Nat.add_comm a skip). reflexivity.
Qed.

Lemma page_all {A : Type} (limit : nat) (l : list A) :
  (length l <= limit)%nat -> page 0 limit l = l.
Proof. intros H. unfold page. cbn [skipn]. apply firstn_all2. exact H. Qed.

Lemma StronglySorted_skipn {A : Type} (R : A -> A -> Prop) (n : nat) (l : list A) :
  StronglySorted R l -> StronglySorted R (skipn n l).
Proof.
  revert l. induction n as [| n IH]; intros l Hs; [exact Hs |].
  destruct l as [| x l]; [exact Hs |].
  cbn [skipn]. apply IH. inversion Hs; assumption.
Qed.

Lemma StronglySorted_firstn {A : Type} (R : A -> A -> Prop) (n : nat) (l : list A) :
  StronglySorted R l -> StronglySorted R (firstn n l).
Proof.
  revert l. induction n as [| n IH]; intros l Hs; [constructor |].
  destruct l as [| x l]; [constructor |].
  cbn [firstn]. inversion Hs as [| ? ? Hs' Hall]; subst.
  constructor; [apply IH; exact Hs' |].
  rewrite Forall_forall in *. intros y Hy. apply Hall.
  rewrite <- (firstn_skipn n l). apply in_or_app. left. exact Hy.
Qed.

Lemma StronglySorted_page {A : Type} (R : A -> A -> Prop) (skip limit : nat) (l : list A) :
  StronglySorted R l -> StronglySorted R (page skip limit l).
Proof.
  intros Hs. unfold page. apply StronglySorted_firstn, StronglySorted_skipn. exact Hs.
Qed.

Lemma order_by_length {A : Type} (le : A -> A -> bool) (l : list A) :
  length (order_by le l) = length l.
Proof. apply Permutation_length, order_by_perm. Qed.

Lemma In_order_by {A : Type} (le : A -> A -> bool) (l : list A) (x : A) :
  In x (order_by le l) <-> In x l.
Proof.
  split; apply Permutation_in; [| apply Permutation_sym]; apply order_by_perm.
Qed.

(** ** Listing the parts *)

Lemma num_part_le_total (a b : NumeroPart.t) :
  num_part_le a b = false -> num_part_le b a = true.
Proof. unfold num_part_le. bool_to_Z. lia. Qed.

Lemma num_part_le_trans (a b c : NumeroPart.t) :
  num_part_le a b = true -> num_part_le b c = true -> num_part_le a c = true.
Proof. unfold num_part_le. bool_to_Z. lia. Qed.

(** X1.  [get_numeros_parts] returns rows of the table that pass every
    filter, in particular with [num_part] between the two bounds, in
    ascending order of [num_part]; the page holds
    [min limit (count - skip)] rows and is empty when the lower bound
    exceeds the upper one. *)
Theorem get_numeros_parts_page (s : Session) (skip limit : nat) (f : NumeroPartFilters) :
  let parts := fst (get_numeros_parts s skip limit f) in
  let n := snd (get_numeros_parts s skip limit f) in
  StronglySorted (fun a b => NumeroPart.num_part a <= NumeroPart.num_part b) parts
  /\ (forall p, In p parts ->
        In p (numeros_parts s)
        /\ numero_part_matches f p = true
        /\ (forall lo, np_num_part_min f = Some lo -> lo <= NumeroPart.num_part p)
        /\ (forall hi, np_num_part_max f = Some hi -> NumeroPart.num_part p <= hi))
  /\ n = count (filter (numero_part_matches f) (numeros_parts s))
  /\ Z.of_nat (length parts) = Z.min (Z.of_nat limit) (Z.max 0 (n - Z.of_nat skip))
  /\ (forall lo hi, np_num_part_min f = Some lo -> np_num_part_max f = Some hi ->
        hi < lo -> parts = [] /\ n = 0).
Proof.
  intros parts n. subst parts n. unfold get_numeros_parts. cbn [fst snd].
  set (matching := filter (numero_part_matches f) (numeros_parts s)).
  assert (Hrange : forall p, numero_part_matches f p = true ->
             (forall lo, np_num_part_min f = Some lo -> lo <= NumeroPart.num_part p)
             /\ (forall hi, np_num_part_max f = Some hi -> NumeroPart.num_part p <= hi)).
  { intros p Hm. unfold numero_part_matches in Hm.
    rewrite !andb_true_iff in Hm.
    destruct Hm as [[[[[[_ _] _] _] Hlo] Hhi] _].
    split.
    - intros lo E. rewrite E in Hlo. cbn [where_opt] in Hlo. lia.
    - intros hi E. rewrite E in Hhi. cbn [where_opt] in Hhi. lia. }
  split; [| split; [| split; [| split]]].
  - apply StronglySorted_page.
    assert (Hs := order_by_sorted num_part_le num_part_le_total num_part_le_trans matching).
    clear Hrange. induction Hs as [| x l Hs IH Hall]; constructor; [exact IH |].
    rewrite Forall_forall in *. intros y Hy. specialize (Hall y Hy).
    unfold num_part_le in Hall. lia.
  - intros p Hp. apply In_page in Hp. apply In_order_by in Hp.
    apply filter_In in Hp. destruct Hp as [Hin Hm].
    split; [exact Hin | split; [exact Hm | apply Hrange; exact Hm]].
  - reflexivity.
  - rewrite page_length, order_by_length. unfold count. lia.
  - intros lo hi Elo Ehi Hlt.
    assert (Hnil : matching = []).
    { destruct matching as [| p rest] eqn:E; [reflexivity | exfalso].
      assert (Hp : In p matching) by (rewrite E; left; reflexivity).
      apply filter_In in Hp. destruct Hp as [_ Hm].
      destruct (Hrange p Hm) as [H1 H2].
      specialize (H1 lo Elo). specialize (H2 hi Ehi). lia. }
    rewrite Hnil. split; [| reflexivity].
    unfold page. cbn [order_by fold_right skipn]. rewrite skipn_nil, firstn_nil. reflexivity.
Qed.

Lemma Permutation_filter {A : Type} (g : A -> bool) (l l' : list A) :
  Permutation l l' -> Permutation (filter g l) (filter g l').
Proof.
  induction 1 as [| x l l' _ IH | x y l | l l' l'' _ IH1 _ IH2]; cbn [filter].
  - constructor.
  - destruct (g x); [constructor |]; exact IH.
  - destruct (g x), (g y); try apply perm_swap; reflexivity.
  - etransitivity; eassumption.
Qed.

Lemma sorted_unique {A : Type} (key : A -> Z) (l1 : list A) :
  forall l2,
    NoDup (map key l1) ->
    StronglySorted (fun a b => key a <= key b) l1 ->
    StronglySorted (fun a b => key a <= key b) l2 ->
    Permutation l1 l2 ->
    l1 = l2.
Proof.
  induction l1 as [| x l1 IH]; intros l2 Hnd Hs1 Hs2 Hperm.
  - apply Permutation_nil in Hperm. congruence.
  - destruct l2 as [| y l2];
      [apply Permutation_sym, Permutation_nil in Hperm; discriminate |].
    inversion Hs1 as [| ? ? Hs1' Hall1]; subst.
    inversion Hs2 as [| ? ? Hs2' Hall2]; subst.
    rewrite Forall_forall in Hall1, Hall2.
    assert (Hxy : x = y).
    { assert (Hy : In y (x :: l1))
        by (apply (Permutation_in _ (Permutation_sym Hperm)); left; reflexivity).
      assert (Hx : In x (y :: l2)) by (apply (Permutation_in _ Hperm); left; reflexivity).
      destruct Hy as [Hy | Hy]; [exact Hy |].
      destruct Hx as [Hx | Hx]; [symmetry; exact Hx |].
      apply (pk_unique key (x :: l1) x y Hnd);
        [left; reflexivity | right; exact Hy |].
      pose proof (Hall1 y Hy). pose proof (Hall2 x Hx). lia. }
    subst y. f_equal. cbn [map] in Hnd. inversion Hnd; subst.
    apply IH; try assumption. apply (Permutation_cons_inv Hperm).
Qed.

(** X2.  When the parts that pass the filters have distinct numbers, the
    listing of [get_numeros_parts] is determined by the table: every page is
    the slice [skip, skip + limit) of the one ascending list of the matching
    parts.  So the page [skip, a] followed by the page [skip + a, b] is the
    page [skip, a + b], no part missing and none repeated, and the count is
    the same on every page. *)
Theorem get_numeros_parts_pages_tile (s : Session) (f : NumeroPartFilters)
    (sorted : list NumeroPart.t) :
  NoDup (map NumeroPart.num_part (filter (numero_part_matches f) (numeros_parts s))) ->
  StronglySorted (fun a b => NumeroPart.num_part a <= NumeroPart.num_part b) sorted ->
  Permutation sorted (filter (numero_part_matches f) (numeros_parts s)) ->
  (forall skip limit,
      fst (get_numeros_parts s skip limit f) = firstn limit (skipn skip sorted))
  /\ (forall skip a b,
         fst (get_numeros_parts s skip a f) ++ fst (get_numeros_parts s (skip + a) b f)
         = fst (get_numeros_parts s skip (a + b) f))
  /\ (forall skip a b,
         snd (get_numeros_parts s skip a f) = snd (get_numeros_parts s (skip + a) b f))
  /\ fst (get_numeros_parts s 0 (length (numeros_parts s)) f) = sorted.
Proof.
  intros Hnd Hsorted Hperm.
  assert (Heq : order_by num_part_le (filter (numero_part_matches f) (numeros_parts s))
                = sorted).
  { apply (sorted_unique NumeroPart.num_part).
    - apply (Permutation_NoDup
               (Permutation_map NumeroPart.num_part
                  (Permutation_sym (order_by_perm num_part_le _)))).
      exact Hnd.
    - assert (Hs := order_by_sorted num_part_le num_part_le_total num_part_le_trans
                      (filter (numero_part_matches f) (numeros_parts s))).
      induction Hs as [| x l Hs IH Hall]; constructor; [exact IH |].
      rewrite Forall_forall in *. intros y Hy. specialize (Hall y Hy).
      unfold num_part_le in Hall. lia.
    - exact Hsorted.
    - rewrite order_by_perm. apply Permutation_sym. exact Hperm. }
  unfold get_numeros_parts. cbn [fst snd]. rewrite Heq.
  split; [| split; [| split]].
  - reflexivity.
  - intros skip a b. apply page_app.
  - reflexivity.
  - apply page_all. rewrite (Permutation_length Hperm). apply filter_length_le.
Qed.

(** The two parts of the example have the numbers 101 and 103. *)
Lemma get_numeros_parts_pages_tile_witness :
  fst (get_numeros_parts ledger_demo 0 1
         (mkNumeroPartFilters None None None None None None None))
  ++ fst (get_numeros_parts ledger_demo 1 1
            (mkNumeroPartFilters None None None None None None None))
  = fst (get_numeros_parts ledger_demo 0 2
           (mkNumeroPartFilters None None None None None None None)).
Proof.
  assert (Hnd : NoDup (map NumeroPart.num_part
                           (filter (numero_part_matches
                                      (mkNumeroPartFilters None None None None None None None))
                                   (numeros_parts ledger_demo)))).
  { simpl. repeat constructor; simpl; lia. }
  assert (Hs : StronglySorted
                 (fun a b => NumeroPart.num_part a <= NumeroPart.num_part b)
                 (numeros_parts ledger_demo)).
  { simpl. repeat constructor; simpl; lia. }
  exact (proj1 (proj2 (get_numeros_parts_pages_tile ledger_demo
                         (mkNumeroPartFilters None None None None None None None)
                         (numeros_parts ledger_demo) Hnd Hs (Permutation_refl _)))
               0%nat 1%nat 1%nat).
Defined.

(** ** Creating and deleting a part *)

Lemma session_get_fresh {A : Type} (pk : A -> Z) (table : list A) :
  session_get pk table (next_id (map pk table)) = None.
Proof.
  unfold session_get.
  destruct (find (fun row => pk row =? next_id (map pk table)) table) as [row |] eqn:E;
    [| reflexivity].
  apply find_some in E. destruct E as [Hin Heq].
  pose proof (next_id_fresh (map pk table) (pk row) (in_map pk _ _ Hin)). lia.
Qed.

Lemma session_get_app_new {A : Type} (pk : A -> Z) (table : list A) (row : A) (k : Z) :
  session_get pk table (pk row) = None ->
  session_get pk (table ++ [row]) k
  = if pk row =? k then Some row else session_get pk table k.
Proof.
  unfold session_get. intros Hnew. rewrite find_app. cbn [find].
  destruct (Z.eqb_spec (pk row) k) as [<- | Hneq].
  - rewrite Hnew. reflexivity.
  - destruct (find (fun r => pk r =? k) table); reflexivity.
Qed.

Lemma session_get_remove {A : Type} (pk : A -> Z) (table : list A) (k k' : Z) :
  session_get pk (filter (fun row => negb (pk row =? k)) table) k'
  = if k' =? k then None else session_get pk table k'.
Proof.
  unfold session_get. induction table as [| row table IH].
  - cbn. destruct (k' =? k); reflexivity.
  - cbn [filter find].
    destruct (Z.eqb_spec (pk row) k) as [Hk | Hk]; cbn [negb find];
      destruct (Z.eqb_spec (pk row) k') as [Hk' | Hk'];
      destruct (Z.eqb_spec k' k) as [E | E]; try lia; try reflexivity;
      rewrite IH; destruct (Z.eqb_spec k' k); try lia; reflexivity.
Qed.

Lemma filter_all {A : Type} (g : A -> bool) (l : list A) :
  (forall x, In x l -> g x = true) -> filter g l = l.
Proof.
  induction l as [| x l IH]; intros H; [reflexivity |].
  cbn [filter]. rewrite (H x (or_introl eq_refl)). f_equal.
  apply IH. intros y Hy. apply H. right. exact Hy.
Qed.

(** X3.  [create_numero_part] on a request whose integers fit the INTEGER
    columns: when the owner exists and the mouvement and the structure, if
    given, exist, the part is appended under an id no row had, with the
    columns of the request; reading that id back returns the new part and
    every other id reads as before.  When one of the three references
    points nowhere the insert is refused with an IntegrityError and the
    database is unchanged. *)
Theorem create_numero_part_inserts (s : Session) (part_in : NumeroPartCreate.t) :
  int4 (NumeroPartCreate.num_part part_in) ->
  int4 (NumeroPartCreate.etat part_in) ->
  int4 (NumeroPartCreate.id_personne part_in) ->
  int4_opt (NumeroPartCreate.id_mouvement part_in) ->
  int4_opt (NumeroPartCreate.id_structure part_in) ->
  (has_row Personne.id (personnes s) (NumeroPartCreate.id_personne part_in) = true ->
   fk_opt Mouvement.id (mouvements s) (NumeroPartCreate.id_mouvement part_in) = true ->
   fk_opt Structure.id (structures s) (NumeroPartCreate.id_structure part_in) = true ->
   exists row,
     create_numero_part s part_in
     = (with_numeros_parts s (numeros_parts s ++ [row]), Ok row)
     /\ ~ In (NumeroPart.id row) (map NumeroPart.id (numeros_parts s))
     /\ NumeroPart.num_part row = NumeroPartCreate.num_part part_in
     /\ NumeroPart.termine row = NumeroPartCreate.termine part_in
     /\ NumeroPart.distribue row = NumeroPartCreate.distribue part_in
     /\ NumeroPart.etat row = NumeroPartCreate.etat part_in
     /\ NumeroPart.id_personne row = NumeroPartCreate.id_personne part_in
     /\ NumeroPart.id_mouvement row = NumeroPartCreate.id_mouvement part_in
     /\ NumeroPart.id_structure row = NumeroPartCreate.id_structure part_in
     /\ get_numero_part (fst (create_numero_part s part_in)) (NumeroPart.id row) = Some row
     /\ forall k, k <> NumeroPart.id row ->
                  get_numero_part (fst (create_numero_part s part_in)) k
                  = get_numero_part s k)
  /\ (has_row Personne.id (personnes s) (NumeroPartCreate.id_personne part_in) = false
      \/ fk_opt Mouvement.id (mouvements s) (NumeroPartCreate.id_mouvement part_in) = false
      \/ fk_opt Structure.id (structures s) (NumeroPartCreate.id_structure part_in) = false ->
      create_numero_part s part_in = (s, Raise IntegrityError)).
Proof.
  intros _ _ _ _ _. unfold create_numero_part, numero_part_fk_ok.
  cbn [NumeroPart.id_personne NumeroPart.id_mouvement NumeroPart.id_structure].
  split.
  - intros Ho Hm Hs. rewrite Ho, Hm, Hs. cbn [andb fst].
    eexists. split; [reflexivity |].
    cbn [NumeroPart.id NumeroPart.num_part NumeroPart.termine NumeroPart.distribue
         NumeroPart.etat NumeroPart.id_personne NumeroPart.id_mouvement
         NumeroPart.id_structure].
    pose proof (session_get_fresh NumeroPart.id (numeros_parts s)) as Hfresh.
    split.
    { intros Hin. apply in_map_iff in Hin. destruct Hin as [p [Hid Hp]].
      exact (session_get_None _ _ _ Hfresh p Hp Hid). }
    repeat (split; [reflexivity |]).
    unfold get_numero_part. cbn [with_numeros_parts numeros_parts]. split.
    + rewrite session_get_app_new by exact Hfresh.
      cbn [NumeroPart.id]. rewrite Z.eqb_refl. reflexivity.
    + intros k Hk. rewrite session_get_app_new by exact Hfresh.
      cbn [NumeroPart.id].
      destruct (Z.eqb_spec (next_id (map NumeroPart.id (numeros_parts s))) k);
        [congruence | reflexivity].
  - intros [H | [H | H]]; rewrite H; rewrite ?andb_false_r; reflexivity.
Qed.

(** A part 102 for personne 42 under mouvement 7 and structure 1 of the
    example; it receives the id 4. *)
Lemma create_numero_part_inserts_witness :
  exists row,
    create_numero_part ledger_demo (NumeroPartCreate.mk 102 false false 0 42 (Some 7) (Some 1))
    = (with_numeros_parts ledger_demo (numeros_parts ledger_demo ++ [row]), Ok row)
    /\ NumeroPart.id row = 4
    /\ get_numero_part
         (fst (create_numero_part ledger_demo
                 (NumeroPartCreate.mk 102 false false 0 42 (Some 7) (Some 1))))
         4
       = Some row.
Proof.
  destruct (proj1 (create_numero_part_inserts ledger_demo
                     (NumeroPartCreate.mk 102 false false 0 42 (Some 7) (Some 1))
                     ltac:(unfold int4; cbn; lia) ltac:(unfold int4; cbn; lia)
                     ltac:(unfold int4; cbn; lia) ltac:(unfold int4_opt, int4; cbn; lia)
                     ltac:(unfold int4_opt, int4; cbn; lia))
                  eq_refl eq_refl eq_refl)
    as [row [Hcall [_ [_ [_ [_ [_ [_ [_ [_ [Hget _]]]]]]]]]]].
  exists row. split; [exact Hcall |].
  assert (Hid : NumeroPart.id row = 4).
  { vm_compute in Hcall. inversion Hcall. reflexivity. }
  split; [exact Hid |]. rewrite <- Hid. exact Hget.
Defined.

(** X4.  [delete_numero_part] answers [True] exactly when the part existed;
    afterwards the id reads as absent, every other id reads as before, and
    the database is untouched when there was nothing to delete. *)
Theorem delete_numero_part_removes (s : Session) (part_id : Z) :
  snd (delete_numero_part s part_id) = has_row NumeroPart.id (numeros_parts s) part_id
  /\ get_numero_part (fst (delete_numero_part s part_id)) part_id = None
  /\ (forall k, k <> part_id ->
                get_numero_part (fst (delete_numero_part s part_id)) k
                = get_numero_part s k)
  /\ (get_numero_part s part_id = None -> fst (delete_numero_part s part_id) = s).
Proof.
  unfold delete_numero_part, get_numero_part.
  rewrite (has_row_session_get NumeroPart.id).
  destruct (session_get NumeroPart.id (numeros_parts s) part_id) as [row |] eqn:Hget;
    cbn [fst snd with_numeros_parts numeros_parts].
  - split; [reflexivity |]. split; [| split; [| discriminate]].
    + rewrite session_get_remove, Z.eqb_refl. reflexivity.
    + intros k Hk. rewrite session_get_remove.
      destruct (Z.eqb_spec k part_id); [contradiction | reflexivity].
  - split; [reflexivity |]. split; [exact Hget |]. split; reflexivity.
Qed.

(** X5.  Deleting the part that [create_numero_part] has just created gives
    back the database as it was before the creation. *)
Theorem create_then_delete_numero_part (s : Session) (part_in : NumeroPartCreate.t)
    (row : NumeroPart.t) :
  snd (create_numero_part s part_in) = Ok row ->
  delete_numero_part (fst (create_numero_part s part_in)) (NumeroPart.id row) = (s, true).
Proof.
  unfold create_numero_part.
  destruct (numero_part_fk_ok s _); cbn [fst snd]; [| discriminate].
  intros Hrow. inversion Hrow as [Hid]. clear Hrow.
  set (new := NumeroPart.mk _ _ _ _ _ _ _ _) in *. subst row.
  pose proof (session_get_fresh NumeroPart.id (numeros_parts s)) as Hfresh.
  change (next_id (map NumeroPart.id (numeros_parts s))) with (NumeroPart.id new) in Hfresh.
  unfold delete_numero_part. cbn [with_numeros_parts numeros_parts].
  rewrite session_get_app_new by exact Hfresh. rewrite Z.eqb_refl.
  f_equal. rewrite filter_app. cbn [filter]. rewrite Z.eqb_refl. cbn [negb].
  rewrite app_nil_r, filter_all.
  - destruct s; reflexivity.
  - intros p Hp. pose proof (session_get_None _ _ _ Hfresh p Hp) as Hne.
    destruct (Z.eqb_spec (NumeroPart.id p) (NumeroPart.id new)); [contradiction | reflexivity].
Qed.

Lemma create_then_delete_numero_part_witness :
  delete_numero_part
    (fst (create_numero_part ledger_demo
            (NumeroPartCreate.mk 102 false false 0 42 (Some 7) (Some 1))))
    4
  = (ledger_demo, true).
Proof.
  exact (create_then_delete_numero_part ledger_demo
           (NumeroPartCreate.mk 102 false false 0 42 (Some 7) (Some 1))
           (NumeroPart.mk 4 102 false false 0 42 (Some 7) (Some 1)) eq_refl).
Defined.

(** ** Updating a part *)

Lemma set_required_ok {A : Type} (field : option (option A)) (old : A) :
  field <> Some None ->
  set_required field old
  = Some (match field with Some (Some v) => v | _ => old end).
Proof. destruct field as [[v |] |]; intros H; [reflexivity | congruence | reflexivity]. Qed.

Lemma opt_Z_eqb_refl (a : option Z) : opt_Z_eqb a a = true.
Proof. destruct a; cbn; [apply Z.eqb_refl | reflexivity]. Qed.

Lemma session_get_update_part (k k' : Z) (new : NumeroPart.t) (table : list NumeroPart.t) :
  NumeroPart.id new = k ->
  session_get NumeroPart.id (update_part k (fun _ => new) table) k'
  = if k' =? k
    then match session_get NumeroPart.id table k with Some _ => Some new | None => None end
    else session_get NumeroPart.id table k'.
Proof.
  intros Hid. unfold session_get, update_part.
  induction table as [| row table IH].
  - cbn. destruct (k' =? k); reflexivity.
  - cbn [map find].
    destruct (Z.eqb_spec (NumeroPart.id row) k) as [Hk | Hk];
      destruct (Z.eqb_spec k' k) as [E | E];
      try subst k'; rewrite ?Hid, ?Z.eqb_refl;
      repeat match goal with
             | |- context [?a =? ?b] => destruct (Z.eqb_spec a b); try lia
             end;
      try reflexivity; exact IH.
Qed.

(** X6.  The route [PUT /numeros-parts/{part_id}] on a part that exists,
    with a request whose integers fit the INTEGER columns, no NOT NULL
    column nulled and every reference it sets pointing to an existing row:
    the part keeps its id, takes the value of every field
    the request sets and keeps the value of every field it leaves unset;
    reading the id back returns the updated part and every other id reads
    as before. *)
Theorem put_numero_part_updates (s : Session) (part_id : Z)
    (part_in : NumeroPartUpdate.t) (row : NumeroPart.t) :
  get_numero_part s part_id = Some row ->
  int4_set (NumeroPartUpdate.num_part part_in) ->
  int4_set (NumeroPartUpdate.etat part_in) ->
  int4_set (NumeroPartUpdate.id_personne part_in) ->
  int4_set (NumeroPartUpdate.id_mouvement part_in) ->
  int4_set (NumeroPartUpdate.id_structure part_in) ->
  NumeroPartUpdate.num_part part_in <> Some None ->
  NumeroPartUpdate.termine part_in <> Some None ->
  NumeroPartUpdate.distribue part_in <> Some None ->
  NumeroPartUpdate.etat part_in <> Some None ->
  NumeroPartUpdate.id_personne part_in <> Some None ->
  (forall o, NumeroPartUpdate.id_personne part_in = Some (Some o) ->
             has_row Personne.id (personnes s) o = true) ->
  (forall m, NumeroPartUpdate.id_mouvement part_in = Some (Some m) ->
             has_row Mouvement.id (mouvements s) m = true) ->
  (forall st, NumeroPartUpdate.id_structure part_in = Some (Some st) ->
              has_row Structure.id (structures s) st = true) ->
  exists new,
    snd (put_numero_part s part_id part_in) = Some (Ok new)
    /\ NumeroPart.id new = part_id
    /\ NumeroPart.num_part new
       = match NumeroPartUpdate.num_part part_in with
         | Some (Some v) => v | _ => NumeroPart.num_part row end
    /\ NumeroPart.termine new
       = match NumeroPartUpdate.termine part_in with
         | Some (Some v) => v | _ => NumeroPart.termine row end
    /\ NumeroPart.distribue new
       = match NumeroPartUpdate.distribue part_in with
         | Some (Some v) => v | _ => NumeroPart.distribue row end
    /\ NumeroPart.etat new
       = match NumeroPartUpdate.etat part_in with
         | Some (Some v) => v | _ => NumeroPart.etat row end
    /\ NumeroPart.id_personne new
       = match NumeroPartUpdate.id_personne part_in with
         | Some (Some v) => v | _ => NumeroPart.id_personne row end
    /\ NumeroPart.id_mouvement new
       = match NumeroPartUpdate.id_mouvement part_in with
         | Some v => v | None => NumeroPart.id_mouvement row end
    /\ NumeroPart.id_structure new
       = match NumeroPartUpdate.id_structure part_in with
         | Some v => v | None => NumeroPart.id_structure row end
    /\ get_numero_part (fst (put_numero_part s part_id part_in)) part_id = Some new
    /\ forall k, k <> part_id ->
                 get_numero_part (fst (put_numero_part s part_id part_in)) k
                 = get_numero_part s k.
Proof.
  intros Hget _ _ _ _ _ Hn Ht Hd He Ho Hfo Hfm Hfs.
  pose proof (session_get_Some _ _ _ _ Hget) as [_ Hid].
  unfold put_numero_part. rewrite Hget. cbn [fst snd].
  unfold update_numero_part.
  rewrite (set_required_ok _ _ Hn), (set_required_ok _ _ Ht), (set_required_ok _ _ Hd),
    (set_required_ok _ _ He), (set_required_ok _ _ Ho).
  set (new := NumeroPart.mk _ _ _ _ _ _ _ _).
  assert (Hfk : update_fk_ok s row new = true).
  { unfold update_fk_ok, new.
    cbn [NumeroPart.id_personne NumeroPart.id_mouvement NumeroPart.id_structure].
    rewrite !andb_true_iff. repeat split.
    - destruct (NumeroPartUpdate.id_personne part_in) as [[o |] |].
      + rewrite (Hfo o eq_refl). apply orb_true_r.
      + rewrite Z.eqb_refl. reflexivity.
      + rewrite Z.eqb_refl. reflexivity.
    - destruct (NumeroPartUpdate.id_mouvement part_in) as [[m |] |]; cbn [set_nullable fk_opt].
      + rewrite (Hfm m eq_refl). apply orb_true_r.
      + apply orb_true_r.
      + rewrite opt_Z_eqb_refl. reflexivity.
    - destruct (NumeroPartUpdate.id_structure part_in) as [[st |] |]; cbn [set_nullable fk_opt].
      + rewrite (Hfs st eq_refl). apply orb_true_r.
      + apply orb_true_r.
      + rewrite opt_Z_eqb_refl. reflexivity. }
  rewrite Hfk. cbn [fst snd].
  exists new. split; [reflexivity |]. split; [exact Hid |].
  repeat (split; [reflexivity |]).
  unfold get_numero_part in *. cbn [with_numeros_parts numeros_parts].
  rewrite Hid. split.
  - rewrite session_get_update_part by exact Hid. rewrite Z.eqb_refl, Hget. reflexivity.
  - intros k Hk. rewrite session_get_update_part by exact Hid.
    destruct (Z.eqb_spec k part_id); [contradiction | reflexivity].
Qed.

(** Part 1 of the example is renumbered 102, marked terminated and given to
    personne 42: these three columns move, the others stay. *)
Lemma put_numero_part_updates_witness :
  snd (put_numero_part ledger_demo 1
         (NumeroPartUpdate.mk (Some (Some 102)) (Some (Some true)) None None
                              (Some (Some 42)) None None))
  = Some (Ok (NumeroPart.mk 1 102 true false 0 42 None (Some 1))).
Proof.
  destruct (put_numero_part_updates ledger_demo 1
              (NumeroPartUpdate.mk (Some (Some 102)) (Some (Some true)) None None
                                   (Some (Some 42)) None None)
              (NumeroPart.mk 1 101 false false 0 40 None (Some 1)) eq_refl)
    as [new [Hcall _]];
    try discriminate;
    try (intros v E; inversion E; subst v; unfold int4; lia);
    try (intros v E; inversion E; subst v; reflexivity).
  rewrite Hcall. vm_compute in Hcall. symmetry. exact Hcall.
Defined.



(** ** A transfer of one part is an update of its two columns *)

(** X8.  Under the primary key of [numeros_parts], transferring the single
    existing part [part_id] to an existing personne under an existing
    mouvement and updating that part with a request that sets only
    [id_personne] and [id_mouvement] leave the same database and hand back
    the same part. *)
Theorem transfer_parts_is_put (s : Session) (part_id new_owner_id mouvement_id : Z)
    (row : NumeroPart.t) :
  NoDup (map NumeroPart.id (numeros_parts s)) ->
  get_numero_part s part_id = Some row ->
  has_row Personne.id (personnes s) new_owner_id = true ->
  has_row Mouvement.id (mouvements s) mouvement_id = true ->
  transfer_parts s [part_id] new_owner_id mouvement_id
  = (fst (put_numero_part s part_id
            (NumeroPartUpdate.mk None None None None
               (Some (Some new_owner_id)) (Some (Some mouvement_id)) None)),
     Ok [reassign new_owner_id mouvement_id row])
  /\ snd (put_numero_part s part_id
            (NumeroPartUpdate.mk None None None None
               (Some (Some new_owner_id)) (Some (Some mouvement_id)) None))
     = Some (Ok (reassign new_owner_id mouvement_id row)).
Proof.
  intros Hpk Hget Ho Hm. unfold get_numero_part in Hget.
  pose proof (session_get_Some _ _ _ _ Hget) as [Hin Hid].
  assert (Hput : update_numero_part s row
                   (NumeroPartUpdate.mk None None None None
                      (Some (Some new_owner_id)) (Some (Some mouvement_id)) None)
                 = (with_numeros_parts s
                      (update_part part_id
                         (fun _ => reassign new_owner_id mouvement_id row)
                         (numeros_parts s)),
                    Ok (reassign new_owner_id mouvement_id row))).
  { unfold update_numero_part. cbn [set_required set_nullable NumeroPartUpdate.num_part
      NumeroPartUpdate.termine NumeroPartUpdate.distribue NumeroPartUpdate.etat
      NumeroPartUpdate.id_personne NumeroPartUpdate.id_mouvement
      NumeroPartUpdate.id_structure].
    unfold update_fk_ok.
    cbn [NumeroPart.id_personne NumeroPart.id_mouvement NumeroPart.id_structure fk_opt].
    rewrite Ho, Hm, opt_Z_eqb_refl, !orb_true_r. cbn [andb orb].
    unfold reassign. rewrite Hid. reflexivity. }
  unfold put_numero_part, get_numero_part. rewrite Hget, Hput. cbn [fst snd].
  split; [| reflexivity].
  rewrite transfer_parts_spec, Ho, Hm. cbn [andb]. rewrite orb_true_r.
  cbn [flat_map]. rewrite Hget. cbn [app]. f_equal. f_equal.
  unfold update_part. apply map_ext_in. intros p Hp.
  unfold transfer_row, is_listed. cbn [existsb]. rewrite orb_false_r.
  destruct (Z.eqb_spec (NumeroPart.id p) part_id) as [E | _]; [| reflexivity].
  rewrite (pk_unique NumeroPart.id (numeros_parts s) p row Hpk Hp Hin); [reflexivity | lia].
Qed.

Lemma transfer_parts_is_put_witness :
  transfer_parts ledger_demo [1] 42 7
  = (fst (put_numero_part ledger_demo 1
            (NumeroPartUpdate.mk None None None None (Some (Some 42)) (Some (Some 7)) None)),
     Ok [NumeroPart.mk 1 101 false false 0 42 (Some 7) (Some 1)]).
Proof.
  assert (H : NoDup (map NumeroPart.id (numeros_parts ledger_demo))).
  { simpl. repeat constructor; simpl; lia. }
  exact (proj1 (transfer_parts_is_put ledger_demo 1 42 7
                  (NumeroPart.mk 1 101 false false 0 40 None (Some 1))
                  H eq_refl eq_refl eq_refl)).
Defined.

(** ** Orphan parts *)



(** ** Conservation of the parts *)

Lemma transfer_parts_session (s : Session) (part_ids : list Z) (o m : Z) :
  fst (transfer_parts s part_ids o m) = s
  \/ fst (transfer_parts s part_ids o m)
     = with_numeros_parts s (map (transfer_row o m part_ids) (numeros_parts s)).
Proof.
  rewrite transfer_parts_spec.
  destruct (_ || _); [right | left]; reflexivity.
Qed.

Lemma join_filter_map_le {B : Type} (g : NumeroPart.t -> NumeroPart.t)
    (P Q : NumeroPart.t * B -> bool) (on : NumeroPart.t -> B -> bool)
    (l : list NumeroPart.t) (r : list B) :
  (forall p b, on (g p) b = on p b) ->
  (forall p b, P (g p, b) = true -> Q (p, b) = true) ->
  (length (filter P (join (map g l) r on)) <= length (filter Q (join l r on)))%nat.
Proof.
  intros Hon HPQ. unfold join.
  induction l as [| a l IH]; [apply Nat.le_refl |].
  cbn [map flat_map]. rewrite !filter_app, !length_app.
  apply Nat.add_le_mono; [| exact IH].
  rewrite (filter_ext (on (g a)) (on a) (Hon a)).
  induction (filter (on a) r) as [| b bs IHb]; [apply Nat.le_refl |].
  cbn [map filter]. specialize (HPQ a b).
  destruct (P (g a, b)).
  - rewrite (HPQ eq_refl). cbn [length]. apply le_n_S. exact IHb.
  - destruct (Q (a, b)); cbn [length]; [apply Nat.le_le_succ_r |]; exact IHb.
Qed.

Lemma join_filter_map_ge {B : Type} (g : NumeroPart.t -> NumeroPart.t)
    (P Q : NumeroPart.t * B -> bool) (on : NumeroPart.t -> B -> bool)
    (l : list NumeroPart.t) (r : list B) :
  (forall p b, on (g p) b = on p b) ->
  (forall p b, Q (p, b) = true -> P (g p, b) = true) ->
  (length (filter Q (join l r on)) <= length (filter P (join (map g l) r on)))%nat.
Proof.
  intros Hon HQP. unfold join.
  induction l as [| a l IH]; [apply Nat.le_refl |].
  cbn [map flat_map]. rewrite !filter_app, !length_app.
  apply Nat.add_le_mono; [| exact IH].
  rewrite (filter_ext (on (g a)) (on a) (Hon a)).
  induction (filter (on a) r) as [| b bs IHb]; [apply Nat.le_refl |].
  cbn [map filter]. specialize (HQP a b).
  destruct (Q (a, b)).
  - rewrite (HQP eq_refl). cbn [length]. apply le_n_S. exact IHb.
  - destruct (P (g a, b)); cbn [length]; [apply Nat.le_le_succ_r |]; exact IHb.
Qed.

Lemma transfer_row_columns (o m : Z) (ids : list Z) (p : NumeroPart.t) :
  NumeroPart.termine (transfer_row o m ids p) = NumeroPart.termine p
  /\ NumeroPart.id_structure (transfer_row o m ids p) = NumeroPart.id_structure p
  /\ (NumeroPart.id_personne (transfer_row o m ids p) = o
      \/ NumeroPart.id_personne (transfer_row o m ids p) = NumeroPart.id_personne p).
Proof.
  unfold transfer_row. destruct (is_listed ids p); cbn [reassign NumeroPart.termine
    NumeroPart.id_structure NumeroPart.id_personne]; auto.
Qed.

(** X10.  [transfer_parts] conserves the parts: whatever its arguments and
    outcome, the global numbers of open GFA and SCTL parts and their total
    are those of before; the counts of [get_personne_with_parts] can only
    grow for the new owner and only shrink for everybody else. *)
Theorem transfer_parts_conserves_parts (s : Session) (part_ids : list Z)
    (new_owner_id mouvement_id : Z) :
  let s' := fst (transfer_parts s part_ids new_owner_id mouvement_id) in
  gfa (get_parts_totals s') = gfa (get_parts_totals s)
  /\ sctl (get_parts_totals s') = sctl (get_parts_totals s)
  /\ total (get_parts_totals s') = total (get_parts_totals s)
  /\ (forall kind,
        count_parts_of_personne s new_owner_id kind
        <= count_parts_of_personne s' new_owner_id kind)
  /\ (forall kind k, k <> new_owner_id ->
        count_parts_of_personne s' k kind <= count_parts_of_personne s k kind).
Proof.
  intros s'. subst s'.
  destruct (transfer_parts_session s part_ids new_owner_id mouvement_id) as [-> | ->].
  { repeat split; intros; lia. }
  set (tr := transfer_row new_owner_id mouvement_id part_ids).
  assert (Hon : forall p (b : Structure.t),
             col_eqb (NumeroPart.id_structure (tr p)) (Structure.id b)
             = col_eqb (NumeroPart.id_structure p) (Structure.id b)).
  { intros p b. unfold tr.
    destruct (transfer_row_columns new_owner_id mouvement_id part_ids p) as [_ [-> _]].
    reflexivity. }
  assert (Hkind : forall kind p (b : Structure.t),
             open_part_of_kind kind (tr p, b) = open_part_of_kind kind (p, b)).
  { intros kind p b. unfold open_part_of_kind, tr. cbn [fst snd].
    destruct (transfer_row_columns new_owner_id mouvement_id part_ids p) as [-> _].
    reflexivity. }
  assert (Htot : forall kind,
             count (filter (open_part_of_kind kind)
                           (parts_join_structure
                              (with_numeros_parts s (map tr (numeros_parts s)))))
             = count (filter (open_part_of_kind kind) (parts_join_structure s))).
  { intros kind. unfold parts_join_structure, count.
    destruct s as [st ac pe mo np vp pa su].
    cbn [with_numeros_parts numeros_parts structures]. f_equal.
    apply Nat.le_antisymm.
    - apply join_filter_map_le; [exact Hon |]. intros p b. rewrite Hkind. auto.
    - apply join_filter_map_ge; [exact Hon |]. intros p b. rewrite Hkind. auto. }
  unfold get_parts_totals. cbn [gfa sctl total]. rewrite !Htot.
  split; [reflexivity | split; [reflexivity | split; [reflexivity | split]]].
  - intros kind. unfold count_parts_of_personne, parts_join_structure, count.
    destruct s as [st ac pe mo np vp pa su].
    cbn [with_numeros_parts numeros_parts structures].
    apply inj_le. apply join_filter_map_ge; [exact Hon |].
    intros p b. cbn [fst]. rewrite Hkind, !andb_true_iff, !Z.eqb_eq.
    intros [Ho Hk]. split; [| exact Hk]. unfold tr.
    destruct (transfer_row_columns new_owner_id mouvement_id part_ids p) as [_ [_ [E | E]]];
      rewrite E; [reflexivity | exact Ho].
  - intros kind k Hk. unfold count_parts_of_personne, parts_join_structure, count.
    destruct s as [st ac pe mo np vp pa su].
    cbn [with_numeros_parts numeros_parts structures].
    apply inj_le. apply join_filter_map_le; [exact Hon |].
    intros p b. cbn [fst]. rewrite Hkind, !andb_true_iff, !Z.eqb_eq.
    intros [Ho Hopen]. split; [| exact Hopen]. unfold tr in Ho.
    destruct (transfer_row_columns new_owner_id mouvement_id part_ids p) as [_ [_ [E | E]]];
      rewrite E in Ho; [contradiction Hk; symmetry; exact Ho | exact Ho].
Qed.

(** ** The counts of the personnes add up to the totals *)

Lemma sum_Z_zero {A : Type} (l : list A) : sum_Z (map (fun _ => 0) l) = 0.
Proof. induction l as [| x l IH]; [reflexivity |]. cbn [map sum_Z fold_right]. exact IH. Qed.

Lemma sum_Z_add {A : Type} (f g : A -> Z) (l : list A) :
  sum_Z (map (fun x => f x + g x) l) = sum_Z (map f l) + sum_Z (map g l).
Proof.
  induction l as [| x l IH]; [reflexivity |].
  cbn [map sum_Z fold_right]. fold (sum_Z (map (fun x => f x + g x) l)).
  fold (sum_Z (map f l)). fold (sum_Z (map g l)). lia.
Qed.

Lemma sum_Z_indicator (ids : list Z) (x : Z) :
  NoDup ids -> In x ids -> sum_Z (map (fun k => if x =? k then 1 else 0) ids) = 1.
Proof.
  induction ids as [| k ids IH]; intros Hnd Hin; [contradiction |].
  inversion Hnd as [| ? ? Hnotin Hnd']; subst.
  cbn [map sum_Z fold_right]. fold (sum_Z (map (fun k => if x =? k then 1 else 0) ids)).
  destruct (Z.eqb_spec x k) as [-> | Hneq].
  - rewrite (map_ext_in _ (fun _ => 0)); [rewrite sum_Z_zero; reflexivity |].
    intros k' Hk'. destruct (Z.eqb_spec k k') as [-> | _]; [contradiction | reflexivity].
  - destruct Hin as [E | Hin]; [congruence |]. rewrite IH by assumption. reflexivity.
Qed.

Lemma sum_by_key {A : Type} (key : A -> Z) (P : A -> bool) (ids : list Z) (rows : list A) :
  NoDup ids ->
  (forall r, In r rows -> P r = true -> In (key r) ids) ->
  sum_Z (map (fun k => count (filter (fun r => (key r =? k) && P r) rows)) ids)
  = count (filter P rows).
Proof.
  intros Hnd. induction rows as [| r rows IH]; intros Hkeys.
  - cbn [filter count length]. apply sum_Z_zero.
  - rewrite (map_ext _ (fun k => (if (key r =? k) && P r then 1 else 0)
                                 + count (filter (fun r => (key r =? k) && P r) rows))).
    2:{ intros k. cbn [filter]. destruct ((key r =? k) && P r); unfold count; cbn [length]; lia. }
    rewrite sum_Z_add, IH by (intros r' Hr'; apply Hkeys; right; exact Hr').
    cbn [filter]. destruct (P r) eqn:EP.
    + rewrite (map_ext _ (fun k => if key r =? k then 1 else 0))
        by (intros k; rewrite andb_true_r; reflexivity).
      rewrite sum_Z_indicator; [| exact Hnd | apply Hkeys; [left; reflexivity | exact EP]].
      unfold count. cbn [length]. lia.
    + rewrite (map_ext _ (fun _ => 0)) by (intros k; rewrite andb_false_r; reflexivity).
      rewrite sum_Z_zero. reflexivity.
Qed.

Lemma In_join_fst {A B : Type} (l : list A) (r : list B) (on : A -> B -> bool)
    (row : A * B) :
  In row (join l r on) -> In (fst row) l.
Proof.
  unfold join. rewrite in_flat_map. intros [a [Ha Hrow]].
  apply in_map_iff in Hrow. destruct Hrow as [b [<- _]]. exact Ha.
Qed.

(** X11.  When no two personnes share an id and every part belongs to a
    personne of the table, the GFA counts that [get_personne_with_parts]
    reports for the personnes add up to the global GFA count of
    [get_parts_totals]; so do the SCTL counts and the totals. *)
Theorem personne_counts_add_up (s : Session) :
  NoDup (map Personne.id (personnes s)) ->
  (forall p, In p (numeros_parts s) ->
             has_row Personne.id (personnes s) (NumeroPart.id_personne p) = true) ->
  sum_Z (map (fun p => match get_personne_with_parts s (Personne.id p) with
                       | Some r => nb_parts_gfa r
                       | None => 0
                       end) (personnes s))
  = gfa (get_parts_totals s)
  /\ sum_Z (map (fun p => match get_personne_with_parts s (Personne.id p) with
                          | Some r => nb_parts_sctl r
                          | None => 0
                          end) (personnes s))
     = sctl (get_parts_totals s)
  /\ sum_Z (map (fun p => match get_personne_with_parts s (Personne.id p) with
                          | Some r => nb_parts_total r
                          | None => 0
                          end) (personnes s))
     = total (get_parts_totals s).
Proof.
  intros Hpk Hfk.
  assert (Hsome : forall p, In p (personnes s) ->
             get_personne_with_parts s (Personne.id p)
             = Some (mkPersonneWithParts p
                       (count_parts_of_personne s (Personne.id p) TypeStructure.GFA)
                       (count_parts_of_personne s (Personne.id p) TypeStructure.TSL)
                       (count_parts_of_personne s (Personne.id p) TypeStructure.GFA
                        + count_parts_of_personne s (Personne.id p) TypeStructure.TSL))).
  { intros p Hp. unfold get_personne_with_parts.
    destruct (session_get Personne.id (personnes s) (Personne.id p)) as [q |] eqn:E.
    - destruct (session_get_Some _ _ _ _ E) as [Hq Hid].
      rewrite (pk_unique Personne.id (personnes s) q p Hpk Hq Hp Hid). reflexivity.
    - exfalso. exact (session_get_None _ _ _ E p Hp eq_refl). }
  assert (Hsum : forall kind,
             sum_Z (map (fun p => count_parts_of_personne s (Personne.id p) kind) (personnes s))
             = count (filter (open_part_of_kind kind) (parts_join_structure s))).
  { intros kind.
    rewrite <- (sum_by_key (fun row => NumeroPart.id_personne (fst row))
                           (open_part_of_kind kind)
                           (map Personne.id (personnes s)) (parts_join_structure s) Hpk).
    - rewrite map_map. reflexivity.
    - intros row Hrow _. apply In_join_fst in Hrow. specialize (Hfk _ Hrow).
      unfold has_row in Hfk. apply existsb_exists in Hfk. destruct Hfk as [q [Hq Hid]].
      apply in_map_iff. exists q. split; [lia | exact Hq]. }
  unfold get_parts_totals. cbn [gfa sctl total].
  rewrite <- !Hsum.
  split; [| split].
  - f_equal. apply map_ext_in. intros p Hp. rewrite (Hsome p Hp). reflexivity.
  - f_equal. apply map_ext_in. intros p Hp. rewrite (Hsome p Hp). reflexivity.
  - rewrite <- sum_Z_add. f_equal. apply map_ext_in. intros p Hp.
    rewrite (Hsome p Hp). reflexivity.
Qed.

Lemma personne_counts_add_up_witness :
  sum_Z (map (fun p => match get_personne_with_parts ledger_demo (Personne.id p) with
                       | Some r => nb_parts_total r
                       | None => 0
                       end) (personnes ledger_demo))
  = total (get_parts_totals ledger_demo).
Proof.
  assert (Hpk : NoDup (map Personne.id (personnes ledger_demo))).
  { simpl. repeat constructor; simpl; lia. }
  assert (Hfk : forall p, In p (numeros_parts ledger_demo) ->
            has_row Personne.id (personnes ledger_demo) (NumeroPart.id_personne p) = true).
  { intros p [<- | [<- | []]]; reflexivity. }
  exact (proj2 (proj2 (personne_counts_add_up ledger_demo Hpk Hfk))).
Defined.

(** ** The two listings of the personnes *)


(** ** Mouvements without acte, mouvements without personne *)






(** ** Anomalies after a transfer *)

Lemma filter_map_length_le {A : Type} (g : A -> bool) (h : A -> A) (l : list A) :
  (forall x, g (h x) = true -> g x = true) ->
  (length (filter g (map h l)) <= length (filter g l))%nat.
Proof.
  intros Hg. induction l as [| x l IH]; [apply Nat.le_refl |].
  cbn [map filter]. specialize (Hg x). destruct (g (h x)).
  - rewrite (Hg eq_refl). cbn [length]. apply le_n_S. exact IH.
  - destruct (g x); cbn [length]; [apply Nat.le_le_succ_r |]; exact IH.
Qed.

(** X15.  A transfer that succeeds leaves none of the parts it lists among
    the parts without mouvement; the parts still reported were reported
    before, and the total of the anomaly summary has not grown. *)
Theorem transfer_parts_clears_anomalies (s : Session) (part_ids : list Z)
    (new_owner_id mouvement_id : Z) (parts : list NumeroPart.t) (id_structure : option Z) :
  snd (transfer_parts s part_ids new_owner_id mouvement_id) = Ok parts ->
  let s' := fst (transfer_parts s part_ids new_owner_id mouvement_id) in
  (forall q, In q (find_parts_sans_mouvements s' id_structure) ->
             is_listed part_ids q = false
             /\ In q (find_parts_sans_mouvements s id_structure))
  /\ find_mouvements_sans_actes s' id_structure = find_mouvements_sans_actes s id_structure
  /\ total_anomalies (get_anomalies_summary s' id_structure)
     <= total_anomalies (get_anomalies_summary s id_structure).
Proof.
  rewrite transfer_parts_spec.
  destruct (_ || _); cbn [fst snd]; [intros _ | discriminate].
  set (tr := transfer_row new_owner_id mouvement_id part_ids).
  assert (Hkeep : forall p,
             (match NumeroPart.id_mouvement (tr p) with None => true | Some _ => false end
              && where_opt id_structure
                           (fun i => col_eqb (NumeroPart.id_structure (tr p)) i)) = true ->
             is_listed part_ids p = false /\ tr p = p).
  { intros p. unfold tr, transfer_row.
    destruct (is_listed part_ids p); cbn [reassign NumeroPart.id_mouvement andb];
      [discriminate | auto]. }
  assert (Hmvt : find_mouvements_sans_actes
                   (with_numeros_parts s (map tr (numeros_parts s))) id_structure
                 = find_mouvements_sans_actes s id_structure)
    by (destruct s; reflexivity).
  split; [| split; [exact Hmvt |]].
  - intros q. unfold find_parts_sans_mouvements.
    destruct s as [st ac pe mo np vp pa su]. cbn [with_numeros_parts numeros_parts].
    rewrite !filter_In, in_map_iff. intros [[p [<- Hp]] Hq].
    destruct (Hkeep p Hq) as [Hnot Hsame]. rewrite Hsame in *. auto.
  - unfold get_anomalies_summary. cbn [total_anomalies]. rewrite Hmvt.
    apply Z.add_le_mono_r. unfold count, find_parts_sans_mouvements.
    destruct s as [st ac pe mo np vp pa su]. cbn [with_numeros_parts numeros_parts].
    apply inj_le. apply filter_map_length_le.
    intros p Hp. destruct (Hkeep p Hp) as [_ Hsame]. rewrite Hsame in Hp. exact Hp.
Qed.

Lemma transfer_parts_clears_anomalies_witness :
  total_anomalies (get_anomalies_summary (fst (transfer_parts ledger_demo [1] 42 7)) None)
  <= total_anomalies (get_anomalies_summary ledger_demo None).
Proof.
  exact (proj2 (proj2 (transfer_parts_clears_anomalies ledger_demo [1] 42 7
                         [NumeroPart.mk 1 101 false false 0 42 (Some 7) (Some 1)]
                         None eq_refl))).
Defined.

(** ** Listing the actes *)


(** ** The table of the point values *)




(** X18.  [create_valeur_point], for a request whose year fits the INTEGER
    column, then [get_valeur_point]: the new row is read back under its id,
    an id no row had, and every other id reads as before; deleting the new
    row with [delete_valeur_point] gives back the database as it was. *)
Theorem create_get_delete_valeur_point (s : Session) (valeur_in : ValeurPointCreate.t) :
  int4 (ValeurPointCreate.annee valeur_in) ->
  exists row,
    snd (create_valeur_point s valeur_in) = Ok row
    /\ get_valeur_point s (ValeurPoint.id row) = None
    /\ get_valeur_point (fst (create_valeur_point s valeur_in)) (ValeurPoint.id row)
       = Some row
    /\ (forall k, k <> ValeurPoint.id row ->
                  get_valeur_point (fst (create_valeur_point s valeur_in)) k
                  = get_valeur_point s k)
    /\ delete_valeur_point (fst (create_valeur_point s valeur_in)) (ValeurPoint.id row)
       = (s, true).
Proof.
  intros _. unfold create_valeur_point. cbn [fst snd].
  set (new := ValeurPoint.mk _ _ _ _ _ _).
  pose proof (session_get_fresh ValeurPoint.id (valeurs_points s)) as Hfresh.
  change (next_id (map ValeurPoint.id (valeurs_points s))) with (ValeurPoint.id new) in Hfresh.
  exists new. split; [reflexivity |]. split; [exact Hfresh |].
  unfold get_valeur_point, delete_valeur_point.
  cbn [with_valeurs_points valeurs_points].
  split; [| split].
  - rewrite session_get_app_new by exact Hfresh. rewrite Z.eqb_refl. reflexivity.
  - intros k Hk. rewrite session_get_app_new by exact Hfresh.
    destruct (Z.eqb_spec (ValeurPoint.id new) k); [congruence | reflexivity].
  - rewrite session_get_app_new by exact Hfresh. rewrite Z.eqb_refl.
    f_equal. rewrite filter_app. cbn [filter]. rewrite Z.eqb_refl. cbn [negb].
    rewrite app_nil_r, filter_all.
    + destruct s; reflexivity.
    + intros v Hv. pose proof (session_get_None _ _ _ Hfresh v Hv) as Hne.
      destruct (Z.eqb_spec (ValeurPoint.id v) (ValeurPoint.id new));
        [contradiction | reflexivity].
Qed.

(** A row for 2025 in the example: it receives the id 2, and deleting the
    id 2 gives the example back. *)
Lemma create_get_delete_valeur_point_witness :
  delete_valeur_point
    (fst (create_valeur_point fermage_demo
            (ValeurPointCreate.mk 2025 dec_1_0 dec_1_0 dec_0 dec_0)))
    2
  = (fermage_demo, true).
Proof.
  destruct (create_get_delete_valeur_point fermage_demo
              (ValeurPointCreate.mk 2025 dec_1_0 dec_1_0 dec_0 dec_0)
              ltac:(unfold int4; cbn; lia))
    as [row [Hrow [_ [_ [_ Hdelete]]]]].
  assert (Hid : ValeurPoint.id row = 2).
  { vm_compute in Hrow. inversion Hrow. reflexivity. }
  rewrite <- Hid. exact Hdelete.
Defined.

(** X19.  [delete_valeur_point] answers [True] exactly when the row
    existed; afterwards the id reads as absent and every other id reads as
    before.  [get_valeur_point_by_annee] then never returns the deleted row:
    what it returns for a year is a row of that year that the table held,
    other than the deleted one, and it returns none exactly when the
    deleted row was the only candidate of that year or the year had none. *)
Theorem delete_valeur_point_removes (s : Session) (valeur_id : Z) :
  snd (delete_valeur_point s valeur_id) = has_row ValeurPoint.id (valeurs_points s) valeur_id
  /\ get_valeur_point (fst (delete_valeur_point s valeur_id)) valeur_id = None
  /\ (forall k, k <> valeur_id ->
                get_valeur_point (fst (delete_valeur_point s valeur_id)) k
                = get_valeur_point s k)
  /\ (forall annee row,
        get_valeur_point_by_annee (fst (delete_valeur_point s valeur_id)) annee = Some row ->
        In row (valeurs_points s)
        /\ ValeurPoint.annee row = annee
        /\ ValeurPoint.id row <> valeur_id)
  /\ (forall annee,
        get_valeur_point_by_annee (fst (delete_valeur_point s valeur_id)) annee = None
        <-> forall row, In row (valeurs_points s) ->
                        ValeurPoint.annee row = annee ->
                        ValeurPoint.id row = valeur_id).
Proof.
  assert (Htable : valeurs_points (fst (delete_valeur_point s valeur_id))
                   = filter (fun v => negb (ValeurPoint.id v =? valeur_id))
                            (valeurs_points s)).
  { unfold delete_valeur_point.
    destruct (session_get ValeurPoint.id (valeurs_points s) valeur_id) eqn:Hget;
      cbn [fst with_valeurs_points valeurs_points]; [reflexivity |].
    symmetry. apply filter_all. intros v Hv.
    pose proof (session_get_None _ _ _ Hget v Hv) as Hne.
    destruct (Z.eqb_spec (ValeurPoint.id v) valeur_id); [contradiction | reflexivity]. }
  split; [| split; [| split; [| split]]].
  - unfold delete_valeur_point. rewrite (has_row_session_get ValeurPoint.id).
    destruct (session_get ValeurPoint.id (valeurs_points s) valeur_id); reflexivity.
  - unfold get_valeur_point. rewrite Htable, session_get_remove, Z.eqb_refl. reflexivity.
  - intros k Hk. unfold get_valeur_point. rewrite Htable, session_get_remove.
    destruct (Z.eqb_spec k valeur_id); [contradiction | reflexivity].
  - intros annee row Hrow. unfold get_valeur_point_by_annee in Hrow.
    rewrite Htable in Hrow. apply find_some in Hrow. destruct Hrow as [Hin Hy].
    apply filter_In in Hin. destruct Hin as [Hin Hid].
    split; [exact Hin | split; [lia |]].
    destruct (Z.eqb_spec (ValeurPoint.id row) valeur_id); [discriminate | assumption].
  - intros annee. unfold get_valeur_point_by_annee. rewrite Htable. split.
    + intros Hnone row Hin Hy.
      destruct (Z.eqb_spec (ValeurPoint.id row) valeur_id) as [E | E]; [exact E | exfalso].
      assert (Hkept : In row (filter (fun v => negb (ValeurPoint.id v =? valeur_id))
                                     (valeurs_points s))).
      { apply filter_In. split; [exact Hin |].
        destruct (Z.eqb_spec (ValeurPoint.id row) valeur_id); [contradiction | reflexivity]. }
      pose proof (find_none _ _ Hnone row Hkept) as Hf. cbv beta in Hf. lia.
    + intros Hall.
      destruct (find _ _) as [row |] eqn:E; [exfalso | reflexivity].
      apply find_some in E. destruct E as [Hin Hy].
      apply filter_In in Hin. destruct Hin as [Hin Hid].
      assert (ValeurPoint.id row = valeur_id) by (apply Hall; [exact Hin | lia]).
      destruct (Z.eqb_spec (ValeurPoint.id row) valeur_id); [discriminate | contradiction].
Qed.

(** ** A row for another year *)

Lemma fermage_loop_parcelles (s1 s2 : Session) (valeur_point : option ValeurPoint.t)
    (subs : list Subdivision.t) :
  parcelles s1 = parcelles s2 ->
  forall acc, fermage_loop s1 valeur_point subs acc = fermage_loop s2 valeur_point subs acc.
Proof.
  intros Hp. induction subs as [| sub rest IH]; intros acc; [reflexivity |].
  cbn [fermage_loop]. unfold fermage_step, montant_subdivision, est_sctl_of.
  rewrite Hp.
  destruct (dec_add (acc_surface acc) (Subdivision.surface sub)); cbn [bind]; [| reflexivity].
  destruct (dec_add (acc_revenu acc) (Subdivision.revenu sub)); cbn [bind]; [| reflexivity].
  destruct valeur_point as [vp |]; cbn [bind]; [| apply IH].
  destruct (calculer_montant_fermage _ _ _ _ _ _ _ _ _); cbn [bind]; [| reflexivity].
  destruct (dec_add (acc_montant acc) a1); cbn [bind]; [apply IH | reflexivity].
Qed.

Lemma find_unique_perm {A : Type} (g : A -> bool) (l l' : list A) :
  Permutation l l' ->
  (length (filter g l) <= 1)%nat ->
  find g l' = find g l.
Proof.
  intros Hperm Hone.
  assert (Hhd : forall l0, find g l0 = hd_error (filter g l0)).
  { induction l0 as [| x l0 IH]; [reflexivity |].
    cbn [find filter]. destruct (g x); [reflexivity | exact IH]. }
  rewrite !Hhd. pose proof (Permutation_filter g l l' Hperm) as Hf.
  destruct (filter g l) as [| x [| y rest]].
  - apply Permutation_nil in Hf. rewrite Hf. reflexivity.
  - apply Permutation_length_1_inv in Hf. rewrite Hf. reflexivity.
  - cbn [length] in Hone. lia.
Qed.

(** X20.  A row that [create_valeur_point] adds touches its own year only:
    for every other year that has at most one row, so that the row
    [get_valeur_point_by_annee] returns is fixed, the two routes
    [calculate_fermage] and [get_fermages_totaux] answer after the creation
    as before, in whatever order the table then holds its rows. *)
Theorem create_valeur_point_other_years (s : Session) (valeur_in : ValeurPointCreate.t)
    (annee : Z) (table : list ValeurPoint.t) :
  annee <> ValeurPointCreate.annee valeur_in ->
  count (filter (fun v => ValeurPoint.annee v =? annee) (valeurs_points s)) <= 1 ->
  Permutation table (valeurs_points (fst (create_valeur_point s valeur_in))) ->
  let s' := with_valeurs_points s table in
  (forall point_fermage surface sctl,
      calculate_fermage s' point_fermage surface sctl (Some annee)
      = calculate_fermage s point_fermage surface sctl (Some annee))
  /\ (forall f, get_fermages_totaux s' (Some annee) f = get_fermages_totaux s (Some annee) f).
Proof.
  intros Hother Hone Hperm s'.
  assert (Hvp : valeur_point_for s' (Some annee) = valeur_point_for s (Some annee)).
  { unfold valeur_point_for. destruct (annee =? 0); [reflexivity |].
    unfold get_valeur_point_by_annee. subst s'.
    destruct s as [st ac pe mo np vp pa su].
    cbn [with_valeurs_points valeurs_points create_valeur_point fst] in *.
    rewrite (find_unique_perm _ (vp ++ [ValeurPoint.mk (next_id (map ValeurPoint.id vp))
                                          (ValeurPointCreate.annee valeur_in)
                                          (ValeurPointCreate.valeur_point_gfa valeur_in)
                                          (ValeurPointCreate.valeur_point_sctl valeur_in)
                                          (ValeurPointCreate.valeur_supp_gfa valeur_in)
                                          (ValeurPointCreate.valeur_supp_sctl valeur_in)])
                                table).
    - rewrite find_app.
      destruct (find (fun v => ValeurPoint.annee v =? annee) vp); [reflexivity |].
      cbn [find ValeurPoint.annee].
      destruct (Z.eqb_spec (ValeurPointCreate.annee valeur_in) annee);
        [congruence | reflexivity].
    - apply Permutation_sym. exact Hperm.
    - rewrite filter_app, length_app. cbn [filter ValeurPoint.annee].
      destruct (Z.eqb_spec (ValeurPointCreate.annee valeur_in) annee); [congruence |].
      cbn [length]. unfold count in Hone. lia. }
  split.
  - intros pf su sctl. unfold calculate_fermage. rewrite Hvp. reflexivity.
  - intros f. unfold get_fermages_totaux, get_fermage_totaux. rewrite Hvp.
    assert (Hsame : fermage_statement s' f = fermage_statement s f)
      by (subst s'; destruct s; reflexivity).
    rewrite Hsame.
    rewrite (fermage_loop_parcelles s' s); [reflexivity |].
    subst s'; destruct s; reflexivity.
Qed.

(** A row for 2025 added to the example, the new row placed first: the rent
    of 2024 is computed with the row of 2024 as before. *)
Lemma create_valeur_point_other_years_witness :
  calculate_fermage
    (with_valeurs_points fermage_demo
       [ValeurPoint.mk 2 2025 dec_1_0 dec_1_0 dec_0 dec_0; demo_valeur_point])
    (mkDecimal 100000 (-4)) (mkDecimal 25000 (-4)) true (Some 2024)
  = calculate_fermage fermage_demo
      (mkDecimal 100000 (-4)) (mkDecimal 25000 (-4)) true (Some 2024).
Proof.
  assert (Hperm : Permutation
                    [ValeurPoint.mk 2 2025 dec_1_0 dec_1_0 dec_0 dec_0; demo_valeur_point]
                    (valeurs_points
                       (fst (create_valeur_point fermage_demo
                               (ValeurPointCreate.mk 2025 dec_1_0 dec_1_0 dec_0 dec_0))))).
  { apply perm_swap. }
  exact (proj1 (create_valeur_point_other_years fermage_demo
                  (ValeurPointCreate.mk 2025 dec_1_0 dec_1_0 dec_0 dec_0) 2024
                  [ValeurPoint.mk 2 2025 dec_1_0 dec_1_0 dec_0 dec_0; demo_valeur_point]
                  ltac:(cbn; lia) ltac:(vm_compute; discriminate) Hperm)
               (mkDecimal 100000 (-4)) (mkDecimal 25000 (-4)) true).
Defined.

(** ** The subdivisions of a parcel *)

Lemma division_le_total (a b : Subdivision.t) :
  division_le a b = false -> division_le b a = true.
Proof. unfold division_le. bool_to_Z. lia. Qed.

Lemma division_le_trans (a b c : Subdivision.t) :
  division_le a b = true -> division_le b c = true -> division_le a c = true.
Proof. unfold division_le. bool_to_Z. lia. Qed.

Lemma division_le_lex (a b : Subdivision.t) :
  division_le a b = true ->
  Subdivision.division a < Subdivision.division b
  \/ (Subdivision.division a = Subdivision.division b
      /\ Subdivision.subdivision a <= Subdivision.subdivision b).
Proof. unfold division_le. bool_to_Z. lia. Qed.

(** X21.  [get_subdivisions_by_parcelle] returns the subdivisions of the
    parcel, each once, by increasing division and, within a division, by
    increasing subdivision number. *)
Theorem get_subdivisions_by_parcelle_sorted (s : Session) (parcelle_id : Z) :
  StronglySorted
    (fun a b => Subdivision.division a < Subdivision.division b
                \/ (Subdivision.division a = Subdivision.division b
                    /\ Subdivision.subdivision a <= Subdivision.subdivision b))
    (get_subdivisions_by_parcelle s parcelle_id)
  /\ Permutation (get_subdivisions_by_parcelle s parcelle_id)
                 (filter (fun sub => Subdivision.id_parcelle sub =? parcelle_id)
                         (subdivisions s))
  /\ forall sub, In sub (get_subdivisions_by_parcelle s parcelle_id)
                 <-> In sub (subdivisions s) /\ Subdivision.id_parcelle sub = parcelle_id.
Proof.
  unfold get_subdivisions_by_parcelle. split; [| split].
  - assert (Hs := order_by_sorted division_le division_le_total division_le_trans
                    (filter (fun sub => Subdivision.id_parcelle sub =? parcelle_id)
                            (subdivisions s))).
    induction Hs as [| x l Hs IH Hall]; constructor; [exact IH |].
    rewrite Forall_forall in *. intros y Hy. apply division_le_lex. exact (Hall y Hy).
  - apply order_by_perm.
  - intros sub. rewrite In_order_by, filter_In, Z.eqb_eq. reflexivity.
Qed.

(** ** The detail view of a parcel *)

Lemma first_subdivision_spec (s : Session) (parcelle_id : Z) :
  match first_subdivision s parcelle_id with
  | Some sub =>
      In sub (subdivisions s)
      /\ Subdivision.id_parcelle sub = parcelle_id
      /\ forall sub', In sub' (subdivisions s) ->
                      Subdivision.id_parcelle sub' = parcelle_id ->
                      division_le sub sub' = true
  | None => forall sub, In sub (subdivisions s) -> Subdivision.id_parcelle sub <> parcelle_id
  end.
Proof.
  unfold first_subdivision, get_subdivisions_by_parcelle, page. cbn [skipn].
  set (matching := filter (fun sub => Subdivision.id_parcelle sub =? parcelle_id)
                          (subdivisions s)).
  assert (Hs := order_by_sorted division_le division_le_total division_le_trans matching).
  assert (Hin : forall x, In x (order_by division_le matching)
                          <-> In x (subdivisions s) /\ Subdivision.id_parcelle x = parcelle_id).
  { intros x. rewrite In_order_by. unfold matching. rewrite filter_In, Z.eqb_eq. reflexivity. }
  destruct (order_by division_le matching) as [| x l]; cbn [firstn hd_error].
  - intros sub Hsub Hid. apply (proj2 (Hin sub)). split; assumption.
  - destruct (proj1 (Hin x) (or_introl eq_refl)) as [Hx Hid].
    split; [exact Hx | split; [exact Hid |]].
    intros sub' Hsub' Hid'.
    destruct (proj2 (Hin sub') (conj Hsub' Hid')) as [<- | Hl].
    + unfold division_le. rewrite Z.eqb_refl, Z.leb_refl. apply orb_true_r.
    + inversion Hs as [| ? ? _ Hall]; subst. rewrite Forall_forall in Hall. exact (Hall _ Hl).
Qed.

(** X22.  [get_parcelle_with_details] answers [None] exactly for an unknown
    parcel and, without point values, reports a rent of zero and never
    raises.  With point values the rent it reports for a parcel is the rent
    of one subdivision only, the first of the parcel by division and
    subdivision number, computed as [get_fermage_totaux] computes the rent
    of that subdivision; it is zero for a parcel without subdivision. *)
Theorem get_parcelle_with_details_rent (strip : string -> string)
    (s : Session) (r : Referentiel) (parcelle_id : Z) :
  (exists o,
      get_parcelle_with_details strip s r parcelle_id None = Ok o
      /\ (o = None <-> session_get Parcelle.id (parcelles s) parcelle_id = None)
      /\ forall d, o = Some d -> ParcelleWithDetails.montant_fermage d = dec_0)
  /\ forall vp d,
       get_parcelle_with_details strip s r parcelle_id (Some vp) = Ok (Some d) ->
       session_get Parcelle.id (parcelles s) parcelle_id
       = Some (ParcelleWithDetails.parcelle d)
       /\ (((forall sub, In sub (subdivisions s) ->
                         Subdivision.id_parcelle sub <> parcelle_id)
            /\ ParcelleWithDetails.montant_fermage d = dec_0
            /\ ParcelleWithDetails.nom_exploitant d = None)
           \/ exists sub,
                In sub (subdivisions s)
                /\ Subdivision.id_parcelle sub = parcelle_id
                /\ (forall sub', In sub' (subdivisions s) ->
                                 Subdivision.id_parcelle sub' = parcelle_id ->
                                 Subdivision.division sub < Subdivision.division sub'
                                 \/ (Subdivision.division sub = Subdivision.division sub'
                                     /\ Subdivision.subdivision sub
                                        <= Subdivision.subdivision sub'))
                /\ montant_subdivision s vp sub
                   = Ok (ParcelleWithDetails.montant_fermage d)).
Proof.
  unfold get_parcelle_with_details.
  pose proof (first_subdivision_spec s parcelle_id) as Hfirst.
  destruct (session_get Parcelle.id (parcelles s) parcelle_id) as [parcelle |] eqn:Hget.
  - split.
    + destruct (first_subdivision s parcelle_id);
        (eexists; split; [reflexivity |]; split; [split; discriminate |];
         intros d Hd; inversion Hd; reflexivity).
    + intros vp d.
      destruct (first_subdivision s parcelle_id) as [sub |].
      * destruct Hfirst as [Hin [Hid Hmin]].
        destruct (calculer_montant_fermage _ _ _ _ _ _ _ _ _) as [m |] eqn:Hm;
          cbn [bind]; [| discriminate].
        intros Hd. inversion Hd. subst d. clear Hd.
        cbn [ParcelleWithDetails.parcelle ParcelleWithDetails.montant_fermage
             ParcelleWithDetails.nom_exploitant].
        split; [reflexivity |]. right. exists sub.
        split; [exact Hin | split; [exact Hid | split]].
        -- intros sub' Hsub' Hid'. apply division_le_lex. apply Hmin; assumption.
        -- unfold montant_subdivision, est_sctl_of. rewrite Hid, Hget. exact Hm.
      * intros Hd. inversion Hd. subst d. clear Hd.
        cbn [ParcelleWithDetails.parcelle ParcelleWithDetails.montant_fermage
             ParcelleWithDetails.nom_exploitant].
        split; [reflexivity |]. left. split; [exact Hfirst | split; reflexivity].
  - split.
    + exists None. split; [reflexivity |]. split; [split; reflexivity | discriminate].
    + intros vp d Hd. discriminate Hd.
Qed.

(** Parcel 1 of the example has the subdivisions (0, 0) and (0, 1): the
    detail view reports the rent of the first one, 0.00375, where the
    parcel's two subdivisions together owe 0.00465. *)
Lemma get_parcelle_with_details_rent_witness :
  get_parcelle_with_details (fun x => x) fermage_demo (mkReferentiel [] [] []) 1
    (Some demo_valeur_point)
  = Ok (Some (ParcelleWithDetails.mk (Parcelle.mk 1 "A 12" true 7 None None)
                None None None (mkDecimal 3750000000 (-12))))
  /\ session_get Parcelle.id (parcelles fermage_demo) 1
     = Some (Parcelle.mk 1 "A 12" true 7 None None).
Proof.
  assert (H : get_parcelle_with_details (fun x => x) fermage_demo (mkReferentiel [] [] []) 1
                (Some demo_valeur_point)
              = Ok (Some (ParcelleWithDetails.mk (Parcelle.mk 1 "A 12" true 7 None None)
                            None None None (mkDecimal 3750000000 (-12)))))
    by (vm_compute; reflexivity).
  split; [exact H |].
  exact (proj1 (proj2 (get_parcelle_with_details_rent (fun x => x) fermage_demo
                         (mkReferentiel [] [] []) 1)
                      demo_valeur_point _ H)).
Defined.

(** ** No points, no rent *)

Lemma dec_fix_zero (e : Z) : exists e', dec_fix (mkDecimal 0 e) = Ok (mkDecimal 0 e').
Proof. unfold dec_fix. cbn [coeff expo Z.eqb]. eexists. reflexivity. Qed.

Lemma dec_mul_zero (a b : Decimal) :
  coeff a = 0 \/ coeff b = 0 -> exists e, dec_mul a b = Ok (mkDecimal 0 e).
Proof.
  intros H. unfold dec_mul.
  replace (coeff a * coeff b) with 0 by (destruct H as [-> | ->]; lia).
  apply dec_fix_zero.
Qed.

Lemma dec_div_zero (a b : Decimal) :
  coeff a = 0 -> coeff b <> 0 -> exists e, dec_div a b = Ok (mkDecimal 0 e).
Proof.
  intros Ha Hb. unfold dec_div.
  destruct (Z.eqb_spec (coeff b) 0); [contradiction |].
  rewrite Ha. cbn [Z.eqb]. apply dec_fix_zero.
Qed.

Lemma dec_add_zero (a b : Decimal) :
  coeff a = 0 -> coeff b = 0 -> exists e, dec_add a b = Ok (mkDecimal 0 e).
Proof.
  intros Ha Hb. unfold dec_add. rewrite Ha, Hb. cbn [Z.mul Z.add]. apply dec_fix_zero.
Qed.

(** X23.  Without points or without surface there is no rent: when
    [point_fermage] or [surface] is zero, [calculer_montant_fermage] returns
    zero and raises nothing, whatever the point values, the supplements and
    the exponents of the operands; so does the route [calculate_fermage]. *)
Theorem zero_points_zero_rent (point_fermage surface : Decimal) :
  coeff point_fermage = 0 \/ coeff surface = 0 ->
  (forall est_sctl valeur_point_gfa valeur_point_sctl supp_gfa supp_sctl
          valeur_supp_gfa valeur_supp_sctl,
      exists montant,
        calculer_montant_fermage point_fermage surface est_sctl
          valeur_point_gfa valeur_point_sctl supp_gfa supp_sctl
          valeur_supp_gfa valeur_supp_sctl = Ok montant
        /\ coeff montant = 0)
  /\ forall s sctl annee,
       exists calcul,
         calculate_fermage s point_fermage surface sctl annee = Ok calcul
         /\ coeff (montant_fermage calcul) = 0.
Proof.
  intros Hzero.
  assert (Hcalc : forall est vg vs sg ss vsg vss,
             exists montant,
               calculer_montant_fermage point_fermage surface est vg vs sg ss vsg vss
               = Ok montant
               /\ coeff montant = 0).
  { intros est vg vs sg ss vsg vss. unfold calculer_montant_fermage.
    destruct (dec_mul_zero point_fermage surface Hzero) as [e0 ->]. cbn [bind].
    destruct (dec_div_zero (mkDecimal 0 e0) dec_10000 eq_refl) as [e1 ->];
      [discriminate |]. cbn [bind].
    assert (Hbranch : forall v (supp : bool) vsupp,
               exists montant,
                 (result <- dec_mul (mkDecimal 0 e1) v ;;
                  if supp then
                    t <- dec_mul result vsupp ;; u <- dec_div t dec_100 ;; dec_add result u
                  else Ok result) = Ok montant
                 /\ coeff montant = 0).
    { intros v supp vsupp.
      destruct (dec_mul_zero (mkDecimal 0 e1) v (or_introl eq_refl)) as [e2 ->]. cbn [bind].
      destruct supp; [| eexists; split; reflexivity].
      destruct (dec_mul_zero (mkDecimal 0 e2) vsupp (or_introl eq_refl)) as [e3 ->].
      cbn [bind].
      destruct (dec_div_zero (mkDecimal 0 e3) dec_100 eq_refl) as [e4 ->];
        [discriminate |]. cbn [bind].
      destruct (dec_add_zero (mkDecimal 0 e2) (mkDecimal 0 e4) eq_refl eq_refl) as [e5 ->].
      eexists; split; reflexivity. }
    destruct est; apply Hbranch. }
  split; [exact Hcalc |].
  intros s sctl annee. unfold calculate_fermage.
  match goal with
  | |- context [calculer_montant_fermage ?p ?su ?est ?vg ?vs ?sg ?ss ?vsg ?vss] =>
      destruct (Hcalc est vg vs sg ss vsg vss) as [montant [-> Hm]]
  end.
  cbn [bind]. eexists. split; [reflexivity | exact Hm].
Qed.

Lemma zero_points_zero_rent_witness :
  exists calcul,
    calculate_fermage fermage_demo (mkDecimal 0 (-4)) (mkDecimal 25000 (-4)) true (Some 2024)
    = Ok calcul
    /\ coeff (montant_fermage calcul) = 0.
Proof.
  exact (proj2 (zero_points_zero_rent (mkDecimal 0 (-4)) (mkDecimal 25000 (-4))
                  (or_introl eq_refl))
               fermage_demo true (Some 2024)).
Defined.

(** ** What the fermage computations can raise *)

(** X24.  The only exception that leaves [calculate_fermage],
    [get_fermages_totaux] or [get_parcelle_with_details] is
    [decimal.Overflow]: no division by zero, no invalid operation and no
    database error. *)
Theorem fermage_raises_only_overflow (e : error) :
  (forall s point_fermage surface sctl annee,
      calculate_fermage s point_fermage surface sctl annee = Raise e ->
      e = DecimalOverflow)
  /\ (forall s annee f, get_fermages_totaux s annee f = Raise e -> e = DecimalOverflow)
  /\ (forall strip s r parcelle_id valeur_point,
         get_parcelle_with_details strip s r parcelle_id valeur_point = Raise e ->
         e = DecimalOverflow).
Proof.
  split; [| split].
  - intros s pf su sctl annee. unfold calculate_fermage.
    destruct (calculer_montant_fermage _ _ _ _ _ _ _ _ _) as [m | e0] eqn:E; cbn [bind];
      [discriminate |].
    intros H. inversion H. subst e0. eapply calculer_montant_fermage_error. exact E.
  - intros s annee f. unfold get_fermages_totaux. rewrite get_fermage_totaux_spec.
    unfold dec_sum.
    destruct (dec_sum_from dec_0 (map Subdivision.surface (fermage_statement s f)))
      as [ts | e0] eqn:E0; cbn [bind];
      [| intros H; inversion H; subst e0; eapply dec_sum_from_error; exact E0].
    destruct (dec_sum_from dec_0 (map Subdivision.revenu (fermage_statement s f)))
      as [tr | e1] eqn:E1; cbn [bind];
      [| intros H; inversion H; subst e1; eapply dec_sum_from_error; exact E1].
    destruct (valeur_point_for s annee) as [vp |]; cbn [bind]; [| discriminate].
    destruct (map_result (montant_subdivision s vp) (fermage_statement s f))
      as [ms | e2] eqn:E2; cbn [bind].
    + destruct (dec_sum_from dec_0 ms) as [tm | e3] eqn:E3; cbn [bind]; [discriminate |].
      intros H; inversion H; subst e3. eapply dec_sum_from_error; exact E3.
    + intros H; inversion H; subst e2.
      eapply (map_result_error (montant_subdivision s vp));
        [intros a e'; apply montant_subdivision_error | exact E2].
  - intros strip s r pid valeur_point. unfold get_parcelle_with_details.
    destruct (session_get Parcelle.id (parcelles s) pid); [| discriminate].
    destruct (first_subdivision s pid); [| discriminate].
    destruct valeur_point; [| discriminate].
    destruct (calculer_montant_fermage _ _ _ _ _ _ _ _ _) as [m | e0] eqn:E; cbn [bind];
      [discriminate |].
    intros H. inversion H. subst e0. eapply calculer_montant_fermage_error. exact E.
Qed.

(** A product beyond the largest exponent of the context. *)
Lemma fermage_raises_only_overflow_witness :
  calculate_fermage empty_session (mkDecimal 1 999999) (mkDecimal 10 0) false None
  = Raise DecimalOverflow.
Proof.
  assert (H : exists e,
             calculate_fermage empty_session (mkDecimal 1 999999) (mkDecimal 10 0) false None
             = Raise e)
    by (eexists; vm_compute; reflexivity).
  destruct H as [e H].
  rewrite (proj1 (fermage_raises_only_overflow e) _ _ _ _ _ H) in H. exact H.
Defined.

(** ** The supplements *)

Lemma map_result_ext {A B : Type} (g h : A -> result B) (l : list A) :
  (forall a, g a = h a) -> map_result g l = map_result h l.
Proof.
  intros Hgh. induction l as [| x l IH]; [reflexivity |].
  cbn [map_result]. rewrite Hgh, IH. reflexivity.
Qed.

(** X25.  The supplement percentages of a year are never applied:
    [get_fermage_totaux], [get_parcelle_with_details] and the route
    [calculate_fermage] answer the same for two rows of point values that
    agree on [valeur_point_gfa] and [valeur_point_sctl], whatever their
    [valeur_supp_gfa] and [valeur_supp_sctl]. *)
Theorem supplements_are_never_applied (vp vp' : ValeurPoint.t) :
  ValeurPoint.valeur_point_gfa vp = ValeurPoint.valeur_point_gfa vp' ->
  ValeurPoint.valeur_point_sctl vp = ValeurPoint.valeur_point_sctl vp' ->
  (forall s f, get_fermage_totaux s f (Some vp) = get_fermage_totaux s f (Some vp'))
  /\ (forall strip s r parcelle_id,
         get_parcelle_with_details strip s r parcelle_id (Some vp)
         = get_parcelle_with_details strip s r parcelle_id (Some vp'))
  /\ (forall s s' point_fermage surface sctl annee,
         valeur_point_for s annee = Some vp ->
         valeur_point_for s' annee = Some vp' ->
         calculate_fermage s point_fermage surface sctl annee
         = calculate_fermage s' point_fermage surface sctl annee).
Proof.
  intros Hgfa Hsctl.
  assert (Hcalc : forall p su est vg vs vsg vss vsg' vss',
             calculer_montant_fermage p su est vg vs false false vsg vss
             = calculer_montant_fermage p su est vg vs false false vsg' vss').
  { intros. unfold calculer_montant_fermage. destruct est; reflexivity. }
  split; [| split].
  - intros s f. rewrite !get_fermage_totaux_spec.
    rewrite (map_result_ext (montant_subdivision s vp) (montant_subdivision s vp'));
      [reflexivity |].
    intros sub. unfold montant_subdivision. rewrite Hgfa, Hsctl. apply Hcalc.
  - intros strip s r pid. unfold get_parcelle_with_details.
    destruct (session_get Parcelle.id (parcelles s) pid); [| reflexivity].
    destruct (first_subdivision s pid); [| reflexivity].
    rewrite Hgfa, Hsctl.
    rewrite (Hcalc _ _ _ _ _ (ValeurPoint.valeur_supp_gfa vp) (ValeurPoint.valeur_supp_sctl vp)
                   (ValeurPoint.valeur_supp_gfa vp') (ValeurPoint.valeur_supp_sctl vp')).
    reflexivity.
  - intros s s' pf su sctl annee Hs Hs'. unfold calculate_fermage.
    rewrite Hs, Hs', Hgfa, Hsctl.
    rewrite (Hcalc _ _ _ _ _
                   (dec_or (ValeurPoint.valeur_supp_gfa vp) dec_0_0)
                   (dec_or (ValeurPoint.valeur_supp_sctl vp) dec_0_0)
                   (dec_or (ValeurPoint.valeur_supp_gfa vp') dec_0_0)
                   (dec_or (ValeurPoint.valeur_supp_sctl vp') dec_0_0)).
    reflexivity.
Qed.

(** The totals of the example do not move when the supplements of 2024 go
    from 5 % and 0 % to 99 % each. *)
Lemma supplements_are_never_applied_witness :
  get_fermage_totaux fermage_demo no_fermage_filter (Some demo_valeur_point)
  = get_fermage_totaux fermage_demo no_fermage_filter
      (Some (ValeurPoint.mk 1 2024 (mkDecimal 16900 (-4)) (mkDecimal 15000 (-4))
                            (mkDecimal 9900 (-2)) (mkDecimal 9900 (-2)))).
Proof.
  exact (proj1 (supplements_are_never_applied demo_valeur_point
                  (ValeurPoint.mk 1 2024 (mkDecimal 16900 (-4)) (mkDecimal 15000 (-4))
                                  (mkDecimal 9900 (-2)) (mkDecimal 9900 (-2)))
                  eq_refl eq_refl)
               fermage_demo no_fermage_filter).
Defined.

(** ** Looking a part up by its number *)

(** X26.  [get_numero_part_by_num] and the listing agree: the lookup finds
    nothing exactly when [get_numeros_parts], filtered on the same number
    and structure, counts no part; a part it finds has that number, belongs
    to that structure when one is given, and is on the full page of that
    listing. *)
Theorem get_numero_part_by_num_listed (s : Session) (num_part : Z) (id_structure : option Z) :
  let f := mkNumeroPartFilters None id_structure None None None None (Some num_part) in
  (get_numero_part_by_num s num_part id_structure = None
   <-> forall skip limit, snd (get_numeros_parts s skip limit f) = 0)
  /\ forall p,
       get_numero_part_by_num s num_part id_structure = Some p ->
       NumeroPart.num_part p = num_part
       /\ (forall i, id_structure = Some i -> NumeroPart.id_structure p = Some i)
       /\ In p (fst (get_numeros_parts s 0 (length (numeros_parts s)) f)).
Proof.
  intros f.
  assert (Hmatch : forall p,
             numero_part_matches f p
             = (NumeroPart.num_part p =? num_part)
               && where_opt id_structure (fun i => col_eqb (NumeroPart.id_structure p) i)).
  { intros p. unfold numero_part_matches, f.
    cbn [np_id_personne np_id_structure np_termine np_distribue np_num_part_min
         np_num_part_max np_num_part where_opt andb].
    rewrite !andb_true_r. apply andb_comm. }
  unfold get_numero_part_by_num, get_numeros_parts. cbn [fst snd].
  rewrite (filter_ext _ _ Hmatch).
  split.
  - split.
    + intros Hnone skip limit.
      replace (filter _ (numeros_parts s)) with (@nil NumeroPart.t); [reflexivity |].
      symmetry. induction (numeros_parts s) as [| p l IH]; [reflexivity |].
      cbn [find filter] in *.
      destruct ((NumeroPart.num_part p =? num_part) && _); [discriminate | auto].
    + intros Hcount. specialize (Hcount 0%nat 0%nat).
      induction (numeros_parts s) as [| p l IH]; [reflexivity |].
      cbn [find filter] in *.
      destruct ((NumeroPart.num_part p =? num_part) && _);
        [unfold count in Hcount; cbn [length] in Hcount; lia | auto].
  - intros p Hfind. apply find_some in Hfind. destruct Hfind as [Hin Hp].
    pose proof Hp as Hp'. apply andb_true_iff in Hp'. destruct Hp' as [Hnum Hstruct].
    split; [lia |]. split.
    + intros i ->. cbn [where_opt] in Hstruct. unfold col_eqb in Hstruct.
      destruct (NumeroPart.id_structure p) as [c |]; [| discriminate]. f_equal. lia.
    + rewrite page_all.
      * apply In_order_by. apply filter_In. split; assumption.
      * rewrite order_by_length. apply filter_length_le.
Qed.

(** Part 101 of the example, looked up under structure 1. *)
Lemma get_numero_part_by_num_listed_witness :
  In (NumeroPart.mk 1 101 false false 0 40 None (Some 1))
     (fst (get_numeros_parts ledger_demo 0 (length (numeros_parts ledger_demo))
             (mkNumeroPartFilters None (Some 1) None None None None (Some 101)))).
Proof.
  exact (proj2 (proj2 (proj2 (get_numero_part_by_num_listed ledger_demo 101 (Some 1))
                             (NumeroPart.mk 1 101 false false 0 40 None (Some 1))
                             eq_refl))).
Defined.

(** ** Mouvements with their details *)






(** ** The part numbers of a mouvement *)

Lemma dict_get_set {V : Type} (d : dict V) (k : Z) (v : V) (k' : Z) :
  dict_get (dict_set d k v) k' = if k =? k' then Some v else dict_get d k'.
Proof.
  unfold dict_get. induction d as [| kv d IH]; cbn [dict_set find fst snd].
  - destruct (k =? k'); reflexivity.
  - destruct (Z.eqb_spec (fst kv) k) as [Hk | Hk]; cbn [find fst snd].
    + rewrite Hk. destruct (k =? k'); reflexivity.
    + destruct (Z.eqb_spec (fst kv) k') as [Hk' | Hk'].
      * destruct (Z.eqb_spec k k'); [congruence | reflexivity].
      * exact IH.
Qed.

Lemma count_loop_get (count_results : list (Z * Z)) (k : Z) :
  forall d,
    dict_get (fold_left (fun d row => dict_set d (fst row) (snd row)) count_results d) k
    = match find (fun kv => fst kv =? k) (rev count_results) with
      | Some kv => Some (snd kv)
      | None => dict_get d k
      end.
Proof.
  induction count_results as [| x l IH]; intros d; [reflexivity |].
  cbn [fold_left rev]. rewrite IH, find_app. cbn [find].
  destruct (find (fun kv => fst kv =? k) (rev l)); [reflexivity |].
  rewrite dict_get_set. destruct (fst x =? k); reflexivity.
Qed.

Lemma find_keyed (F : Z -> Z) (k : Z) (l : list Z) :
  find (fun kv => fst kv =? k) (map (fun k' => (k', F k')) l)
  = if existsb (Z.eqb k) l then Some (k, F k) else None.
Proof.
  induction l as [| x l IH]; [reflexivity |].
  cbn [map find existsb fst]. rewrite (Z.eqb_sym k x).
  destruct (Z.eqb_spec x k) as [-> | _]; [reflexivity | exact IH].
Qed.

Lemma count_loop_group_count (keys : list Z) (k : Z) :
  dict_get_or (count_loop (group_count keys)) k 0 = Z.of_nat (count_occ Z.eq_dec keys k).
Proof.
  unfold dict_get_or, count_loop. rewrite count_loop_get.
  unfold group_count. rewrite <- map_rev, find_keyed.
  destruct (existsb (Z.eqb k) (rev (nodup Z.eq_dec keys))) eqn:E; cbn [snd]; [reflexivity |].
  change (dict_get (@nil (Z * Z)) k) with (@None Z). cbv iota.
  change 0 with (Z.of_nat 0). f_equal. symmetry.
  apply count_occ_not_In. intros Hin.
  assert (Hrev : existsb (Z.eqb k) (rev (nodup Z.eq_dec keys)) = true).
  { apply existsb_eqb_In. apply in_rev. rewrite rev_involutive.
    apply nodup_In. exact Hin. }
  congruence.
Qed.

Lemma parts_of_mouvement (ids : list Z) (table : list NumeroPart.t) (k : Z) :
  existsb (Z.eqb k) ids = true ->
  map snd (filter (fun row => fst row =? k) (parts_of_mouvements ids table))
  = map NumeroPart.num_part
        (filter (fun p => col_eqb (NumeroPart.id_mouvement p) k) table).
Proof.
  intros Hk. unfold parts_of_mouvements.
  induction table as [| p table IH]; [reflexivity |].
  cbn [flat_map filter]. rewrite filter_app, map_app, IH. clear IH.
  destruct (NumeroPart.id_mouvement p) as [m |]; cbn [col_eqb]; [| reflexivity].
  destruct (existsb (Z.eqb m) ids) eqn:Em.
  - cbn [filter fst]. destruct (m =? k); reflexivity.
  - destruct (Z.eqb_spec m k) as [-> | _]; [congruence | reflexivity].
Qed.

Lemma parts_count_of_mouvement (ids : list Z) (table : list NumeroPart.t) (k : Z) :
  existsb (Z.eqb k) ids = true ->
  dict_get_or (count_loop (group_count (map fst (parts_of_mouvements ids table)))) k 0
  = count (filter (fun p => col_eqb (NumeroPart.id_mouvement p) k) table).
Proof.
  intros Hk. rewrite count_loop_group_count.
  rewrite <- (filter_all (fun _ => true) (parts_of_mouvements ids table)) at 1
    by reflexivity.
  rewrite count_occ_keys. unfold count. f_equal.
  rewrite <- (length_map NumeroPart.num_part), <- (parts_of_mouvement ids table k Hk).
  rewrite length_map. f_equal. apply filter_ext. intros row. apply andb_true_r.
Qed.

Lemma capped_append (max_parts_display : Z) (l : list Z) :
  forall l0,
    fold_left (fun acc n => if Z.of_nat (length acc) <? max_parts_display
                            then acc ++ [n] else acc) l l0
    = l0 ++ firstn (Z.to_nat max_parts_display - length l0) l.
Proof.
  induction l as [| n l IH]; intros l0; cbn [fold_left].
  - rewrite firstn_nil, app_nil_r. reflexivity.
  - destruct (Z.ltb_spec (Z.of_nat (length l0)) max_parts_display) as [Hlt | Hge].
    + rewrite IH, length_app. cbn [length].
      replace (Z.to_nat max_parts_display - length l0)%nat
        with (S (Z.to_nat max_parts_display - (length l0 + 1)))%nat by lia.
      cbn [firstn]. rewrite <- app_assoc. reflexivity.
    + rewrite IH.
      replace (Z.to_nat max_parts_display - length l0)%nat with 0%nat by lia.
      reflexivity.
Qed.

Lemma parts_step_get (max_parts_display : Z) (d : dict (list Z)) (row : Z * Z) (k : Z) :
  dict_get_or (parts_step max_parts_display d row) k []
  = if fst row =? k
    then (if Z.of_nat (length (dict_get_or d k [])) <? max_parts_display
          then dict_get_or d k [] ++ [snd row] else dict_get_or d k [])
    else dict_get_or d k [].
Proof.
  unfold parts_step, dict_get_or.
  destruct (Z.eqb_spec (fst row) k) as [-> | Hneq].
  - destruct (dict_get d k) as [l |] eqn:E.
    + rewrite E. destruct (Z.of_nat (length l) <? max_parts_display).
      * rewrite dict_get_set, Z.eqb_refl. reflexivity.
      * rewrite E. reflexivity.
    + rewrite dict_get_set, Z.eqb_refl.
      destruct (Z.of_nat (length (@nil Z)) <? max_parts_display).
      * rewrite dict_get_set, Z.eqb_refl. reflexivity.
      * rewrite dict_get_set, Z.eqb_refl. reflexivity.
  - assert (Hset : forall (d' : dict (list Z)) v,
               dict_get (dict_set d' (fst row) v) k = dict_get d' k).
    { intros d' v. rewrite dict_get_set.
      destruct (Z.eqb_spec (fst row) k); [contradiction | reflexivity]. }
    destruct (dict_get d (fst row)) as [l |] eqn:E.
    + rewrite E. destruct (Z.of_nat (length l) <? max_parts_display);
        rewrite ?Hset; reflexivity.
    + rewrite dict_get_set, Z.eqb_refl.
      destruct (Z.of_nat (length (@nil Z)) <? max_parts_display); rewrite ?Hset; reflexivity.
Qed.

Lemma parts_loop_get (max_parts_display : Z) (rows : list (Z * Z)) (k : Z) :
  forall d,
    dict_get_or (fold_left (parts_step max_parts_display) rows d) k []
    = fold_left (fun acc n => if Z.of_nat (length acc) <? max_parts_display
                              then acc ++ [n] else acc)
                (map snd (filter (fun row => fst row =? k) rows))
                (dict_get_or d k []).
Proof.
  induction rows as [| row rows IH]; intros d; [reflexivity |].
  cbn [fold_left filter]. rewrite IH, parts_step_get.
  destruct (fst row =? k); reflexivity.
Qed.

Lemma StronglySorted_filter {A : Type} (R : A -> A -> Prop) (g : A -> bool) (l : list A) :
  StronglySorted R l -> StronglySorted R (filter g l).
Proof.
  induction 1 as [| x l _ IH Hall]; cbn [filter]; [constructor |].
  destruct (g x); [| exact IH].
  constructor; [exact IH |].
  rewrite Forall_forall in *. intros y Hy. apply filter_In in Hy. apply Hall. apply Hy.
Qed.

Lemma mvt_num_le_total (a b : Z * Z) : mvt_num_le a b = false -> mvt_num_le b a = true.
Proof. unfold mvt_num_le. bool_to_Z. lia. Qed.

Lemma mvt_num_le_trans (a b c : Z * Z) :
  mvt_num_le a b = true -> mvt_num_le b c = true -> mvt_num_le a c = true.
Proof. unfold mvt_num_le. bool_to_Z. lia. Qed.

Lemma parts_list_of_mouvement (max_parts_display : Z) (ids : list Z)
    (table : list NumeroPart.t) (k : Z) :
  existsb (Z.eqb k) ids = true ->
  exists sorted,
    StronglySorted Z.le sorted
    /\ Permutation sorted
         (map NumeroPart.num_part
              (filter (fun p => col_eqb (NumeroPart.id_mouvement p) k) table))
    /\ dict_get_or
         (fold_left (parts_step max_parts_display)
                    (order_by mvt_num_le (parts_of_mouvements ids table)) [])
         k []
       = firstn (Z.to_nat max_parts_display) sorted.
Proof.
  intros Hk.
  exists (map snd (filter (fun row => fst row =? k)
                          (order_by mvt_num_le (parts_of_mouvements ids table)))).
  split; [| split].
  - apply (StronglySorted_map_in (fun a b => mvt_num_le a b = true /\ fst a = k /\ fst b = k)).
    + intros x y _ _ [Hle [Hx Hy]]. unfold mvt_num_le in Hle.
      revert Hle. bool_to_Z. lia.
    + assert (Hs := StronglySorted_filter _ (fun row => fst row =? k) _
                      (order_by_sorted mvt_num_le mvt_num_le_total mvt_num_le_trans
                                       (parts_of_mouvements ids table))).
      set (l := filter _ _) in *.
      assert (Hkeys : forall x, In x l -> fst x = k).
      { intros x Hx. apply filter_In in Hx. lia. }
      clearbody l. induction Hs as [| x l Hs IH Hall]; constructor.
      * apply IH. intros y Hy. apply Hkeys. right. exact Hy.
      * rewrite Forall_forall in *. intros y Hy.
        split; [exact (Hall y Hy) |].
        split; apply Hkeys; [left; reflexivity | right; exact Hy].
  - rewrite <- (parts_of_mouvement ids table k Hk).
    apply Permutation_map, Permutation_filter, order_by_perm.
  - rewrite parts_loop_get, capped_append. cbn [dict_get_or dict_get find app length].
    rewrite Nat.sub_0_r. reflexivity.
Qed.

(** X28.  For each mouvement it lists, [get_mouvements_with_details] counts
    all the parts whose [id_mouvement] is that mouvement and shows their
    numbers in ascending order, cut after [max_parts_display] numbers: the
    smallest ones. *)
Theorem get_mouvements_with_details_parts (s : Session) (skip limit : nat)
    (f : MouvementFilters) (max_parts_display : Z) (d : MouvementWithDetails.t) :
  In d (fst (get_mouvements_with_details s skip limit f max_parts_display)) ->
  MouvementWithDetails.numeros_parts_count d
  = count (filter (fun p => col_eqb (NumeroPart.id_mouvement p)
                                    (Mouvement.id (MouvementWithDetails.mouvement d)))
                  (numeros_parts s))
  /\ exists sorted,
       StronglySorted Z.le sorted
       /\ Permutation sorted
            (map NumeroPart.num_part
                 (filter (fun p => col_eqb (NumeroPart.id_mouvement p)
                                           (Mouvement.id (MouvementWithDetails.mouvement d)))
                         (numeros_parts s)))
       /\ MouvementWithDetails.numeros_parts d = firstn (Z.to_nat max_parts_display) sorted.
Proof.
  unfold get_mouvements_with_details. cbn [fst].
  set (results := page skip limit _).
  intros Hd. apply in_map_iff in Hd. destruct Hd as [row [<- Hrow]].
  cbn [MouvementWithDetails.mouvement MouvementWithDetails.numeros_parts
       MouvementWithDetails.numeros_parts_count].
  assert (Hk : In (Mouvement.id (fst (fst row)))
                  (map (fun row => Mouvement.id (fst (fst row))) results)).
  { apply in_map_iff. exists row. split; [reflexivity | exact Hrow]. }
  destruct (map (fun row => Mouvement.id (fst (fst row))) results) as [| i rest];
    [contradiction |].
  apply existsb_eqb_In in Hk.
  split.
  - apply parts_count_of_mouvement. exact Hk.
  - apply parts_list_of_mouvement. exact Hk.
Qed.

(** Mouvement 1 of the example holds the parts 105, 101 and 103: the count
    is 3 and, cut after two numbers, the list is 101, 103. *)
Lemma get_mouvements_with_details_parts_witness :
  exists d,
    In d (fst (get_mouvements_with_details details_demo 0 10 no_mouvement_filter 2))
    /\ MouvementWithDetails.mouvement d = mouvement_A
    /\ MouvementWithDetails.numeros_parts d = [101; 103]
    /\ MouvementWithDetails.numeros_parts_count d
       = count (filter (fun p => col_eqb (NumeroPart.id_mouvement p) 1)
                       (numeros_parts details_demo)).
Proof.
  exists (MouvementWithDetails.mk mouvement_A (Some "Durand"%string) None (Some "AGE2020"%string)
            (Some (mkDate 2020 1 1)) [101; 103] 3).
  assert (Hin : In (MouvementWithDetails.mk mouvement_A (Some "Durand"%string) None (Some "AGE2020"%string)
                      (Some (mkDate 2020 1 1)) [101; 103] 3)
                   (fst (get_mouvements_with_details details_demo 0 10
                           no_mouvement_filter 2))).
  { vm_compute. auto. }
  split; [exact Hin | split; [reflexivity | split; [reflexivity |]]].
  exact (proj1 (get_mouvements_with_details_parts details_demo 0 10 no_mouvement_filter 2
                  _ Hin)).
Defined.
